(** * Price-comparison front end: a shallow embedding and its properties

    The development embeds the logic of the browser-side price tracker:

    - [PriceChart.calculateStats] and the buy recommendation
      (static/js/components/PriceChart.js),
    - the API client [searchProducts], [getPriceHistory], [updatePrices]
      and [ProductSearch.saveSearch] (the api and search-box scripts),
    - the comparison table's [sortedProducts], [requestSort] and the two
      badge functions, and the [getSiteInfo] of the card and of the table
      (static/js/components/ProductCard.js),
    - the root component's [getBestDeal], [getAllProducts],
      [handleSearch], [handleProductSelect] and the guards of its panels,
    - the search box's [handleSubmit] and click handlers,
    - the chart effect of [PriceChart] up to the call of the chart
      library, and the change summary.

    JavaScript numbers are IEEE-754 binary64 values; they are modelled by the
    Standard Library's [spec_float] at precision 53 and maximal exponent 1024,
    so that rounding, infinities and NaN behave as they do in the browser.
    JavaScript values that reach the code through JSON are modelled by the
    inductive type [JsVal].  Exceptions are modelled in ExtLib's error monad
    [sum JsVal]: [inl e] is a thrown value, [inr v] a normal completion. *)

From Stdlib Require Import ZArith List Bool String Ascii Lia.
From Stdlib Require Import Sorted Permutation.
From Stdlib Require Import Floats.SpecFloat.
From Stdlib Require Import Decimal DecimalString.
From ExtLib Require Import Structures.Monad Structures.MonadExc.
From ExtLib Require Import Data.Monads.EitherMonad.
Import ListNotations.
Import MonadNotation.
Local Open Scope monad_scope.
Local Open Scope string_scope.

(* ===================================================================== *)
(** * Part I: definitions                                                 *)
(* ===================================================================== *)

(** ** JavaScript numbers *)

Module Num.

Definition num : Type := spec_float.

Definition prec : Z := 53.
Definition emax : Z := 1024.

Definition NaN : num := S754_nan.
Definition PosInf : num := S754_infinity false.
Definition NegInf : num := S754_infinity true.
Definition zero : num := S754_zero false.

Definition add : num -> num -> num := SFadd prec emax.
Definition sub : num -> num -> num := SFsub prec emax.
Definition mul : num -> num -> num := SFmul prec emax.
Definition div : num -> num -> num := SFdiv prec emax.

(** [x < y], [x <= y] and [x === y] on numbers: all false on NaN. *)
Definition ltb : num -> num -> bool := SFltb.
Definition leb : num -> num -> bool := SFleb.
Definition eqb : num -> num -> bool := SFeqb.

Definition is_nan (x : num) : bool :=
  match x with S754_nan => true | _ => false end.

Definition is_zero (x : num) : bool :=
  match x with S754_zero _ => true | _ => false end.

(** The number denoted by an integer literal, rounded to nearest-even. *)
Definition ofZ (z : Z) : num := binary_normalize prec emax z 0 false.

Definition ofNat (n : nat) : num := ofZ (Z.of_nat n).

(** The number denoted by the decimal literal [m / 10^k].  Both operands
    are exact for the literals used here, so the correctly rounded
    quotient is the double nearest to the decimal. *)
Definition dec (m : Z) (k : nat) : num := div (ofZ m) (ofZ (10 ^ Z.of_nat k)).

(** A double in its canonical representation (mantissa of 53 bits, or
    fewer at the least exponent -1074; exponent in range), as every
    number produced by a parser or by an operation is. *)
Definition valid (x : num) : bool := valid_binary prec emax x.

(** A canonical finite double above zero. *)
Definition finitePositive (x : num) : bool :=
  match x with
  | S754_finite false _ _ => valid x
  | _ => false
  end.

(** The exact value of a finite double, times [2 ^ 1074]: an integer,
    since no canonical exponent is below -1074. *)
Definition scaled (x : num) : Z :=
  match x with
  | S754_finite s m e => cond_Zopp s (Zpos m * 2 ^ (e + 1074))
  | _ => 0
  end.

(** [0 < x] *)
Definition positive (x : num) : Prop := ltb zero x = true.

(** [Math.min(...xs)]: NaN if any argument is NaN; starts from [+Infinity];
    [-0] is below [+0]. *)
Definition min_step (lowest x : num) : num :=
  if is_nan lowest || is_nan x then NaN
  else match x, lowest with
       | S754_zero true, S754_zero false => x
       | _, _ => if ltb x lowest then x else lowest
       end.

Definition Math_min (xs : list num) : num := fold_left min_step xs PosInf.

(** [Math.max(...xs)]: NaN if any argument is NaN; starts from [-Infinity];
    [+0] is above [-0]. *)
Definition max_step (highest x : num) : num :=
  if is_nan highest || is_nan x then NaN
  else match x, highest with
       | S754_zero false, S754_zero true => x
       | _, _ => if ltb highest x then x else highest
       end.

Definition Math_max (xs : list num) : num := fold_left max_step xs NegInf.

End Num.

(** ** JavaScript values *)

Module Js.

(** The values JSON can carry, plus [undefined]. An object is the list of
    its own properties; the first binding of a key is the one read. *)
#[warnings="-register-all"] Inductive JsVal : Type :=
| JUndefined
| JNull
| JBool (b : bool)
| JNum (x : Num.num)
| JStr (s : string)
| JArr (items : list JsVal)
| JObj (fields : list (string * JsVal)).

(** A completion: a value or a thrown value. *)
Definition Completion (A : Type) : Type := sum JsVal A.

Definition Normal {A : Type} (a : A) : Completion A := inr a.
Definition Throw {A : Type} (e : JsVal) : Completion A := inl e.

(** Sequencing ([await], statement order) and [throw] / [try]-[catch]. *)
#[global] Instance Monad_Completion : Monad Completion := Monad_either JsVal.
#[global] Instance Exception_Completion : MonadExc JsVal Completion :=
  Exception_either JsVal.

(** [ToBoolean]. *)
Definition truthy (v : JsVal) : bool :=
  match v with
  | JUndefined | JNull => false
  | JBool b => b
  | JNum x => negb (Num.is_nan x || Num.is_zero x)
  | JStr s => negb (s =? "")
  | JArr _ | JObj _ => true
  end.

Definition nullish (v : JsVal) : bool :=
  match v with JUndefined | JNull => true | _ => false end.

Fixpoint lookup (k : string) (fields : list (string * JsVal)) : JsVal :=
  match fields with
  | [] => JUndefined
  | (k', v) :: rest => if k' =? k then v else lookup k rest
  end.

(** [v.k] on a value that is neither null nor undefined, for a key [k]
    that is not a built-in property of primitives or arrays. *)
Definition get (v : JsVal) (k : string) : JsVal :=
  match v with
  | JObj fields => lookup k fields
  | _ => JUndefined
  end.

(** An [Error] object carrying [message]. *)
Definition mkError (message : string) : JsVal :=
  JObj [("message", JStr message)].

Definition TypeError (message : string) : JsVal :=
  JObj [("message", JStr message); ("name", JStr "TypeError")].

(** [v.k] in general: reading a property of null or undefined throws. *)
Definition member (v : JsVal) (k : string) : Completion JsVal :=
  if nullish v
  then Throw (TypeError ("Cannot read properties of "
                         ++ match v with JUndefined => "undefined" | _ => "null" end
                         ++ " (reading '" ++ k ++ "')"))
  else Normal (get v k).

(** [v?.k] *)
Definition opt_member (v : JsVal) (k : string) : JsVal :=
  if nullish v then JUndefined else get v k.

(** [a || b] and [a ?? b] *)
Definition orElse (a b : JsVal) : JsVal := if truthy a then a else b.
Definition coalesce (a b : JsVal) : JsVal := if nullish a then b else a.

Definition isArray (v : JsVal) : bool :=
  match v with JArr _ => true | _ => false end.

Definition items_of (v : JsVal) : list JsVal :=
  match v with JArr items => items | _ => [] end.

(** [typeof v === 'number'] *)
Definition is_number (v : JsVal) : bool :=
  match v with JNum _ => true | _ => false end.

(** Whether [v] converts to a primitive at all. A plain object converts
    through the [toString] it inherits, an array through [join], which
    converts the elements; an object with an own property named [toString]
    (never a function in a value that came out of JSON) has no usable
    conversion, and converting it throws a [TypeError]. *)
Fixpoint convertible (v : JsVal) : bool :=
  match v with
  | JObj fields => negb (existsb (fun field => fst field =? "toString") fields)
  | JArr items => forallb convertible items
  | _ => true
  end.

(** The conversions the host performs and this development does not spell
    out: parsing a string as a numeric literal, and printing a value that
    is not already a string. *)
Class Host : Type := {
  StringToNumber : string -> Num.num;
  HostToString : JsVal -> string
}.

Section Coercions.
Context `{Host}.

Definition ToString (v : JsVal) : string :=
  match v with
  | JStr s => s
  | _ => HostToString v
  end.

(** [ToPrimitive]: a plain object or an array converts through its
    [toString]. This is the conversion of the values that are
    [convertible]; on the others the conversion throws, which this
    function, and with it [ToString], [ToNumber] and the operators below,
    does not show. *)
Definition ToPrimitive (v : JsVal) : JsVal :=
  match v with
  | JArr _ | JObj _ => JStr (HostToString v)
  | _ => v
  end.

Definition ToNumber (v : JsVal) : Num.num :=
  match ToPrimitive v with
  | JUndefined => Num.NaN
  | JNull => Num.zero
  | JBool b => if b then Num.ofZ 1 else Num.zero
  | JNum x => x
  | JStr s => StringToNumber s
  | JArr _ | JObj _ => Num.NaN
  end.

(** The abstract relational comparison [x < y]: [None] is its
    [undefined] result. Two strings compare by code units, anything
    else numerically. *)
Definition IsLessThan (x y : JsVal) : option bool :=
  match ToPrimitive x, ToPrimitive y with
  | JStr s, JStr t => Some (String.ltb s t)
  | px, py =>
      let nx := ToNumber px in
      let ny := ToNumber py in
      if Num.is_nan nx || Num.is_nan ny then None
      else Some (Num.ltb nx ny)
  end.

(** [a < b], [a > b], [a <= b], [a >= b] *)
Definition lessThan (a b : JsVal) : bool :=
  match IsLessThan a b with Some r => r | None => false end.

Definition greaterThan (a b : JsVal) : bool :=
  match IsLessThan b a with Some r => r | None => false end.

Definition lessOrEqual (a b : JsVal) : bool :=
  match IsLessThan b a with Some r => negb r | None => false end.

Definition greaterOrEqual (a b : JsVal) : bool :=
  match IsLessThan a b with Some r => negb r | None => false end.

(** [a * b] *)
Definition times (a b : JsVal) : Num.num := Num.mul (ToNumber a) (ToNumber b).

(** [new Error(message)] for a message that is not undefined. *)
Definition newError (message : JsVal) : JsVal := mkError (ToString message).

End Coercions.

(** A host to run examples on. Its two conversions are consulted only when
    a string or an object stands where a number or a message is expected;
    the examples have numbers and strings there. *)
Definition exampleHost : Host :=
  {| StringToNumber := fun _ => Num.NaN;
     HostToString := fun _ => "[object Object]" |}.

End Js.

Import Js.

(** ** The price chart: statistics and buy recommendation *)

Module PriceChart.

(** What [calculateStats] returns. The four price fields hold whatever the
    product's price is on the fallback path, so they are values; the change
    fields are always numbers, and [daysTracked] is an array length. *)
Record Stats : Type := {
  lowestPrice : JsVal;
  highestPrice : JsVal;
  averagePrice : JsVal;
  current : JsVal;
  priceChange : Num.num;
  priceChangePercent : Num.num;
  lowestDate : JsVal;
  highestDate : JsVal;
  daysTracked : nat
}.

(** The component's [chartError] state after the call: [Some msg] when
    [setChartError msg] ran. *)
Definition ChartError : Type := option string.

(** [product?.price || 0] *)
Definition defaultPriceOf (product : JsVal) : JsVal :=
  orElse (opt_member product "price") (JNum Num.zero).

(** The object both fallback returns build. *)
Definition fallbackStats (defaultPrice : JsVal) : Stats :=
  {| lowestPrice := defaultPrice;
     highestPrice := defaultPrice;
     averagePrice := defaultPrice;
     current := defaultPrice;
     priceChange := Num.zero;
     priceChangePercent := Num.zero;
     lowestDate := JNull;
     highestDate := JNull;
     daysTracked := 0 |}.

(** The filter predicate:
    [item && typeof item.price === 'number' && !isNaN(item.price) && item.price > 0]. *)
Definition validItem (item : JsVal) : bool :=
  truthy item &&
  match get item "price" with
  | JNum price => negb (Num.is_nan price) && Num.ltb Num.zero price
  | _ => false
  end.

(** [item.price] for an item that passed the filter (a number there). *)
Definition priceOf (item : JsVal) : Num.num :=
  match get item "price" with
  | JNum price => price
  | _ => Num.NaN
  end.

(** [validData.find(item => item.price === p)] *)
Definition findByPrice (p : Num.num) (validData : list JsVal) : option JsVal :=
  find (fun item => match get item "price" with
                    | JNum q => Num.eqb q p
                    | _ => false
                    end) validData.

(** [item?.date || null] for the result of [find]. *)
Definition dateOrNull (found : option JsVal) : JsVal :=
  match found with
  | Some item => orElse (opt_member item "date") JNull
  | None => JNull
  end.

(** The body of the [try] block, run on the elements of [historyData].
    (An engine's limit on the number of arguments a spread call may pass
    to [Math.min] and [Math.max] is not modelled.) *)
Definition statsBody (historyItems : list JsVal) : Completion Stats :=
  let validData := filter validItem historyItems in
  if Nat.eqb (List.length validData) 0
  then raise (mkError "No valid price data found")
  else
    let prices := map priceOf validData in
    let lowest := Num.Math_min prices in
    let highest := Num.Math_max prices in
    let average :=
      Num.div (fold_left Num.add prices Num.zero) (Num.ofNat (List.length prices)) in
    let lowestPriceItem := findByPrice lowest validData in
    let highestPriceItem := findByPrice highest validData in
    let cur := last prices Num.NaN in
    let first := hd Num.NaN prices in
    let change := Num.sub cur first in
    let changePercent :=
      if Num.ltb Num.zero first
      then Num.mul (Num.div change first) (Num.ofZ 100)
      else Num.zero in
    ret {| lowestPrice := JNum lowest;
           highestPrice := JNum highest;
           averagePrice := JNum average;
           current := JNum cur;
           priceChange := change;
           priceChangePercent := changePercent;
           lowestDate := dateOrNull lowestPriceItem;
           highestDate := dateOrNull highestPriceItem;
           daysTracked := List.length validData |}.

(** [calculateStats()] for the component's props [historyData] and
    [product]: the statistics and the chart error it sets. *)
Definition calculateStats (historyData product : JsVal)
  : Completion (Stats * ChartError) :=
  let defaultPrice := defaultPriceOf product in
  if negb (truthy historyData) || negb (isArray historyData)
     || Nat.eqb (List.length (items_of historyData)) 0
  then ret (fallbackStats defaultPrice, None)
  else
    catch (stats <- statsBody (items_of historyData) ;;
           ret (stats, None))
          (fun error =>
             ret (fallbackStats defaultPrice,
                  Some "Could not calculate price statistics due to invalid data.")).

(** The entries of the history that pass the validity filter; a history
    that is not an array has none. *)
Definition validData (historyData : JsVal) : list JsVal :=
  filter validItem (items_of historyData).

(** The prices of the valid entries, in the order of the history. *)
Definition pricesOf (historyData : JsVal) : list Num.num :=
  map priceOf (validData historyData).

(** The filter as the specification words it: entries with a finite
    positive numeric price. *)
Definition finitePositivePrice (item : JsVal) : bool :=
  truthy item &&
  match get item "price" with
  | JNum (S754_finite false _ _) => true
  | _ => false
  end.

(** The four messages of the buy-recommendation panel. *)
Inductive Recommendation : Type :=
| GreatTimeToBuy
| ConsiderWaiting
| GoodTimeToBuy
| MightWantToWait.

Section Recommendation.
Context `{Host}.

(** [stats.current <= stats.lowestPrice * 1.05] *)
Definition nearLowest (stats : Stats) : bool :=
  lessOrEqual (current stats) (JNum (times (lowestPrice stats) (JNum (Num.dec 105 2)))).

(** [stats.current >= stats.highestPrice * 0.95] *)
Definition nearHighest (stats : Stats) : bool :=
  greaterOrEqual (current stats) (JNum (times (highestPrice stats) (JNum (Num.dec 95 2)))).

(** [stats.current < stats.averagePrice] *)
Definition belowAverage (stats : Stats) : bool :=
  lessThan (current stats) (averagePrice stats).

(** The conditional of the panel:
    [nearLowest ? great : nearHighest ? wait : belowAverage ? good : neutral]. *)
Definition recommendation (stats : Stats) : Recommendation :=
  if nearLowest stats then GreatTimeToBuy
  else if nearHighest stats then ConsiderWaiting
  else if belowAverage stats then GoodTimeToBuy
  else MightWantToWait.

End Recommendation.

(** An entry whose price overflowed to [Infinity] when the response was
    parsed, and a product priced 5. *)
Definition infiniteEntry : JsVal :=
  JObj [("date", JStr "2024-01-01"); ("price", JNum Num.PosInf)].

Definition productAt5 : JsVal :=
  JObj [("id", JStr "p1"); ("price", JNum (Num.ofZ 5))].

(** A three-entry history whose lowest price 90 occurs twice, first on
    the later date, and whose highest price 120 occurs once. *)
Definition tiedHistory : JsVal :=
  JArr [JObj [("date", JStr "2024-03-01"); ("price", JNum (Num.ofZ 90))];
        JObj [("date", JStr "2024-01-01"); ("price", JNum (Num.ofZ 120))];
        JNull;
        JObj [("date", JStr "2024-02-01"); ("price", JNum (Num.ofZ 90))]].

(** Three days at the same price 100.1. *)
Definition flatHistory : JsVal :=
  JArr [JObj [("date", JStr "2024-01-01"); ("price", JNum (Num.dec 1001 1))];
        JObj [("date", JStr "2024-01-02"); ("price", JNum (Num.dec 1001 1))];
        JObj [("date", JStr "2024-01-03"); ("price", JNum (Num.dec 1001 1))]].

(** Statistics with lowest 100, highest 200, average 150 and current 104. *)
Definition sampleStats : Stats :=
  {| lowestPrice := JNum (Num.ofZ 100);
     highestPrice := JNum (Num.ofZ 200);
     averagePrice := JNum (Num.ofZ 150);
     current := JNum (Num.ofZ 104);
     priceChange := Num.ofZ 4;
     priceChangePercent := Num.ofZ 4;
     lowestDate := JStr "2024-01-01";
     highestDate := JStr "2024-02-01";
     daysTracked := 30 |}.

End PriceChart.

(** ** The API client *)

Module Api.

(** A [Response] as [fetch] delivers it: the [ok] flag, the numeric
    [status], and its body, which can be read once: [json] is what
    awaiting [response.json()] gives when the body has not been read
    before, [text] what awaiting [response.text()] gives then; each may
    throw. *)
Record Response : Type := {
  ok : bool;
  status : nat;
  json : Completion JsVal;
  text : Completion string
}.

(** What a second read of the body rejects with. *)
Definition bodyAlreadyRead : JsVal := TypeError "body stream already read".

(** [await response.json()] and [await response.text()], [bodyUsed]
    telling whether [json()] or [text()] has been called on the response
    before: the first call consumes the body, whether it succeeds or
    not, and any later one rejects. (On a response without a body the
    later [text()] gives the empty text instead, which the caller below
    treats as it treats a rejection.) *)
Definition readJson (response : Response) (bodyUsed : bool) : Completion JsVal :=
  if bodyUsed then Throw bodyAlreadyRead else json response.

Definition readText (response : Response) (bodyUsed : bool) : Completion string :=
  if bodyUsed then Throw bodyAlreadyRead else text response.

(** The status code printed in decimal, as the template literal does. *)
Definition statusText (n : nat) : string :=
  NilZero.string_of_uint (Nat.to_uint n).

(** [`Server error (${response.status})`] *)
Definition serverError (response : Response) : JsVal :=
  JStr ("Server error (" ++ statusText (status response) ++ ")").

(** The value of [errorMessage] when [throw new Error(errorMessage)] is
    reached in the [!response.ok] block, which is the first to read the
    body. When the inner [catch] runs, the [json()] of the [try] block
    has been called, so the body is used by then. *)
Definition resolveErrorMessage (defaultMessage : string) (response : Response)
  : Completion JsVal :=
  catch (errorData <- readJson response false ;;
         declared <- member errorData "error" ;;
         ret (orElse declared (JStr defaultMessage)))
        (fun jsonError =>
           catch (textContent <- readText response true ;;
                  if negb (textContent =? "") && Nat.ltb (String.length textContent) 100
                  then ret (JStr textContent)
                  else ret (serverError response))
                 (fun textError => ret (serverError response))).

Section Client.
Context `{Host}.

(** The body shared by the three operations. [fetched] is the outcome of
    awaiting [fetch(...)], including a throw while the request is built or
    sent; [defaultMessage] initialises [errorMessage], [outerMessage] is
    the message of the outer [catch], and [fallback] is returned when a
    successful response does not parse. *)
Definition request (defaultMessage outerMessage : string) (fallback : JsVal)
  (fetched : Completion Response) : Completion JsVal :=
  catch (response <- fetched ;;
         if negb (ok response)
         then errorMessage <- resolveErrorMessage defaultMessage response ;;
              raise (newError errorMessage)
         else catch (readJson response false) (fun jsonError => ret fallback))
        (fun error =>
           message <- member error "message" ;;
           raise (newError (orElse message (JStr outerMessage)))).

(** The empty result structure; [now] is [new Date().toISOString()]. *)
Definition emptySearchResult (now : string) : JsVal :=
  JObj [("amazon", JArr []); ("flipkart", JArr []); ("timestamp", JStr now)].

Definition searchProducts (now : string) (fetched : Completion Response)
  : Completion JsVal :=
  request "Failed to search for products"
          "An error occurred while searching for products"
          (emptySearchResult now) fetched.

Definition getPriceHistory (fetched : Completion Response) : Completion JsVal :=
  request "Failed to fetch price history"
          "An error occurred while fetching price history"
          (JArr []) fetched.

Definition updatePricesFallback : JsVal :=
  JObj [("message", JStr "Operation completed, but response was not valid JSON")].

Definition updatePrices (fetched : Completion Response) : Completion JsVal :=
  request "Failed to update prices"
          "An error occurred while updating prices"
          updatePricesFallback fetched.

End Client.

(** The resolution order as the specification words it: the JSON body's
    declared message, else the short plain-text body, else the generic
    message with the status code. *)
Definition specErrorMessage (response : Response) : JsVal :=
  match json response with
  | inr (JObj fields) =>
      match lookup "error" fields with
      | JStr declared => JStr declared
      | _ =>
          match text response with
          | inr body =>
              if negb (body =? "") && Nat.ltb (String.length body) 100
              then JStr body else serverError response
          | inl _ => serverError response
          end
      end
  | _ =>
      match text response with
      | inr body =>
          if negb (body =? "") && Nat.ltb (String.length body) 100
          then JStr body else serverError response
      | inl _ => serverError response
      end
  end.

(** The body could not be read as a JSON object: [response.json()] threw,
    or gave null or undefined, whose [error] property cannot be read. *)
Definition jsonUnreadable (response : Response) : Prop :=
  (exists e, json response = Throw e)
  \/ (exists data, json response = Normal data /\ nullish data = true).

(** The body has no plain text to report: it cannot be read as text, or
    its text is empty or has 100 characters or more. *)
Definition noShortText (response : Response) : Prop :=
  forall body, text response = Normal body ->
               body = "" \/ 100 <= String.length body.

Section Resolution.
Context `{Host}.

(** The message an operation fails with on a response that is not ok:
    the [error] field of a JSON body when it is a non-empty string; when
    it is another truthy value that converts to a string, that string,
    or [outerMessage] if the string is empty (as for an empty array);
    [defaultMessage] when the JSON body has no truthy [error] field; the
    message with the status code when the body is not JSON and has no
    short text either. *)
Definition ResolvesErrors (operation : Completion Response -> Completion JsVal)
  (defaultMessage outerMessage : string) : Prop :=
  forall response, ok response = false ->
    (forall data declared,
        json response = Normal data ->
        get data "error" = JStr declared -> declared <> "" ->
        operation (Normal response) = Throw (mkError declared))
    /\ (forall data,
           json response = Normal data -> nullish data = false ->
           truthy (get data "error") = true ->
           convertible (get data "error") = true ->
           operation (Normal response)
           = Throw (mkError (if ToString (get data "error") =? ""
                             then outerMessage
                             else ToString (get data "error"))))
    /\ (forall data,
           json response = Normal data -> nullish data = false ->
           truthy (get data "error") = false ->
           operation (Normal response) = Throw (mkError defaultMessage))
    /\ (jsonUnreadable response -> noShortText response ->
        operation (Normal response)
        = Throw (mkError ("Server error (" ++ statusText (status response) ++ ")"))).

End Resolution.

(** The double quote, for the text of a JSON body. *)
Definition quote : string := String (ascii_of_nat 34) "".

(** A 500 response whose body is the JSON object [{}]. *)
Definition emptyObject500 : Response :=
  {| ok := false; status := 500; json := Normal (JObj []); text := Normal "{}" |}.

(** A 500 response whose JSON body declares the error "x". *)
Definition declared500 : Response :=
  {| ok := false; status := 500;
     json := Normal (JObj [("error", JStr "x")]);
     text := Normal ("{" ++ quote ++ "error" ++ quote ++ ":"
                     ++ quote ++ "x" ++ quote ++ "}") |}.

(** A 200 response whose body is not JSON. *)
Definition garbled200 : Response :=
  {| ok := true; status := 200;
     json := Throw (mkError "Unexpected token < in JSON at position 0");
     text := Normal "<html>Bad gateway</html>" |}.

(** A 500 response whose JSON body carries an object as its error. *)
Definition structured500 : Response :=
  {| ok := false; status := 500;
     json := Normal (JObj [("error", JObj [("code", JNum (Num.ofZ 42))])]);
     text := Normal ("{" ++ quote ++ "error" ++ quote ++ ":{"
                     ++ quote ++ "code" ++ quote ++ ":42}}") |}.

(** A 404 response whose body is the plain text "Not found", and a 503
    response without a body. *)
Definition notFound404 : Response :=
  {| ok := false; status := 404;
     json := Throw (mkError "Unexpected token N in JSON at position 0");
     text := Normal "Not found" |}.

Definition empty503 : Response :=
  {| ok := false; status := 503;
     json := Throw (mkError "Unexpected end of JSON input");
     text := Normal "" |}.

End Api.

(** ** The search box and its recent searches *)

Module ProductSearch.

(** A string stands for the sequence of its code units, each below 256.
    White space and line terminators among those: *)
Definition isWhiteSpace (c : ascii) : bool :=
  let n := nat_of_ascii c in
  ((9 <=? n) && (n <=? 13) || (n =? 32) || (n =? 160))%nat.

Fixpoint trimStart (s : string) : string :=
  match s with
  | EmptyString => EmptyString
  | String c rest => if isWhiteSpace c then trimStart rest else s
  end.

Definition reverse (s : string) : string :=
  string_of_list_ascii (List.rev (list_ascii_of_string s)).

(** [s.trim()] *)
Definition trim (s : string) : string :=
  reverse (trimStart (reverse (trimStart s))).

(** The component's [recentSearches] state and the ['recentSearches'] item
    of local storage ([None] when the key is absent). *)
Record State : Type := {
  recentSearches : list string;
  storedSearches : option (list string)
}.

(** [saveSearch(searchQuery)] *)
Definition saveSearch (searchQuery : string) (st : State) : State :=
  if trim searchQuery =? "" then st
  else
    let updatedSearches :=
      firstn 5 (searchQuery
                :: filter (fun s => negb (s =? searchQuery)) (recentSearches st)) in
    {| recentSearches := updatedSearches;
       storedSearches := Some updatedSearches |}.

(** A run of saves, oldest first. *)
Definition saveAll (queries : list string) (st : State) : State :=
  fold_left (fun s q => saveSearch q s) queries st.

(** A stored list that holds the same search twice, as local storage may
    after being written by anything other than [saveSearch]. *)
Definition duplicatedState : State :=
  {| recentSearches := ["laptop"; "laptop"];
     storedSearches := Some ["laptop"; "laptop"] |}.

Definition freshState : State :=
  {| recentSearches := []; storedSearches := None |}.

End ProductSearch.

(** ** The comparison table *)

Module ComparisonTable.

Record SortConfig : Type := {
  key : string;
  direction : string
}.

(** [Array.prototype.sort] with a comparison function, as a stable
    insertion sort: the order every conforming engine produces when the
    comparison function is consistent. *)
Fixpoint insertSorted {A : Type} (cmp : A -> A -> Z) (x : A) (sorted : list A)
  : list A :=
  match sorted with
  | [] => [x]
  | y :: rest =>
      if (cmp x y <=? 0)%Z then x :: sorted else y :: insertSorted cmp x rest
  end.

Definition Array_sort {A : Type} (cmp : A -> A -> Z) (l : list A) : list A :=
  fold_right (insertSorted cmp) [] l.

(** [a] may stand before [b]: the comparison function does not return a
    positive number. *)
Definition inOrder {A : Type} (cmp : A -> A -> Z) (a b : A) : Prop :=
  (cmp a b <= 0)%Z.

Section Sorting.
Context `{Host}.

(** [a[sortConfig.key] ?? 0] for a row that is an object. *)
Definition sortValue (sortConfig : SortConfig) (row : JsVal) : JsVal :=
  coalesce (get row (key sortConfig)) (JNum Num.zero).

(** The comparison function handed to [sort]. *)
Definition compareRows (sortConfig : SortConfig) (a b : JsVal) : Z :=
  let aValue := sortValue sortConfig a in
  let bValue := sortValue sortConfig b in
  if lessThan aValue bValue
  then (if direction sortConfig =? "ascending" then (-1)%Z else 1%Z)
  else if greaterThan aValue bValue
  then (if direction sortConfig =? "ascending" then 1%Z else (-1)%Z)
  else 0%Z.

(** The memoised [sortedProducts]. *)
Definition sortedProducts (products : JsVal) (sortConfig : SortConfig)
  : list JsVal :=
  if negb (truthy products) || negb (isArray products) then []
  else Array_sort (compareRows sortConfig) (items_of products).

End Sorting.

(** A row of the table: a product object whose price is a number other
    than NaN, or is missing (absent, undefined or null). *)
Definition pricedRow (row : JsVal) : Prop :=
  (exists fields, row = JObj fields)
  /\ match get row "price" with
     | JUndefined | JNull => True
     | JNum price => Num.is_nan price = false
     | _ => False
     end.

(** The price the comparison function sees in such a row. *)
Definition priceKey (row : JsVal) : Num.num :=
  match get row "price" with
  | JNum price => price
  | _ => Num.zero
  end.

(** The rows whose price is defined. *)
Definition hasPrice (row : JsVal) : bool := is_number (get row "price").

(** The table's initial configuration: by price, ascending. *)
Definition byPriceAscending : SortConfig :=
  {| key := "price"; direction := "ascending" |}.

Definition row (id : string) (price : JsVal) : JsVal :=
  JObj [("id", JStr id); ("price", price)].

(** Five rows, one without a price and one whose price is null. *)
Definition sampleRows : list JsVal :=
  [row "a" (JNum (Num.ofZ 500)); JObj [("id", JStr "b")];
   row "c" (JNum (Num.dec 2995 1)); row "d" JNull;
   row "e" (JNum (Num.ofZ 120))].

End ComparisonTable.

(** ** The root component *)

Module App.

(** Values that the relational operators compare as numbers. *)
Definition numericLike (v : JsVal) : bool :=
  match v with
  | JUndefined | JNull | JBool _ | JNum _ => true
  | JStr _ | JArr _ | JObj _ => false
  end.

Section BestDeal.
Context `{Host}.

(** One turn of a [forEach] callback on the pair [(bestDeal, lowestPrice)]. *)
Definition considerProduct (st : JsVal * JsVal) (product : JsVal)
  : Completion (JsVal * JsVal) :=
  price <- member product "price" ;;
  if lessThan price (snd st) then ret (product, price) else ret st.

Fixpoint forEachProduct (products : list JsVal) (st : JsVal * JsVal)
  : Completion (JsVal * JsVal) :=
  match products with
  | [] => ret st
  | product :: rest =>
      st' <- considerProduct st product ;;
      forEachProduct rest st'
  end.

(** [if (searchResults[store]) { searchResults[store].forEach(...) }] *)
Definition checkStore (store : string) (searchResults : JsVal)
  (st : JsVal * JsVal) : Completion (JsVal * JsVal) :=
  let listing := get searchResults store in
  if truthy listing
  then match listing with
       | JArr products => forEachProduct products st
       | _ => raise (TypeError ("searchResults." ++ store ++ ".forEach is not a function"))
       end
  else ret st.

(** [getBestDeal()] for the component's [searchResults] state. *)
Definition getBestDeal (searchResults : JsVal) : Completion JsVal :=
  if negb (truthy searchResults) then ret JNull
  else
    st <- checkStore "amazon" searchResults (JNull, JNum Num.PosInf) ;;
    st <- checkStore "flipkart" searchResults st ;;
    ret (fst st).

(** What holds of [(bestDeal, lowestPrice)] once the products [seen] have
    been visited. *)
Definition Visited (st : JsVal * JsVal) (seen : list JsVal) : Prop :=
  numericLike (snd st) = true
  /\ Num.is_nan (ToNumber (snd st)) = false
  /\ ((fst st = JNull /\ snd st = JNum Num.PosInf)
      \/ (In (fst st) seen /\ snd st = get (fst st) "price"
          /\ Num.ltb (ToNumber (snd st)) Num.PosInf = true))
  /\ (forall q, In q seen ->
                numericLike (get q "price") = true
                /\ lessThan (get q "price") (snd st) = false).

End BestDeal.

(** The products of the two stores the component reads, in the order it
    visits them. *)
Definition aggregated (searchResults : JsVal) : list JsVal :=
  (items_of (get searchResults "amazon")
   ++ items_of (get searchResults "flipkart"))%list.

(** A listing the component can walk: absent (or otherwise falsy), or an
    array. *)
Definition listingOk (listing : JsVal) : Prop :=
  truthy listing = false \/ isArray listing = true.

(** A product object whose price is a number, or is missing (absent,
    undefined or null). *)
Definition pricedProduct (product : JsVal) : Prop :=
  (exists fields, product = JObj fields)
  /\ match get product "price" with
     | JUndefined | JNull | JNum _ => True
     | _ => False
     end.

(** [p] is listed under some store key of the search result. *)
Definition listedIn (searchResults p : JsVal) : Prop :=
  exists store products,
    get searchResults store = JArr products /\ In p products.

(** A product as the search endpoint lists it. *)
Definition product (id : string) (source : string) (price : Z) : JsVal :=
  JObj [("id", JStr id); ("source", JStr source); ("price", JNum (Num.ofZ price))].

(** A search result with a third store, whose only product is the
    cheapest. *)
Definition threeStores : JsVal :=
  JObj [("amazon", JArr [product "a1" "amazon" 1000]);
        ("flipkart", JArr [product "f1" "flipkart" 900]);
        ("meesho", JArr [product "m1" "meesho" 500]);
        ("timestamp", JStr "2024-01-01T00:00:00.000Z")].

Definition twoStores : JsVal :=
  JObj [("amazon", JArr [product "a1" "amazon" 1000; product "a2" "amazon" 700]);
        ("flipkart", JArr [JObj [("id", JStr "f0")]; product "f1" "flipkart" 700]);
        ("timestamp", JStr "2024-01-01T00:00:00.000Z")].

End App.

(** ** The comparison table: sort requests and badges *)

Module TableControls.
Import ComparisonTable.

(** [requestSort(key)] *)
Definition requestSort (k : string) (sortConfig : SortConfig) : SortConfig :=
  let dir :=
    if (key sortConfig =? k) && (direction sortConfig =? "ascending")
    then "descending" else "ascending" in
  {| key := k; direction := dir |}.

(** A row of the table, as far as the column [k] goes: a product object
    whose value under [k] is a number other than NaN, or is missing. *)
Definition keyedRow (k : string) (row : JsVal) : Prop :=
  (exists fields, row = JObj fields)
  /\ match get row k with
     | JUndefined | JNull => True
     | JNum x => Num.is_nan x = false
     | _ => False
     end.

(** The number the comparison function sees under [k] in such a row. *)
Definition keyOf (k : string) (row : JsVal) : Num.num :=
  match get row k with
  | JNum x => x
  | _ => Num.zero
  end.

(** [array.reduce(f, initial)] for a callback that may throw. *)
Fixpoint reduce {A : Type} (f : A -> JsVal -> Completion A) (array : list JsVal)
  (acc : A) : Completion A :=
  match array with
  | [] => ret acc
  | x :: rest => acc' <- f acc x ;; reduce f rest acc'
  end.

Section Badges.
Context `{Host}.

(** [(lowest, current) => (current.price < lowest.price) ? current : lowest] *)
Definition lowerPriced (lowest current : JsVal) : Completion JsVal :=
  currentPrice <- member current "price" ;;
  lowestPrice <- member lowest "price" ;;
  ret (if lessThan currentPrice lowestPrice then current else lowest).

(** [getLowestPricedProduct()] for the memoised [sortedProducts]. *)
Definition getLowestPricedProduct (sortedProducts : list JsVal)
  : Completion JsVal :=
  match sortedProducts with
  | [] => ret JNull
  | first :: _ => reduce lowerPriced sortedProducts first
  end.

(** [(highest, current) => (current.rating > highest.rating) ? current : highest] *)
Definition higherRated (highest current : JsVal) : Completion JsVal :=
  currentRating <- member current "rating" ;;
  highestRating <- member highest "rating" ;;
  ret (if greaterThan currentRating highestRating then current else highest).

(** [getHighestRatedProduct()] *)
Definition getHighestRatedProduct (sortedProducts : list JsVal)
  : Completion JsVal :=
  match sortedProducts with
  | [] => ret JNull
  | first :: _ => reduce higherRated sortedProducts first
  end.

End Badges.

(** A product object whose value under [k] the relational operators read
    as a number: a number, or missing. *)
Definition numericUnder (k : string) (row : JsVal) : Prop :=
  (exists fields, row = JObj fields)
  /\ match get row k with
     | JUndefined | JNull | JNum _ => True
     | _ => False
     end.

(** Four rows: the first has no price and no rating. *)
Definition badgeRows : list JsVal :=
  [JObj [("id", JStr "n")];
   JObj [("id", JStr "a"); ("price", JNum (Num.ofZ 300)); ("rating", JNum (Num.dec 41 1))];
   JObj [("id", JStr "b"); ("price", JNum (Num.ofZ 200)); ("rating", JNum (Num.dec 45 1))];
   JObj [("id", JStr "c"); ("price", JNum (Num.ofZ 200)); ("rating", JNum (Num.dec 45 1))]].

End TableControls.

(** ** Store names and colours *)

Module SiteInfo.

(** [String.prototype.toLowerCase] on a code unit below 256. *)
Definition lowerUnit (c : ascii) : ascii :=
  let n := nat_of_ascii c in
  if ((65 <=? n) && (n <=? 90) || (192 <=? n) && (n <=? 214)
      || (216 <=? n) && (n <=? 222))%nat
  then ascii_of_nat (n + 32)
  else c.

Fixpoint toLowerCase (s : string) : string :=
  match s with
  | EmptyString => EmptyString
  | String c rest => String (lowerUnit c) (toLowerCase rest)
  end.

(** [v.toLowerCase()]: only a string has the method. *)
Definition callToLowerCase (v : JsVal) : Completion string :=
  match v with
  | JStr s => ret (toLowerCase s)
  | JUndefined =>
      raise (TypeError "Cannot read properties of undefined (reading 'toLowerCase')")
  | JNull =>
      raise (TypeError "Cannot read properties of null (reading 'toLowerCase')")
  | _ => raise (TypeError "toLowerCase is not a function")
  end.

(** What the product card's [getSiteInfo] returns; [icon] is the class of
    the icon element. *)
Record CardSiteInfo : Type := {
  icon : string;
  bgColor : string;
  textColor : string;
  borderColor : string;
  gradientFrom : string;
  gradientTo : string;
  gradientAccent : string;
  name : string
}.

(** [source || "Store"] where [source] is a string or falsy. *)
Definition nameOrStore (source : JsVal) : string :=
  match source with
  | JStr s => if s =? "" then "Store" else s
  | _ => "Store"
  end.

(** The product card's [getSiteInfo(source)]. *)
Definition cardSiteInfo (source : JsVal) : Completion CardSiteInfo :=
  lowered <- callToLowerCase source ;;
  ret (if lowered =? "amazon"
       then {| icon := "fab fa-amazon text-lg";
               bgColor := "bg-orange-100";
               textColor := "text-orange-800";
               borderColor := "border-orange-300";
               gradientFrom := "from-orange-50";
               gradientTo := "to-orange-100";
               gradientAccent := "bg-gradient-to-r from-orange-500 to-amber-500";
               name := "Amazon" |}
       else if lowered =? "meesho"
       then {| icon := "fas fa-store-alt text-lg";
               bgColor := "bg-pink-100";
               textColor := "text-pink-800";
               borderColor := "border-pink-300";
               gradientFrom := "from-pink-50";
               gradientTo := "to-pink-100";
               gradientAccent := "bg-gradient-to-r from-pink-500 to-rose-500";
               name := "Meesho" |}
       else {| icon := "fas fa-store text-lg";
               bgColor := "bg-gray-100";
               textColor := "text-gray-800";
               borderColor := "border-gray-300";
               gradientFrom := "from-gray-50";
               gradientTo := "to-gray-100";
               gradientAccent := "bg-gradient-to-r from-gray-500 to-gray-600";
               name := nameOrStore source |}).

(** What the comparison table's [getSiteInfo] returns. *)
Record TableSiteInfo : Type := {
  tableIcon : string;
  color : string;
  tableBgColor : string;
  tableBorderColor : string;
  gradientColor : string;
  tableName : string
}.

(** The comparison table's [getSiteInfo(source)], which lowers
    [(source || "")]. *)
Definition tableSiteInfo (source : JsVal) : Completion TableSiteInfo :=
  lowered <- callToLowerCase (orElse source (JStr "")) ;;
  ret (if lowered =? "amazon"
       then {| tableIcon := "fab fa-amazon";
               color := "text-orange-600";
               tableBgColor := "bg-orange-100";
               tableBorderColor := "border-orange-200";
               gradientColor := "from-orange-500 to-amber-500";
               tableName := "Amazon" |}
       else if lowered =? "meesho"
       then {| tableIcon := "fas fa-store-alt";
               color := "text-pink-600";
               tableBgColor := "bg-pink-100";
               tableBorderColor := "border-pink-200";
               gradientColor := "from-pink-500 to-rose-500";
               tableName := "Meesho" |}
       else {| tableIcon := "fas fa-store";
               color := "text-gray-600";
               tableBgColor := "bg-gray-100";
               tableBorderColor := "border-gray-200";
               gradientColor := "from-gray-500 to-gray-600";
               tableName := nameOrStore source |}).

End SiteInfo.

(** ** The chart: the series it plots and the change summary *)

Module ChartData.
Import PriceChart ComparisonTable.

(** What the host's [Date] does: [dateValue v] is the number
    [new Date(v)] converts to (its time value in milliseconds, NaN for an
    invalid date), [localeDate v] is
    [new Date(v).toLocaleDateString('en-IN', ...)]. Both are for a [v]
    that is [convertible]: on another one [new Date(v)] throws. *)
Class DateHost : Type := {
  dateValue : JsVal -> Num.num;
  localeDate : JsVal -> string
}.

(** The filter of the chart effect:
    [item && typeof item.price === 'number' && !isNaN(item.price) && item.date]. *)
Definition plottable (item : JsVal) : bool :=
  truthy item &&
  match get item "price" with
  | JNum price => negb (Num.is_nan price) && truthy (get item "date")
  | _ => false
  end.

(** How [sort] reads the number a comparison function returns: only its
    sign matters, and NaN counts as zero. *)
Definition signOf (v : Num.num) : Z :=
  if Num.ltb v Num.zero then (-1)%Z
  else if Num.ltb Num.zero v then 1%Z
  else 0%Z.

(** A canonical finite double that is zero or above. *)
Definition nonNegative (x : Num.num) : bool :=
  match x with
  | S754_zero _ => true
  | _ => Num.finitePositive x
  end.

(** The colour of the line: green when the last plotted price is below
    the first, red otherwise, blue for fewer than two points. *)
Definition gradientColorOf (prices : list Num.num) : string :=
  if Nat.leb 2 (List.length prices)
  then
    let priceChange := Num.sub (last prices Num.NaN) (hd Num.NaN prices) in
    if Num.ltb priceChange Num.zero then "#10b981" else "#ef4444"
  else "#0ea5e9".

(** What the effect hands to [new Chart]. *)
Record Series : Type := {
  labels : list string;
  prices : list Num.num;
  lineColor : string
}.

Section Effect.
Context `{DateHost}.

(** [formatDate(dateString)]; neither [new Date] nor
    [toLocaleDateString] throws on a value that came out of JSON, so the
    [catch] is not modelled. *)
Definition formatDate (dateString : JsVal) : string :=
  if negb (truthy dateString) then "" else localeDate dateString.

(** [(a, b) => new Date(a.date) - new Date(b.date)], as [sort] reads it. *)
Definition byDate (a b : JsVal) : Z :=
  signOf (Num.sub (dateValue (get a "date")) (dateValue (get b "date"))).

(** The time value of an entry's date, and an entry whose date is a valid
    one at or after the epoch. *)
Definition timeOf (item : JsVal) : Num.num := dateValue (get item "date").

Definition datedFromEpoch (item : JsVal) : Prop :=
  nonNegative (timeOf item) = true.

(** The effect between its guards and the [new Chart] call, on the
    elements of a non-empty array [historyData]: either the chart error it
    sets before returning, or the series it goes on to draw. An exception
    on the way (from a date that does not convert, or from the chart
    library afterwards) ends in the effect's outer [catch], which sets
    another error: that path is not part of this function. *)
Definition chartSeries (historyItems : list JsVal) : string + Series :=
  let validData := filter plottable historyItems in
  if Nat.eqb (List.length validData) 0
  then inl "No valid price data found for this product."
  else
    let sorted := Array_sort byDate validData in
    let prices := map priceOf sorted in
    inr {| labels := map (fun item => formatDate (get item "date")) sorted;
           prices := prices;
           lineColor := gradientColorOf prices |}.

End Effect.

(** The three looks of the change pill:
    [stats.priceChange < 0 ? down : stats.priceChange > 0 ? up : same]. *)
Inductive Trend : Type := Down | Up | Unchanged.

Definition trend (stats : Stats) : Trend :=
  if Num.ltb (priceChange stats) Num.zero then Down
  else if Num.ltb Num.zero (priceChange stats) then Up
  else Unchanged.

(** A host whose dates are numbers of milliseconds. *)
Definition timestampHost : DateHost :=
  {| dateValue := fun v => match v with JNum x => x | _ => Num.NaN end;
     localeDate := fun _ => "1 Jan 2024" |}.

(** Two entries in date order, the price falling from 500 to 450. *)
Definition fallingHistory : JsVal :=
  JArr [JObj [("date", JNum (Num.ofZ 1704067200000)); ("price", JNum (Num.ofZ 500))];
        JObj [("date", JNum (Num.ofZ 1704153600000)); ("price", JNum (Num.ofZ 450))]].

(** The two entries of [fallingHistory], the later one first. *)
Definition unorderedHistory : JsVal :=
  JArr (List.rev (items_of fallingHistory)).

(** An entry the chart plots and the statistics skip (its price is 0),
    and one the statistics count and the chart skips (it has no date). *)
Definition freeEntry : JsVal :=
  JObj [("date", JStr "2024-01-01"); ("price", JNum Num.zero)].

Definition undatedEntry : JsVal :=
  JObj [("price", JNum (Num.ofZ 250))].

End ChartData.

(** ** The API client: what reaches its outer [catch] *)

Module ApiErrors.
Import Api.

(** A thrown value whose [message], if it has a truthy one, is a string:
    an [Error], or anything without a message. *)
Definition plainMessage (err : JsVal) : Prop :=
  truthy (get err "message") = true -> exists m, get err "message" = JStr m.

(** A fetch that fails with the given message, as a network error does. *)
Definition networkFailure (message : string) : Completion Response :=
  Throw (JObj [("message", JStr message); ("name", JStr "TypeError")]).

End ApiErrors.

(** ** The root component: its state and what it shows *)

Module AppState.
Import ApiErrors.

(** The seven state variables of [App]; [null] is [JNull]. *)
Record Screen : Type := {
  searchQuery : string;
  searchResults : JsVal;
  isLoading : bool;
  error : JsVal;
  selectedProduct : JsVal;
  priceHistory : JsVal;
  isHistoryLoading : bool
}.

Definition initialState : Screen :=
  {| searchQuery := "";
     searchResults := JNull;
     isLoading := false;
     error := JNull;
     selectedProduct := JNull;
     priceHistory := JNull;
     isHistoryLoading := false |}.

(** [handleSearch(query)] up to its [await]. *)
Definition searchStarted (query : string) (st : Screen) : Screen :=
  {| searchQuery := query;
     searchResults := searchResults st;
     isLoading := true;
     error := JNull;
     selectedProduct := JNull;
     priceHistory := JNull;
     isHistoryLoading := isHistoryLoading st |}.

(** [handleSearch] from its [await] on, [outcome] being what awaiting
    [searchProducts(query)] gave. Reading [err.message] throws when [err]
    is null or undefined; the [finally] block runs all the same. *)
Definition searchSettled (outcome : Completion JsVal) (st : Screen) : Screen :=
  match outcome with
  | inr data =>
      {| searchQuery := searchQuery st;
         searchResults := data;
         isLoading := false;
         error := error st;
         selectedProduct := selectedProduct st;
         priceHistory := priceHistory st;
         isHistoryLoading := isHistoryLoading st |}
  | inl err =>
      {| searchQuery := searchQuery st;
         searchResults := searchResults st;
         isLoading := false;
         error := match member err "message" with
                  | inr message =>
                      orElse message (JStr "Failed to fetch search results")
                  | inl _ => error st
                  end;
         selectedProduct := selectedProduct st;
         priceHistory := priceHistory st;
         isHistoryLoading := isHistoryLoading st |}
  end.

(** A search that settles before anything else happens. *)
Definition handleSearch (query : string) (outcome : Completion JsVal)
  (st : Screen) : Screen :=
  searchSettled outcome (searchStarted query st).

(** [handleProductSelect(product)] up to its [await]. *)
Definition selectStarted (product : JsVal) (st : Screen) : Screen :=
  {| searchQuery := searchQuery st;
     searchResults := searchResults st;
     isLoading := isLoading st;
     error := error st;
     selectedProduct := product;
     priceHistory := priceHistory st;
     isHistoryLoading := true |}.

(** [handleProductSelect] from its [await] on, [outcome] being what the
    [try] block's call of [getPriceHistory] gave (a throw included). *)
Definition selectSettled (outcome : Completion JsVal) (st : Screen) : Screen :=
  {| searchQuery := searchQuery st;
     searchResults := searchResults st;
     isLoading := isLoading st;
     error := error st;
     selectedProduct := selectedProduct st;
     priceHistory := match outcome with
                     | inr historyData => historyData
                     | inl _ => priceHistory st
                     end;
     isHistoryLoading := false |}.

Definition handleProductSelect (product : JsVal) (outcome : Completion JsVal)
  (st : Screen) : Screen :=
  selectSettled outcome (selectStarted product st).

(** The four alternatives of the main area, by the condition that guards
    each in the markup. *)
Definition showsLoading (st : Screen) : bool := isLoading st.
Definition showsError (st : Screen) : bool := truthy (error st).
Definition showsResults (st : Screen) : bool :=
  truthy (searchResults st) && negb (isLoading st).
Definition showsEmptyState (st : Screen) : bool :=
  negb (truthy (searchResults st)) && negb (isLoading st)
  && negb (truthy (error st)).



(** What happens to the component, one step at a time. *)
Inductive Event : Type :=
| SearchStarted (query : string)
| SearchSettled (outcome : Completion JsVal)
| SelectStarted (product : JsVal)
| SelectSettled (outcome : Completion JsVal).

Definition step (st : Screen) (e : Event) : Screen :=
  match e with
  | SearchStarted query => searchStarted query st
  | SearchSettled outcome => searchSettled outcome st
  | SelectStarted product => selectStarted product st
  | SelectSettled outcome => selectSettled outcome st
  end.

Definition run (events : list Event) (st : Screen) : Screen :=
  fold_left step events st.

(** What the error state holds when nothing is wrong with it: [null], or
    the non-empty text of the banner. *)
Definition bannerText (v : JsVal) : Prop :=
  v = JNull \/ exists m, v = JStr m /\ m <> "".

(** An event that is not a search failing with a message that is truthy
    and not a string. *)
Definition plainEvent (e : Event) : Prop :=
  match e with
  | SearchSettled (inl err) => plainMessage err
  | _ => True
  end.

End AppState.

(** ** The search box: submitting and picking a suggestion *)

Module SearchBox.
Import ProductSearch.

(** The state of [ProductSearch]: the text of the input, the recent
    searches (in the component and in local storage), and the two flags
    of the dropdown. *)
Record Box : Type := {
  query : string;
  searches : State;
  showRecentSearches : bool;
  isInputFocused : bool
}.

Definition popularSearches : list string :=
  ["smartphone"; "laptop"; "headphones"; "smartwatch"; "camera"].

(** A string that does not start with white space. *)
Definition cleanStart (s : string) : Prop :=
  match s with
  | EmptyString => True
  | String c _ => isWhiteSpace c = false
  end.

(** [handleSubmit(e)]: the new state and the calls of [onSearch]. *)
Definition handleSubmit (box : Box) : Box * list string :=
  if negb (trim (query box) =? "")
  then ({| query := query box;
           searches := saveSearch (trim (query box)) (searches box);
           showRecentSearches := false;
           isInputFocused := false |},
        [trim (query box)])
  else (box, []).

(** [handleRecentSearchClick(searchQuery)]; [handlePopularSearchClick]
    has the same body. *)
Definition handleRecentSearchClick (searchQuery : string) (box : Box)
  : Box * list string :=
  ({| query := searchQuery;
      searches := saveSearch searchQuery (searches box);
      showRecentSearches := false;
      isInputFocused := false |},
   [searchQuery]).

Definition handlePopularSearchClick (searchQuery : string) (box : Box)
  : Box * list string :=
  handleRecentSearchClick searchQuery box.

End SearchBox.

(** ** The root component: the list of all products *)

Module AllProducts.
Import App ChartData.

(** [SortCompare]: [sort] never hands [undefined] to the comparison
    function, it orders it last; of what the function returns only the
    sign is read. *)
Definition SortCompare (comparefn : JsVal -> JsVal -> Completion Num.num)
  (x y : JsVal) : Completion Z :=
  match x, y with
  | JUndefined, JUndefined => ret 0%Z
  | JUndefined, _ => ret 1%Z
  | _, JUndefined => ret (-1)%Z
  | _, _ => v <- comparefn x y ;; ret (signOf v)
  end.

(** [Array.prototype.sort] with a comparison that may throw, as a stable
    insertion sort. With two or more elements every element is compared
    at least once. *)
Fixpoint insertSortedM {A : Type} (cmp : A -> A -> Completion Z) (x : A)
  (sorted : list A) : Completion (list A) :=
  match sorted with
  | [] => ret [x]
  | y :: rest =>
      c <- cmp x y ;;
      if (c <=? 0)%Z then ret (x :: sorted)
      else rest' <- insertSortedM cmp x rest ;; ret (y :: rest')
  end.

Fixpoint sortM {A : Type} (cmp : A -> A -> Completion Z) (l : list A)
  : Completion (list A) :=
  match l with
  | [] => ret []
  | x :: rest => sorted <- sortM cmp rest ;; insertSortedM cmp x sorted
  end.

(** [...listing]: an array gives its elements, a string its characters;
    nothing else that JSON carries is iterable. *)
Definition spread (listing : JsVal) : Completion (list JsVal) :=
  match listing with
  | JArr items => ret items
  | JStr s => ret (map (fun c => JStr (String c "")) (list_ascii_of_string s))
  | _ => raise (TypeError "listing is not iterable")
  end.

(** [if (searchResults[store]) allProducts = [...allProducts, ...searchResults[store]]] *)
Definition appendListing (store : string) (searchResults : JsVal)
  (allProducts : list JsVal) : Completion (list JsVal) :=
  let listing := get searchResults store in
  if truthy listing
  then items <- spread listing ;; ret (allProducts ++ items)%list
  else ret allProducts.

Section Sorting.
Context `{Host}.

(** [(a, b) => a.price - b.price] *)
Definition priceDifference (a b : JsVal) : Completion Num.num :=
  aPrice <- member a "price" ;;
  bPrice <- member b "price" ;;
  ret (Num.sub (ToNumber aPrice) (ToNumber bPrice)).

(** What [sort] reads from the comparison function on two products that
    are objects. *)
Definition priceOrder (a b : JsVal) : Z :=
  signOf (Num.sub (ToNumber (get a "price")) (ToNumber (get b "price"))).

(** [getAllProducts()] *)
Definition getAllProducts (searchResults : JsVal) : Completion (list JsVal) :=
  if negb (truthy searchResults) then ret []
  else
    allProducts <- appendListing "amazon" searchResults [] ;;
    allProducts <- appendListing "flipkart" searchResults allProducts ;;
    sortM (SortCompare priceDifference) allProducts.

End Sorting.

(** A product that is an object, with any price that converts to a
    primitive: a number, a string, a boolean, null or none at all, or an
    array or object short of those whose conversion throws. *)
Definition objectProduct (product : JsVal) : Prop :=
  (exists fields, product = JObj fields)
  /\ convertible (get product "price") = true.

(** A product object whose price is a canonical finite double that is
    zero or above. *)
Definition pricedAtOrAboveZero (product : JsVal) : Prop :=
  (exists fields, product = JObj fields)
  /\ exists price, get product "price" = JNum price /\ nonNegative price = true.

(** Two listings of priced products, not in the order of their prices. *)
Definition pricedStores : JsVal :=
  JObj [("amazon", JArr [product "a1" "amazon" 1000; product "a2" "amazon" 700]);
        ("flipkart", JArr [product "f1" "flipkart" 900; product "f2" "flipkart" 700]);
        ("timestamp", JStr "2024-01-01T00:00:00.000Z")].

End AllProducts.

(* ===================================================================== *)
(** * Part II: properties                                                 *)
(* ===================================================================== *)

(** ** The order of JavaScript numbers *)

Module NumFacts.

(** A number is NaN, an infinity, a zero or a finite value, each with its
    sign. *)
Ltac split_num x := destruct x as [[|]|[|]| |[|] ? ?].

Ltac cmp_cases :=
  repeat match goal with
         | |- context [Z.compare ?a ?b] => destruct (Z.compare_spec a b)
         | H : context [Z.compare ?a ?b] |- _ => destruct (Z.compare_spec a b)
         | |- context [Pos.compare_cont Eq ?a ?b] =>
             change (Pos.compare_cont Eq a b) with (Pos.compare a b);
             destruct (Pos.compare_spec a b)
         | H : context [Pos.compare_cont Eq ?a ?b] |- _ =>
             change (Pos.compare_cont Eq a b) with (Pos.compare a b) in H;
             destruct (Pos.compare_spec a b)
         end.

Ltac num_order :=
  unfold Num.ltb, Num.leb, Num.eqb, SFltb, SFleb, SFeqb, SFcompare, Num.is_nan in *;
  simpl in *; cmp_cases; simpl in *;
  try discriminate; try reflexivity; try lia; try congruence.

Lemma ltb_leb (x y : Num.num) : Num.ltb x y = true -> Num.leb x y = true.
Proof. split_num x; split_num y; num_order. Qed.

Lemma leb_refl (x : Num.num) : Num.is_nan x = false -> Num.leb x x = true.
Proof. split_num x; num_order. Qed.

Lemma eqb_refl (x : Num.num) : Num.is_nan x = false -> Num.eqb x x = true.
Proof. split_num x; num_order. Qed.

Lemma leb_total (x y : Num.num) :
  Num.is_nan x = false -> Num.is_nan y = false ->
  Num.ltb x y = false -> Num.leb y x = true.
Proof. split_num x; split_num y; num_order. Qed.

Lemma ltb_not_leb (x y : Num.num) : Num.ltb x y = true -> Num.leb y x = false.
Proof. split_num x; split_num y; num_order. Qed.

Lemma leb_trans (x y z : Num.num) :
  Num.leb x y = true -> Num.leb y z = true -> Num.leb x z = true.
Proof. split_num x; split_num y; split_num z; num_order. Qed.

Lemma ltb_leb_trans (x y z : Num.num) :
  Num.ltb x y = true -> Num.leb y z = true -> Num.ltb x z = true.
Proof. split_num x; split_num y; split_num z; num_order. Qed.

Lemma leb_ltb_trans (x y z : Num.num) :
  Num.leb x y = true -> Num.ltb y z = true -> Num.ltb x z = true.
Proof. split_num x; split_num y; split_num z; num_order. Qed.

Lemma ltb_asym (x y : Num.num) : Num.ltb x y = true -> Num.ltb y x = false.
Proof. split_num x; split_num y; num_order. Qed.

Lemma leb_negb_ltb (x y : Num.num) :
  Num.is_nan x = false -> Num.is_nan y = false ->
  Num.leb x y = negb (Num.ltb y x).
Proof. split_num x; split_num y; num_order. Qed.

Lemma leb_not_nan (x y : Num.num) :
  Num.leb x y = true -> Num.is_nan x = false /\ Num.is_nan y = false.
Proof. split_num x; split_num y; num_order; auto. Qed.

Lemma ltb_not_nan (x y : Num.num) :
  Num.ltb x y = true -> Num.is_nan x = false /\ Num.is_nan y = false.
Proof. split_num x; split_num y; num_order; auto. Qed.

Lemma leb_PosInf (x : Num.num) :
  Num.is_nan x = false -> Num.leb x Num.PosInf = true.
Proof. split_num x; num_order. Qed.

Lemma ltb_irrefl (x : Num.num) : Num.ltb x x = false.
Proof. split_num x; num_order. Qed.

Lemma PosInf_leb (y : Num.num) : Num.leb Num.PosInf y = true -> y = Num.PosInf.
Proof. split_num y; num_order. Qed.

Lemma leb_NegInf (y : Num.num) : Num.leb y Num.NegInf = true -> y = Num.NegInf.
Proof. split_num y; num_order. Qed.


Create HintDb numorder.
#[export] Hint Resolve ltb_leb leb_refl eqb_refl leb_total leb_PosInf : numorder.

(** The prices that pass the validity filter are above zero. *)
Lemma positive_not_nan x : Num.positive x -> Num.is_nan x = false.
Proof. intros Hx. apply (ltb_not_nan _ _ Hx). Qed.

#[export] Hint Resolve positive_not_nan : numorder.

Lemma min_step_positive acc x :
  Num.is_nan acc = false -> Num.positive x ->
  Num.min_step acc x = if Num.ltb x acc then x else acc.
Proof.
  intros Hacc Hx. unfold Num.min_step.
  rewrite Hacc, (positive_not_nan _ Hx). simpl.
  unfold Num.positive in Hx. split_num x; try discriminate Hx; reflexivity.
Qed.

Lemma max_step_positive acc x :
  Num.is_nan acc = false -> Num.positive x ->
  Num.max_step acc x = if Num.ltb acc x then x else acc.
Proof.
  intros Hacc Hx. unfold Num.max_step.
  rewrite Hacc, (positive_not_nan _ Hx). simpl.
  unfold Num.positive in Hx. split_num x; try discriminate Hx; reflexivity.
Qed.

Lemma fold_min_spec xs :
  Forall Num.positive xs -> forall acc, Num.is_nan acc = false ->
  let r := fold_left Num.min_step xs acc in
  (r = acc \/ In r xs) /\ Num.leb r acc = true
  /\ Forall (fun y => Num.leb r y = true) xs.
Proof.
  induction 1 as [|x xs Hx Hxs IH]; intros acc Hacc; simpl.
  - auto with numorder.
  - rewrite (min_step_positive _ _ Hacc Hx).
    destruct (Num.ltb x acc) eqn:Hlt.
    + destruct (IH x (positive_not_nan _ Hx)) as (Hin & Hle & Hall).
      repeat split.
      * destruct Hin as [-> | Hin]; auto.
      * eapply leb_trans; [exact Hle | now apply ltb_leb].
      * constructor; assumption.
    + destruct (IH acc Hacc) as (Hin & Hle & Hall).
      repeat split.
      * destruct Hin as [-> | Hin]; auto.
      * assumption.
      * constructor; [| assumption].
        eapply leb_trans; [exact Hle |].
        apply leb_total; auto with numorder.
Qed.

Lemma fold_max_spec xs :
  Forall Num.positive xs -> forall acc, Num.is_nan acc = false ->
  let r := fold_left Num.max_step xs acc in
  (r = acc \/ In r xs) /\ Num.leb acc r = true
  /\ Forall (fun y => Num.leb y r = true) xs.
Proof.
  induction 1 as [|x xs Hx Hxs IH]; intros acc Hacc; simpl.
  - auto with numorder.
  - rewrite (max_step_positive _ _ Hacc Hx).
    destruct (Num.ltb acc x) eqn:Hlt.
    + destruct (IH x (positive_not_nan _ Hx)) as (Hin & Hle & Hall).
      repeat split.
      * destruct Hin as [-> | Hin]; auto.
      * eapply leb_trans; [now apply ltb_leb; exact Hlt | exact Hle].
      * constructor; assumption.
    + destruct (IH acc Hacc) as (Hin & Hle & Hall).
      repeat split.
      * destruct Hin as [-> | Hin]; auto.
      * assumption.
      * constructor; [| assumption].
        eapply leb_trans; [| exact Hle].
        apply leb_total; auto with numorder.
Qed.

Lemma Math_min_spec xs :
  xs <> [] -> Forall Num.positive xs ->
  In (Num.Math_min xs) xs /\ Forall (fun y => Num.leb (Num.Math_min xs) y = true) xs.
Proof.
  intros Hne Hpos. unfold Num.Math_min.
  destruct (fold_min_spec xs Hpos Num.PosInf eq_refl) as (Hin & _ & Hall).
  split; [| exact Hall].
  destruct Hin as [Heq | Hin]; [| exact Hin].
  destruct xs as [|x xs]; [congruence |].
  rewrite Heq in *. inversion Hall as [|? ? Hx _]; subst.
  apply PosInf_leb in Hx. rewrite Hx. now left.
Qed.

Lemma Math_max_spec xs :
  xs <> [] -> Forall Num.positive xs ->
  In (Num.Math_max xs) xs /\ Forall (fun y => Num.leb y (Num.Math_max xs) = true) xs.
Proof.
  intros Hne Hpos. unfold Num.Math_max.
  destruct (fold_max_spec xs Hpos Num.NegInf eq_refl) as (Hin & _ & Hall).
  split; [| exact Hall].
  destruct Hin as [Heq | Hin]; [| exact Hin].
  destruct xs as [|x xs]; [congruence |].
  rewrite Heq in *. inversion Hall as [|? ? Hx _]; subst.
  apply leb_NegInf in Hx. rewrite Hx. now left.
Qed.

Lemma positive_eqb_eq x y : Num.positive x -> Num.eqb x y = true -> x = y.
Proof.
  unfold Num.positive. intros Hx Heq.
  split_num x; try discriminate Hx; split_num y; num_order.
Qed.

(** *** Exact values

    On canonical finite doubles the order of the comparison operators is
    the order of the exact values. *)

Section ExactValues.
Local Open Scope Z_scope.

Lemma digits2_pos_bounds (m : positive) :
  2 ^ (Zpos (digits2_pos m) - 1) <= Zpos m < 2 ^ Zpos (digits2_pos m).
Proof.
  induction m as [m IH | m IH |]; simpl digits2_pos.
  - rewrite Pos2Z.inj_succ, Z.pow_succ_r by lia.
    replace (Z.succ (Zpos (digits2_pos m)) - 1) with (Z.succ (Zpos (digits2_pos m) - 1)) by lia.
    rewrite Z.pow_succ_r by lia. lia.
  - rewrite Pos2Z.inj_succ, Z.pow_succ_r by lia.
    replace (Z.succ (Zpos (digits2_pos m)) - 1) with (Z.succ (Zpos (digits2_pos m) - 1)) by lia.
    rewrite Z.pow_succ_r by lia. lia.
  - simpl. lia.
Qed.

Lemma valid_finite_shape (m : positive) (e : Z) :
  Num.valid (S754_finite false m e) = true ->
  -1074 <= e /\ Zpos (digits2_pos m) <= 53
  /\ (-1074 < e -> Zpos (digits2_pos m) = 53).
Proof.
  unfold Num.valid, valid_binary, bounded, canonical_mantissa, fexp, emin,
    Num.prec, Num.emax.
  intros Hv. apply andb_true_iff in Hv as [Hc _]. apply Z.eqb_eq in Hc. lia.
Qed.

Lemma leb_scaled (x y : Num.num) :
  Num.finitePositive x = true -> Num.finitePositive y = true ->
  Num.leb x y = true -> Num.scaled x <= Num.scaled y.
Proof.
  destruct x as [| | | [|] mx ex]; try discriminate.
  destruct y as [| | | [|] my ey]; try discriminate.
  simpl Num.finitePositive. intros Hx Hy.
  destruct (valid_finite_shape _ _ Hx) as (Hex & Hdx & Hnx).
  destruct (valid_finite_shape _ _ Hy) as (Hey & Hdy & Hny).
  pose proof (digits2_pos_bounds mx) as Hbx.
  pose proof (digits2_pos_bounds my) as Hby.
  unfold Num.leb, SFleb, SFcompare, Num.scaled, cond_Zopp.
  destruct (Z.compare_spec ex ey) as [-> | Hlt | Hgt].
  - change (Pos.compare_cont Eq mx my) with (Pos.compare mx my).
    destruct (Pos.compare_spec mx my) as [-> | Hm | Hm]; try discriminate; intros _.
    + lia.
    + apply Z.mul_le_mono_nonneg_r; [apply Z.pow_nonneg; lia | lia].
  - intros _.
    rewrite (Hny ltac:(lia)) in Hby.
    assert (Hmx : Zpos mx < 2 ^ 53).
    { eapply Z.lt_le_trans; [apply Hbx |]. apply Z.pow_le_mono_r; lia. }
    replace (ey + 1074) with ((ex + 1074) + (ey - ex)) by lia.
    rewrite (Z.pow_add_r 2 (ex + 1074) (ey - ex)) by lia.
    assert (Hp : 0 < 2 ^ (ex + 1074)) by (apply Z.pow_pos_nonneg; lia).
    assert (Hq : 2 <= 2 ^ (ey - ex)).
    { change 2 with (2 ^ 1) at 1. apply Z.pow_le_mono_r; lia. }
    change (53 - 1) with 52 in Hby.
    change (2 ^ 53) with (2 * 2 ^ 52) in Hmx.
    destruct Hby as [Hby _].
    generalize dependent (2 ^ 52). generalize dependent (2 ^ (ex + 1074)).
    generalize dependent (2 ^ (ey - ex)). intros Q HQ P HP A Hmy Hmx.
    apply Z.le_trans with (A * (P * 2)); [nia |].
    apply Z.mul_le_mono_nonneg; nia.
  - discriminate.
Qed.

Lemma sum_between (lo hi : Z) (xs : list Z) :
  Forall (fun x => lo <= x <= hi) xs ->
  Z.of_nat (List.length xs) * lo <= fold_right Z.add 0 xs
  <= Z.of_nat (List.length xs) * hi.
Proof.
  induction 1 as [|x xs Hx _ IH]; [simpl; lia |].
  cbn [List.length fold_right]. rewrite Nat2Z.inj_succ. lia.
Qed.

End ExactValues.

End NumFacts.

(** ** Statistics of the price history *)

Module PriceChartFacts.
Import PriceChart NumFacts.

Lemma validItem_price (item : JsVal) :
  validItem item = true ->
  get item "price" = JNum (priceOf item) /\ Num.positive (priceOf item).
Proof.
  unfold validItem, priceOf, Num.positive. intros Hv.
  apply andb_true_iff in Hv as [_ Hv].
  destruct (get item "price"); try discriminate Hv.
  apply andb_true_iff in Hv as [_ Hv]. auto.
Qed.

Lemma validData_valid (historyData item : JsVal) :
  In item (validData historyData) -> validItem item = true.
Proof. unfold validData. intros Hin. now apply filter_In in Hin. Qed.

Lemma pricesOf_positive (historyData : JsVal) :
  Forall Num.positive (pricesOf historyData).
Proof.
  unfold pricesOf. apply Forall_forall. intros x Hx.
  apply in_map_iff in Hx as (item & <- & Hin).
  now apply validItem_price, (validData_valid historyData).
Qed.

Lemma pricesOf_nonempty (historyData : JsVal) :
  validData historyData <> [] -> pricesOf historyData <> [].
Proof.
  unfold pricesOf. destruct (validData historyData); [congruence | discriminate].
Qed.

(** The two ways out of [calculateStats]: the fallback object when no
    entry is valid, the computed object otherwise. *)
Lemma calculateStats_no_valid (historyData product : JsVal) :
  validData historyData = [] ->
  exists err,
    calculateStats historyData product
    = Normal (fallbackStats (defaultPriceOf product), err).
Proof.
  unfold validData, calculateStats. intros Hnone.
  destruct historyData as [| | b | x | s | items | fields]; simpl;
    try (eexists; reflexivity).
  - destruct (negb b); eexists; reflexivity.
  - destruct (negb _); eexists; reflexivity.
  - destruct (negb _); eexists; reflexivity.
  - simpl in Hnone. destruct items as [|item items]; simpl.
    + eexists; reflexivity.
    + unfold statsBody. rewrite Hnone. simpl. eexists; reflexivity.
Qed.

Lemma calculateStats_some_valid (historyData product : JsVal) :
  validData historyData <> [] ->
  let valid := validData historyData in
  let prices := pricesOf historyData in
  let cur := last prices Num.NaN in
  let first := hd Num.NaN prices in
  calculateStats historyData product
  = Normal
      ({| lowestPrice := JNum (Num.Math_min prices);
          highestPrice := JNum (Num.Math_max prices);
          averagePrice :=
            JNum (Num.div (fold_left Num.add prices Num.zero)
                          (Num.ofNat (List.length prices)));
          current := JNum cur;
          priceChange := Num.sub cur first;
          priceChangePercent :=
            if Num.ltb Num.zero first
            then Num.mul (Num.div (Num.sub cur first) first) (Num.ofZ 100)
            else Num.zero;
          lowestDate := dateOrNull (findByPrice (Num.Math_min prices) valid);
          highestDate := dateOrNull (findByPrice (Num.Math_max prices) valid);
          daysTracked := List.length valid |}, None).
Proof.
  unfold pricesOf, validData, calculateStats. intros Hsome.
  destruct historyData as [| | b | x | s | items | fields];
    try (simpl in Hsome; congruence).
  simpl items_of in *. destruct items as [|item items]; [simpl in Hsome; congruence |].
  cbn [truthy isArray negb orb List.length Nat.eqb].
  unfold statsBody.
  destruct (filter validItem (item :: items)) as [|v valid] eqn:Hvalid; [congruence |].
  reflexivity.
Qed.

(** [find] returns the first element that satisfies the test. *)
Lemma find_first {A : Type} (f : A -> bool) (l : list A) (x : A) :
  find f l = Some x ->
  exists before after,
    l = (before ++ x :: after)%list /\ f x = true
    /\ Forall (fun y => f y = false) before.
Proof.
  induction l as [|y l IH]; simpl; [discriminate |].
  destruct (f y) eqn:Hy.
  - intros [= ->]. exists [], l. auto.
  - intros Hfind. destruct (IH Hfind) as (before & after & -> & Hx & Hbefore).
    exists (y :: before), after. auto.
Qed.

Lemma find_succeeds {A : Type} (f : A -> bool) (l : list A) (y : A) :
  In y l -> f y = true -> exists x, find f l = Some x.
Proof.
  induction l as [|z l IH]; simpl; [tauto |].
  intros [-> | Hin] Hy.
  - rewrite Hy. eauto.
  - destruct (f z); eauto.
Qed.

(** [findByPrice p] on valid entries, for a price [p] that occurs among
    them: the first entry priced [p], and its recorded date. *)
Lemma findByPrice_first (historyData : JsVal) (p : Num.num) :
  In p (pricesOf historyData) ->
  exists before item after,
    validData historyData = (before ++ item :: after)%list
    /\ priceOf item = p
    /\ Forall (fun earlier => priceOf earlier <> p) before
    /\ dateOrNull (findByPrice p (validData historyData))
       = orElse (get item "date") JNull.
Proof.
  intros Hin. unfold pricesOf in Hin.
  apply in_map_iff in Hin as (witness & Hprice & Hwitness).
  pose proof (validData_valid _ _ Hwitness) as Hvalid.
  destruct (validItem_price _ Hvalid) as [Hget Hpos].
  destruct (find_succeeds
              (fun item => match get item "price" with
                           | JNum q => Num.eqb q p
                           | _ => false
                           end) (validData historyData) witness Hwitness)
    as [item Hfind].
  { rewrite Hget, Hprice. apply eqb_refl. subst p. now apply positive_not_nan. }
  unfold findByPrice. rewrite Hfind.
  destruct (find_first _ _ _ Hfind) as (before & after & Hsplit & Hitem & Hbefore).
  assert (Hin_item : In item (validData historyData)).
  { rewrite Hsplit. apply in_elt. }
  pose proof (validData_valid _ _ Hin_item) as Hvalid_item.
  destruct (validItem_price _ Hvalid_item) as [Hget_item Hpos_item].
  rewrite Hget_item in Hitem.
  exists before, item, after. repeat split.
  - exact Hsplit.
  - now apply positive_eqb_eq.
  - apply Forall_forall. intros earlier Hearlier Heq.
    assert (Hin_e : In earlier (validData historyData)).
    { rewrite Hsplit. apply in_or_app. now left. }
    destruct (validItem_price _ (validData_valid _ _ Hin_e)) as [Hget_e Hpos_e].
    rewrite Forall_forall in Hbefore. specialize (Hbefore earlier Hearlier).
    cbv beta in Hbefore. rewrite Hget_e, Heq in Hbefore.
    rewrite eqb_refl in Hbefore; [discriminate |].
    subst p. now apply positive_not_nan.
  - unfold dateOrNull, opt_member.
    unfold validItem in Hvalid_item. apply andb_true_iff in Hvalid_item as [Ht _].
    destruct item; try discriminate Ht; reflexivity.
Qed.

End PriceChartFacts.

(** ** Comparing values that are numbers *)

Module JsFacts.
Import NumFacts.

Section WithHost.
Context `{Host}.

Lemma IsLessThan_num (a b : Num.num) :
  IsLessThan (JNum a) (JNum b)
  = if Num.is_nan a || Num.is_nan b then None else Some (Num.ltb a b).
Proof. reflexivity. Qed.

Lemma lt_num (a b : Num.num) : lessThan (JNum a) (JNum b) = Num.ltb a b.
Proof.
  unfold lessThan. rewrite IsLessThan_num.
  split_num a; split_num b; reflexivity.
Qed.

Lemma gt_num (a b : Num.num) : greaterThan (JNum a) (JNum b) = Num.ltb b a.
Proof. unfold greaterThan. exact (lt_num b a). Qed.

Lemma le_num (a b : Num.num) : lessOrEqual (JNum a) (JNum b) = Num.leb a b.
Proof.
  unfold lessOrEqual. rewrite IsLessThan_num.
  split_num a; split_num b; num_order.
Qed.

Lemma ge_num (a b : Num.num) : greaterOrEqual (JNum a) (JNum b) = Num.leb b a.
Proof.
  unfold greaterOrEqual. rewrite IsLessThan_num.
  split_num a; split_num b; num_order.
Qed.

End WithHost.

End JsFacts.

Module PriceChartSpec.
Import PriceChart NumFacts PriceChartFacts.

(** C1, as stated, fails: the history [[infiniteEntry]] has no entry with a
    finite positive price, yet the statistics are not the fallback ones: the
    lowest price is [Infinity], not the product's price 5, and one day is
    tracked. *)
Lemma C1_infinite_price_is_kept :
  filter finitePositivePrice (items_of (JArr [infiniteEntry])) = []
  /\ defaultPriceOf productAt5 = JNum (Num.ofZ 5)
  /\ exists stats,
       calculateStats (JArr [infiniteEntry]) productAt5 = Normal (stats, None)
       /\ lowestPrice stats = JNum Num.PosInf
       /\ lowestPrice stats <> defaultPriceOf productAt5
       /\ daysTracked stats = 1.
Proof.
  split; [reflexivity |]. split; [reflexivity |].
  eexists. split; [vm_compute; reflexivity |].
  simpl. repeat split. discriminate.
Qed.

(** C1 (amended): the filter keeps exactly the entries of the list that
    are truthy and whose price is a number, not NaN and above zero (so
    [Infinity] passes); for any history (null, not an array, empty or
    malformed) and any product, if no entry passes, every price statistic
    equals the fallback price [product?.price || 0] and both change fields
    are zero. *)
Theorem C1_fallback_when_no_entry_is_valid (historyData product : JsVal) :
  validData historyData = [] ->
  (forall item,
      validItem item = true <->
      truthy item = true /\
      exists price, get item "price" = JNum price
                    /\ Num.is_nan price = false /\ Num.ltb Num.zero price = true)
  /\ exists stats err,
       calculateStats historyData product = Normal (stats, err)
       /\ lowestPrice stats = defaultPriceOf product
       /\ highestPrice stats = defaultPriceOf product
       /\ averagePrice stats = defaultPriceOf product
       /\ current stats = defaultPriceOf product
       /\ priceChange stats = Num.zero
       /\ priceChangePercent stats = Num.zero.
Proof.
  intros Hnone. split.
  - intros item. unfold validItem. rewrite andb_true_iff.
    split; intros [Ht Hp]; (split; [exact Ht |]).
    + destruct (get item "price") as [| | | price | | |]; try discriminate Hp.
      apply andb_true_iff in Hp as [Hn Hp]. apply negb_true_iff in Hn.
      now exists price.
    + destruct Hp as (price & -> & Hn & Hp). now rewrite Hn, Hp.
  - destruct (calculateStats_no_valid historyData product Hnone) as [err Hrun].
    exists (fallbackStats (defaultPriceOf product)), err.
    rewrite Hrun. repeat split.
Qed.

(** A malformed history (a null, a bare number, an entry whose price is a
    string) for a product priced 5. *)
Lemma C1_fallback_witness :
  exists stats err,
    calculateStats
      (JArr [JNull; JNum (Num.ofZ 3); JObj [("price", JStr "12")]]) productAt5
    = Normal (stats, err)
    /\ lowestPrice stats = JNum (Num.ofZ 5).
Proof.
  destruct (C1_fallback_when_no_entry_is_valid
              (JArr [JNull; JNum (Num.ofZ 3); JObj [("price", JStr "12")]])
              productAt5 eq_refl)
    as (_ & stats & err & Hrun & Hlow & _).
  exists stats, err. split; [exact Hrun | exact Hlow].
Defined.

(** C7: for any history and any product, [calculateStats] completes
    normally (it never throws), and the [daysTracked] it returns is the
    number of entries that pass the validity filter. *)
Theorem C7_never_throws_and_counts_valid_entries (historyData product : JsVal) :
  exists stats err,
    calculateStats historyData product = Normal (stats, err)
    /\ daysTracked stats = List.length (validData historyData).
Proof.
  destruct (validData historyData) as [|v valid] eqn:Hvalid.
  - destruct (calculateStats_no_valid historyData product Hvalid) as [err Hrun].
    do 2 eexists. split; [exact Hrun | reflexivity].
  - assert (Hsome : validData historyData <> []) by (rewrite Hvalid; discriminate).
    pose proof (calculateStats_some_valid historyData product Hsome) as Hrun.
    cbv zeta in Hrun. do 2 eexists. split; [exact Hrun |].
    simpl. now rewrite Hvalid.
Qed.

(** C8: when some entry passes the filter, [lowestPrice] is below or equal
    to, and [highestPrice] above or equal to, every filtered price, and
    [lowestDate] (respectively [highestDate]) is the date of the first
    entry, in filtered order, whose price equals [lowestPrice]
    (respectively [highestPrice]): no earlier filtered entry has that
    price, whatever the dates are. The date is recorded through
    [item.date || null], so it is the entry's date whenever that is truthy
    (a non-empty string, a non-zero timestamp). *)
Theorem C8_extreme_dates_are_first_occurrences (historyData product : JsVal) :
  validData historyData <> [] ->
  exists stats lowest highest,
    calculateStats historyData product = Normal (stats, None)
    /\ lowestPrice stats = JNum lowest
    /\ highestPrice stats = JNum highest
    /\ Forall (fun item => Num.leb lowest (priceOf item) = true
                           /\ Num.leb (priceOf item) highest = true)
              (validData historyData)
    /\ (exists before item after,
          validData historyData = (before ++ item :: after)%list
          /\ priceOf item = lowest
          /\ Forall (fun earlier => priceOf earlier <> lowest) before
          /\ lowestDate stats = orElse (get item "date") JNull
          /\ (truthy (get item "date") = true ->
              lowestDate stats = get item "date"))
    /\ (exists before item after,
          validData historyData = (before ++ item :: after)%list
          /\ priceOf item = highest
          /\ Forall (fun earlier => priceOf earlier <> highest) before
          /\ highestDate stats = orElse (get item "date") JNull
          /\ (truthy (get item "date") = true ->
              highestDate stats = get item "date")).
Proof.
  intros Hsome.
  pose proof (calculateStats_some_valid historyData product Hsome) as Hrun.
  cbv zeta in Hrun.
  destruct (Math_min_spec _ (pricesOf_nonempty _ Hsome) (pricesOf_positive _))
    as [Hmin_in Hmin_le].
  destruct (Math_max_spec _ (pricesOf_nonempty _ Hsome) (pricesOf_positive _))
    as [Hmax_in Hmax_le].
  eexists _, (Num.Math_min (pricesOf historyData)),
          (Num.Math_max (pricesOf historyData)).
  split; [exact Hrun |]. cbn [lowestPrice highestPrice lowestDate highestDate].
  split; [reflexivity |]. split; [reflexivity |]. split; [| split].
  - apply Forall_forall. intros item Hitem.
    rewrite Forall_forall in Hmin_le, Hmax_le.
    assert (Hp : In (priceOf item) (pricesOf historyData))
      by (unfold pricesOf; now apply in_map).
    auto.
  - destruct (findByPrice_first _ _ Hmin_in)
      as (before & item & after & Hsplit & Hprice & Hbefore & Hdate).
    exists before, item, after. repeat split; try assumption.
    intros Htruthy. rewrite Hdate. unfold orElse. now rewrite Htruthy.
  - destruct (findByPrice_first _ _ Hmax_in)
      as (before & item & after & Hsplit & Hprice & Hbefore & Hdate).
    exists before, item, after. repeat split; try assumption.
    intros Htruthy. rewrite Hdate. unfold orElse. now rewrite Htruthy.
Qed.

(** On [tiedHistory] the lowest date is that of the first entry priced 90,
    although the other entry priced 90 has the earlier date. *)
Lemma C8_tie_witness :
  exists stats,
    calculateStats tiedHistory productAt5 = Normal (stats, None)
    /\ lowestPrice stats = JNum (Num.ofZ 90)
    /\ lowestDate stats = JStr "2024-03-01"
    /\ highestDate stats = JStr "2024-01-01".
Proof.
  destruct (C8_extreme_dates_are_first_occurrences tiedHistory productAt5)
    as (stats & lowest & highest & Hrun & _).
  { discriminate. }
  exists stats. split; [exact Hrun |].
  vm_compute in Hrun. injection Hrun as <-. repeat split.
Defined.

(** C10, as stated, fails: on [flatHistory] the sum [0 + 100.1 + 100.1 +
    100.1] and its quotient by 3 are rounded, and the average that comes
    out is one unit in the last place below the lowest price. *)
Lemma C10_average_below_lowest :
  exists stats lowest average,
    calculateStats flatHistory productAt5 = Normal (stats, None)
    /\ lowestPrice stats = JNum lowest
    /\ averagePrice stats = JNum average
    /\ lowest = S754_finite false 7043911292184166 (-46)
    /\ average = S754_finite false 7043911292184165 (-46)
    /\ Num.ltb average lowest = true
    /\ Num.leb lowest average = false.
Proof.
  do 3 eexists. split; [vm_compute; reflexivity |].
  cbn [lowestPrice averagePrice]. repeat split.
Qed.

(** C10 (amended): every output satisfies [lowestPrice <= highestPrice].
    On the fallback path the lowest, average and highest price all equal
    the fallback price. When some entry passes the filter, [lowestPrice]
    and [highestPrice] are filtered prices and every filtered price lies
    between them; so, when the filtered prices are finite, does their
    exact arithmetic mean (stated on the exact values scaled by
    [2 ^ 1074]: [n * lowest <= sum <= n * highest]). The [averagePrice]
    returned is the double obtained by adding the filtered prices to 0
    from left to right and dividing by their number, each operation
    rounded to nearest. *)
Theorem C10_lowest_below_highest (historyData product : JsVal) :
  exists stats err,
    calculateStats historyData product = Normal (stats, err)
    /\ (validData historyData = [] ->
        lowestPrice stats = defaultPriceOf product
        /\ averagePrice stats = defaultPriceOf product
        /\ highestPrice stats = defaultPriceOf product)
    /\ (validData historyData <> [] ->
        exists lowest highest,
          lowestPrice stats = JNum lowest
          /\ highestPrice stats = JNum highest
          /\ Num.leb lowest highest = true
          /\ In lowest (pricesOf historyData)
          /\ In highest (pricesOf historyData)
          /\ Forall (fun price => Num.leb lowest price = true
                                  /\ Num.leb price highest = true)
                    (pricesOf historyData)
          /\ (Forall (fun price => Num.finitePositive price = true)
                     (pricesOf historyData) ->
              (Z.of_nat (List.length (pricesOf historyData)) * Num.scaled lowest
               <= fold_right Z.add 0%Z (map Num.scaled (pricesOf historyData))
               <= Z.of_nat (List.length (pricesOf historyData))
                  * Num.scaled highest)%Z)
          /\ averagePrice stats
             = JNum (Num.div (fold_left Num.add (pricesOf historyData) Num.zero)
                             (Num.ofNat (List.length (pricesOf historyData))))).
Proof.
  destruct (validData historyData) as [|v valid] eqn:Hvalid.
  - destruct (calculateStats_no_valid historyData product Hvalid) as [err Hrun].
    do 2 eexists. split; [exact Hrun |]. split; [| congruence].
    intros _. repeat split.
  - assert (Hsome : validData historyData <> []) by (rewrite Hvalid; discriminate).
    pose proof (calculateStats_some_valid historyData product Hsome) as Hrun.
    cbv zeta in Hrun.
    destruct (Math_min_spec _ (pricesOf_nonempty _ Hsome) (pricesOf_positive _))
      as [Hmin_in Hmin_le].
    destruct (Math_max_spec _ (pricesOf_nonempty _ Hsome) (pricesOf_positive _))
      as [Hmax_in Hmax_le].
    do 2 eexists. split; [exact Hrun |]. split; [discriminate |].
    intros _. do 2 eexists.
    cbn [lowestPrice highestPrice averagePrice].
    split; [reflexivity |]. split; [reflexivity |].
    rewrite Forall_forall in Hmin_le, Hmax_le.
    split; [auto |]. split; [exact Hmin_in |]. split; [exact Hmax_in |].
    split; [apply Forall_forall; auto |]. split; [| reflexivity].
    intros Hfinite. rewrite <- (length_map Num.scaled).
    apply sum_between. rewrite Forall_forall in Hfinite |- *.
    intros x Hx. apply in_map_iff in Hx as (price & <- & Hprice).
    split; apply leb_scaled; auto.
Qed.

(** On [flatHistory] the exact mean of the three prices is the price
    itself, between the lowest and the highest price, which are equal. *)
Lemma C10_flatHistory_witness :
  exists stats lowest highest,
    calculateStats flatHistory productAt5 = Normal (stats, None)
    /\ lowestPrice stats = JNum lowest
    /\ highestPrice stats = JNum highest
    /\ Num.leb lowest highest = true
    /\ (3 * Num.scaled lowest
        <= fold_right Z.add 0%Z (map Num.scaled (pricesOf flatHistory))
        <= 3 * Num.scaled highest)%Z.
Proof.
  destruct (C10_lowest_below_highest flatHistory productAt5)
    as (stats & err & Hrun & _ & Hsome).
  destruct Hsome as (lowest & highest & Hlow & Hhigh & Hle & _ & _ & _ & Hmean & _);
    [discriminate |].
  exists stats, lowest, highest.
  assert (Herr : err = None) by (vm_compute in Hrun; congruence).
  rewrite Herr in Hrun.
  repeat split; try assumption; apply Hmean; repeat constructor.
Defined.

End PriceChartSpec.

(** ** The buy recommendation *)

Module RecommendationSpec.
Import PriceChart NumFacts JsFacts.

(** C2: the panel shows "great time" exactly when
    [current <= lowest * 1.05]; otherwise "wait" exactly when
    [current >= highest * 0.95]; otherwise "good" exactly when
    [current < average]; otherwise the neutral message. On statistics whose
    prices are numbers the three tests are the comparisons of doubles, with
    the products rounded to nearest. In particular, statistics with lowest
    100 and current 104 are classified "great time to buy" (whatever the
    highest and average prices are). *)
Theorem C2_recommendation_table `{Host} (stats : Stats) :
  (recommendation stats = GreatTimeToBuy <-> nearLowest stats = true)
  /\ (recommendation stats = ConsiderWaiting <->
      nearLowest stats = false /\ nearHighest stats = true)
  /\ (recommendation stats = GoodTimeToBuy <->
      nearLowest stats = false /\ nearHighest stats = false
      /\ belowAverage stats = true)
  /\ (recommendation stats = MightWantToWait <->
      nearLowest stats = false /\ nearHighest stats = false
      /\ belowAverage stats = false)
  /\ (forall cur low high avg,
         current stats = JNum cur -> lowestPrice stats = JNum low ->
         highestPrice stats = JNum high -> averagePrice stats = JNum avg ->
         nearLowest stats = Num.leb cur (Num.mul low (Num.dec 105 2))
         /\ nearHighest stats = Num.leb (Num.mul high (Num.dec 95 2)) cur
         /\ belowAverage stats = Num.ltb cur avg)
  /\ (lowestPrice stats = JNum (Num.ofZ 100) ->
      current stats = JNum (Num.ofZ 104) ->
      recommendation stats = GreatTimeToBuy).
Proof.
  assert (Hgreat : lowestPrice stats = JNum (Num.ofZ 100) ->
                   current stats = JNum (Num.ofZ 104) ->
                   nearLowest stats = true).
  { intros Hlow Hcur. unfold nearLowest. rewrite Hlow, Hcur, le_num.
    vm_compute. reflexivity. }
  assert (Hnumeric : forall cur low high avg,
             current stats = JNum cur -> lowestPrice stats = JNum low ->
             highestPrice stats = JNum high -> averagePrice stats = JNum avg ->
             nearLowest stats = Num.leb cur (Num.mul low (Num.dec 105 2))
             /\ nearHighest stats = Num.leb (Num.mul high (Num.dec 95 2)) cur
             /\ belowAverage stats = Num.ltb cur avg).
  { intros cur low high avg Hcur Hlow Hhigh Havg.
    unfold nearLowest, nearHighest, belowAverage.
    rewrite Hcur, Hlow, Hhigh, Havg, le_num, ge_num, lt_num. auto. }
  unfold recommendation.
  destruct (nearLowest stats), (nearHighest stats), (belowAverage stats);
    (split; [| split; [| split; [| split; [| split; [exact Hnumeric |]]]]]);
    try (split; [discriminate | intros (? & ? & ?); discriminate]);
    try (split; [discriminate | intros (? & ?); discriminate]);
    try (split; [discriminate | discriminate]);
    try (split; auto; fail);
    try (intros; reflexivity);
    intros Hlow Hcur; specialize (Hgreat Hlow Hcur); discriminate.
Qed.

(** [sampleStats] is classified "great time to buy": 104 is within 5% of
    100, where [100 * 1.05] is the double 105. *)
Lemma C2_sample_is_great_time :
  Num.mul (Num.ofZ 100) (Num.dec 105 2) = Num.ofZ 105
  /\ @recommendation exampleHost sampleStats = GreatTimeToBuy.
Proof.
  split; [vm_compute; reflexivity |].
  apply (@C2_recommendation_table exampleHost sampleStats); reflexivity.
Defined.

End RecommendationSpec.

(** ** The API client *)

Module ApiFacts.
Import Api.

Section WithHost.
Context `{Host}.

(** [resolveErrorMessage] never throws: both of its [try] blocks have a
    [catch] that returns. *)
Lemma resolveErrorMessage_cases (defaultMessage : string) (response : Response) :
  resolveErrorMessage defaultMessage response
  = Normal
      (match json response with
       | inr (JUndefined | JNull) | inl _ => serverError response
       | inr errorData => orElse (get errorData "error") (JStr defaultMessage)
       end).
Proof.
  unfold resolveErrorMessage, readJson, readText.
  destruct (json response) as [e | errorData]; simpl; [reflexivity |].
  destruct errorData; reflexivity.
Qed.

(** What an operation does with a response that is not ok: it throws an
    [Error] whose message is the resolved one, or the outer message if
    that is the empty string. *)
Lemma request_not_ok (defaultMessage outerMessage : string) (fallback : JsVal)
  (response : Response) (resolved : JsVal) :
  ok response = false ->
  resolveErrorMessage defaultMessage response = Normal resolved ->
  request defaultMessage outerMessage fallback (Normal response)
  = Throw (mkError (if ToString resolved =? "" then outerMessage
                    else ToString resolved)).
Proof.
  intros Hok Hres. unfold request. simpl. rewrite Hok. simpl.
  rewrite Hres. simpl. unfold orElse. simpl.
  destruct (ToString resolved =? "") eqn:Hempty; reflexivity.
Qed.

Lemma request_not_ok_string (defaultMessage outerMessage : string)
  (fallback : JsVal) (response : Response) (message : string) :
  ok response = false ->
  resolveErrorMessage defaultMessage response = Normal (JStr message) ->
  message <> "" ->
  request defaultMessage outerMessage fallback (Normal response)
  = Throw (mkError message).
Proof.
  intros Hok Hres Hne.
  rewrite (request_not_ok _ _ _ _ _ Hok Hres). simpl.
  destruct (String.eqb_spec message ""); [contradiction | reflexivity].
Qed.

(** What an operation does with an ok response: the parsed body, or the
    fallback when parsing throws. *)
Lemma request_ok (defaultMessage outerMessage : string) (fallback : JsVal)
  (response : Response) :
  ok response = true ->
  request defaultMessage outerMessage fallback (Normal response)
  = Normal (match json response with
            | inr data => data
            | inl _ => fallback
            end).
Proof.
  intros Hok. unfold request, readJson. simpl. rewrite Hok. simpl.
  destruct (json response); reflexivity.
Qed.

End WithHost.

Lemma statusText_nonempty (n : nat) : statusText n <> "".
Proof.
  unfold statusText, NilZero.string_of_uint.
  destruct (Nat.to_uint n) eqn:Hn; simpl; discriminate.
Qed.

End ApiFacts.

Module ApiSpec.
Import Api ApiFacts.

(** C3, as stated, fails: on a 500 response whose body [{}] parses as JSON
    without a declared message, the stated order gives the short plain-text
    body "{}" (and, failing that, a message with the status code), but
    [searchProducts] fails with its default message. *)
Lemma C3_json_without_error_gets_default :
  specErrorMessage emptyObject500 = JStr "{}"
  /\ @searchProducts exampleHost "2024-01-01T00:00:00.000Z" (Normal emptyObject500)
     = Throw (mkError "Failed to search for products")
  /\ mkError "Failed to search for products" <> mkError "{}"
  /\ mkError "Failed to search for products" <> mkError "Server error (500)".
Proof. repeat split; discriminate. Qed.

Section WithHost.
Context `{Host}.

Lemma request_resolves (defaultMessage outerMessage : string) (fallback : JsVal) :
  defaultMessage <> "" ->
  ResolvesErrors (request defaultMessage outerMessage fallback)
                 defaultMessage outerMessage.
Proof.
  intros Hdefault response Hok.
  pose proof (resolveErrorMessage_cases defaultMessage response) as Hres.
  split; [| split; [| split]].
  - intros data declared Hjson Hget Hne. rewrite Hjson in Hres.
    apply (request_not_ok_string _ _ _ _ declared Hok); [| exact Hne].
    rewrite Hres. f_equal.
    unfold Normal.
    destruct data; try discriminate Hget.
    simpl in Hget |- *. rewrite Hget. unfold orElse. simpl.
    destruct (String.eqb_spec declared ""); [contradiction | reflexivity].
  - intros data Hjson Hnull Htruthy _. rewrite Hjson in Hres.
    rewrite (request_not_ok _ outerMessage fallback _ (get data "error") Hok);
      [reflexivity |].
    rewrite Hres. f_equal. unfold Normal.
    destruct data; try discriminate Hnull; cbv iota; unfold orElse;
      now rewrite Htruthy.
  - intros data Hjson Hnull Hfalsy. rewrite Hjson in Hres.
    apply (request_not_ok_string _ _ _ _ defaultMessage Hok); [| exact Hdefault].
    rewrite Hres. f_equal.
    unfold Normal.
    destruct data; try discriminate Hnull; cbv iota; unfold orElse; now rewrite Hfalsy.
  - intros Hunreadable _.
    apply (request_not_ok_string _ _ _ _ _ Hok); [| simpl; discriminate].
    rewrite Hres. f_equal.
    destruct Hunreadable as [[e He] | (data & Hdata & Hnull)].
    + rewrite He. reflexivity.
    + rewrite Hdata. unfold Normal.
      destruct data; try discriminate Hnull; reflexivity.
Qed.

End WithHost.

(** C3 (amended): on every response that is not ok, each of
    [searchProducts], [getPriceHistory] and [updatePrices] throws an
    [Error] whose message is resolved in this order. When the body parses
    as JSON to a value other than null: the [error] field when it is a
    non-empty string; when it is another truthy value that converts to a
    string (a number, [true], an array, an object), that string, with the
    operation's outer message in its place if it is empty; the
    operation's own default message when the field is missing or falsy.
    When the body cannot be read as JSON and has no plain text that is
    non-empty and shorter than 100 characters: the generic message with
    the status code in decimal. In particular [searchProducts] on a 500
    response with JSON body [{error: "x"}] fails with message exactly
    "x". *)
Theorem C3_error_message_resolution `{Host} (now : string) :
  ResolvesErrors (searchProducts now) "Failed to search for products"
                 "An error occurred while searching for products"
  /\ ResolvesErrors getPriceHistory "Failed to fetch price history"
                    "An error occurred while fetching price history"
  /\ ResolvesErrors updatePrices "Failed to update prices"
                    "An error occurred while updating prices"
  /\ (forall response,
         ok response = false -> status response = 500 ->
         json response = Normal (JObj [("error", JStr "x")]) ->
         searchProducts now (Normal response) = Throw (mkError "x")).
Proof.
  assert (Hsearch : ResolvesErrors (searchProducts now)
                      "Failed to search for products"
                      "An error occurred while searching for products")
    by (apply request_resolves; discriminate).
  split; [exact Hsearch |].
  split; [apply request_resolves; discriminate |].
  split; [apply request_resolves; discriminate |].
  intros response Hok _ Hjson.
  destruct (Hsearch response Hok) as (Hdeclared & _).
  apply (Hdeclared (JObj [("error", JStr "x")]) "x" Hjson); [reflexivity | discriminate].
Qed.

(** The three operations on [declared500], on [structured500] and on
    [empty503]. *)
Lemma C3_resolution_witness :
  @searchProducts exampleHost "2024-01-01T00:00:00.000Z" (Normal declared500)
  = Throw (mkError "x")
  /\ @getPriceHistory exampleHost (Normal structured500)
     = Throw (mkError "[object Object]")
  /\ @updatePrices exampleHost (Normal empty503)
     = Throw (mkError "Server error (503)").
Proof.
  destruct (@C3_error_message_resolution exampleHost "2024-01-01T00:00:00.000Z")
    as (Hsearch & Hhistory & Hupdate & Hx).
  split; [apply Hx; reflexivity |]. split.
  - destruct (Hhistory structured500 eq_refl) as (_ & Hconverted & _).
    apply (Hconverted (JObj [("error", JObj [("code", JNum (Num.ofZ 42))])]));
      reflexivity.
  - destruct (Hupdate empty503 eq_refl) as (_ & _ & _ & Hgeneric).
    apply Hgeneric.
    + left. eexists. reflexivity.
    + intros body [= <-]. now left.
Defined.

(** C4: on an ok response whose body does not parse as JSON, none of the
    operations throws: [searchProducts] returns the result with empty
    [amazon] and [flipkart] lists and the current time, [getPriceHistory]
    returns the empty array, and [updatePrices] returns an object holding
    a message. *)
Theorem C4_unparseable_success_falls_back `{Host} (now : string)
  (response : Response) (jsonError : JsVal) :
  ok response = true ->
  json response = Throw jsonError ->
  searchProducts now (Normal response)
  = Normal (JObj [("amazon", JArr []); ("flipkart", JArr []);
                  ("timestamp", JStr now)])
  /\ getPriceHistory (Normal response) = Normal (JArr [])
  /\ updatePrices (Normal response)
     = Normal (JObj [("message",
                      JStr "Operation completed, but response was not valid JSON")]).
Proof.
  intros Hok Hjson.
  unfold searchProducts, getPriceHistory, updatePrices.
  rewrite !(request_ok _ _ _ _ Hok), Hjson. repeat split.
Qed.

Lemma C4_garbled200_witness :
  @searchProducts exampleHost "2024-01-01T00:00:00.000Z" (Normal garbled200)
  = Normal (emptySearchResult "2024-01-01T00:00:00.000Z")
  /\ @getPriceHistory exampleHost (Normal garbled200) = Normal (JArr [])
  /\ @updatePrices exampleHost (Normal garbled200) = Normal updatePricesFallback.
Proof.
  apply (@C4_unparseable_success_falls_back exampleHost
           "2024-01-01T00:00:00.000Z" garbled200
           (mkError "Unexpected token < in JSON at position 0"));
    reflexivity.
Defined.

End ApiSpec.

(** ** Recent searches *)

Module ProductSearchFacts.
Import ProductSearch.

Lemma saveSearch_blank (q : string) (st : State) :
  trim q = "" -> saveSearch q st = st.
Proof. intros Hq. unfold saveSearch. now rewrite Hq. Qed.

Lemma saveSearch_saved (q : string) (st : State) :
  trim q <> "" ->
  saveSearch q st
  = let updated :=
      firstn 5 (q :: filter (fun s => negb (s =? q)) (recentSearches st)) in
    {| recentSearches := updated; storedSearches := Some updated |}.
Proof.
  intros Hq. unfold saveSearch.
  destruct (String.eqb_spec (trim q) ""); [contradiction | reflexivity].
Qed.

Lemma NoDup_firstn {A : Type} (n : nat) (l : list A) :
  NoDup l -> NoDup (firstn n l).
Proof.
  intros Hl. rewrite <- (firstn_skipn n l) in Hl.
  now apply NoDup_app_remove_r in Hl.
Qed.

Lemma not_in_filter_neq (q : string) (l : list string) :
  ~ In q (filter (fun s => negb (s =? q)) l).
Proof.
  intros Hin. apply filter_In in Hin as [_ Hneq].
  now rewrite String.eqb_refl in Hneq.
Qed.

Lemma NoDup_cons_filter (q : string) (l : list string) :
  NoDup l -> NoDup (q :: filter (fun s => negb (s =? q)) l).
Proof.
  intros Hl. constructor; [apply not_in_filter_neq | now apply NoDup_filter].
Qed.

Lemma count_occ_firstn_cons (q : string) (l : list string) (n : nat) :
  ~ In q l -> count_occ string_dec (firstn (S n) (q :: l)) q = 1.
Proof.
  intros Hnot. rewrite firstn_cons, count_occ_cons_eq by reflexivity.
  f_equal. apply count_occ_not_In. intros Hin. apply Hnot.
  rewrite <- (firstn_skipn n l). apply in_or_app. now left.
Qed.

(** One save that takes effect, from any state at all. *)
Lemma saveSearch_effect (q : string) (st : State) :
  trim q <> "" ->
  let st' := saveSearch q st in
  List.length (recentSearches st') <= 5
  /\ hd_error (recentSearches st') = Some q
  /\ count_occ string_dec (recentSearches st') q = 1
  /\ storedSearches st' = Some (recentSearches st')
  /\ (NoDup (recentSearches st) -> NoDup (recentSearches st')).
Proof.
  intros Hq. rewrite (saveSearch_saved q st Hq). cbv zeta. cbn [recentSearches storedSearches].
  repeat split.
  - apply firstn_le_length.
  - apply count_occ_firstn_cons, not_in_filter_neq.
  - intros Hnodup. now apply NoDup_firstn, NoDup_cons_filter.
Qed.

Lemma saveAll_app (earlier later : list string) (st : State) :
  saveAll (earlier ++ later)%list st = saveAll later (saveAll earlier st).
Proof. unfold saveAll. apply fold_left_app. Qed.

Lemma saveAll_blank (queries : list string) (st : State) :
  Forall (fun q => trim q = "") queries -> saveAll queries st = st.
Proof.
  intros Hblank. revert st.
  induction Hblank as [|q queries Hq _ IH]; intros st; [reflexivity |].
  unfold saveAll in *. simpl. rewrite (saveSearch_blank q st Hq). apply IH.
Qed.

(** The invariant of the store is kept by every save. *)
Lemma saveSearch_invariant (q : string) (st : State) :
  NoDup (recentSearches st) /\ List.length (recentSearches st) <= 5 ->
  NoDup (recentSearches (saveSearch q st))
  /\ List.length (recentSearches (saveSearch q st)) <= 5.
Proof.
  intros [Hnodup Hlen].
  destruct (String.eqb_spec (trim q) "") as [Hq | Hq].
  - now rewrite (saveSearch_blank q st Hq).
  - destruct (saveSearch_effect q st Hq) as (Hlen' & _ & _ & _ & Hnodup'). auto.
Qed.

Lemma saveAll_invariant (queries : list string) (st : State) :
  NoDup (recentSearches st) /\ List.length (recentSearches st) <= 5 ->
  NoDup (recentSearches (saveAll queries st))
  /\ List.length (recentSearches (saveAll queries st)) <= 5.
Proof.
  revert st. induction queries as [|q queries IH]; intros st Hinv; [exact Hinv |].
  change (saveAll (q :: queries) st) with (saveAll queries (saveSearch q st)).
  apply IH, saveSearch_invariant, Hinv.
Qed.

End ProductSearchFacts.

Module ProductSearchSpec.
Import ProductSearch ProductSearchFacts.

(** C6, as stated, fails: starting from a list of length 2 that holds
    "laptop" twice, saving "camera" leaves both copies in the list. *)
Lemma C6_duplicates_survive_a_save :
  List.length (recentSearches duplicatedState) <= 5
  /\ recentSearches (saveSearch "camera" duplicatedState)
     = ["camera"; "laptop"; "laptop"]
  /\ ~ NoDup (recentSearches (saveSearch "camera" duplicatedState)).
Proof.
  split; [simpl; lia |]. split; [reflexivity |].
  simpl. intros Hnodup. inversion Hnodup as [|? ? _ Htail]; subst.
  inversion Htail as [|? ? Hnot _]; subst. apply Hnot. now left.
Qed.

(** C6 (amended): for every sequence of saves starting from a list of
    length at most 5 without duplicates (the empty list of a fresh store
    in particular), the list afterwards has length at most 5 and no
    duplicates. From any list at all, once a save has taken effect the
    list has length at most 5, the last query that was saved (the last one
    of the sequence that is not blank) is first in it and occurs in it
    exactly once, and the list written to local storage is the list in the
    component's state. *)
Theorem C6_recent_searches_invariant (queries : list string) (st : State) :
  (NoDup (recentSearches st) ->
   List.length (recentSearches st) <= 5 ->
   List.length (recentSearches (saveAll queries st)) <= 5
   /\ NoDup (recentSearches (saveAll queries st)))
  /\ (forall earlier q later,
         queries = (earlier ++ q :: later)%list ->
         trim q <> "" -> Forall (fun r => trim r = "") later ->
         List.length (recentSearches (saveAll queries st)) <= 5
         /\ hd_error (recentSearches (saveAll queries st)) = Some q
         /\ count_occ string_dec (recentSearches (saveAll queries st)) q = 1
         /\ storedSearches (saveAll queries st)
            = Some (recentSearches (saveAll queries st))).
Proof.
  split.
  - intros Hnodup Hlen.
    destruct (saveAll_invariant queries st (conj Hnodup Hlen)) as [Hnodup' Hlen'].
    auto.
  - intros earlier q later -> Hq Hblank.
    rewrite saveAll_app.
    change (saveAll (q :: later) (saveAll earlier st))
      with (saveAll later (saveSearch q (saveAll earlier st))).
    rewrite (saveAll_blank later _ Hblank).
    destruct (saveSearch_effect q (saveAll earlier st) Hq)
      as (Hlen & Hhd & Hcount & Hstored & _).
    auto.
Qed.

(** Nine searches on a fresh store, two of them repeated and the last one
    blank: five entries remain, without duplicates, "tv" first. *)
Lemma C6_fresh_store_witness :
  recentSearches
    (saveAll ["laptop"; "phone"; "laptop"; "camera"; "watch"; "tablet";
              "tv"; "tv"; "  "] freshState)
  = ["tv"; "tablet"; "watch"; "camera"; "laptop"]
  /\ NoDup
       (recentSearches
          (saveAll ["laptop"; "phone"; "laptop"; "camera"; "watch"; "tablet";
                    "tv"; "tv"; "  "] freshState))
  /\ hd_error
       (recentSearches
          (saveAll ["laptop"; "phone"; "laptop"; "camera"; "watch"; "tablet";
                    "tv"; "tv"; "  "] freshState))
     = Some "tv".
Proof.
  split; [reflexivity |].
  destruct (C6_recent_searches_invariant
              ["laptop"; "phone"; "laptop"; "camera"; "watch"; "tablet";
               "tv"; "tv"; "  "] freshState)
    as (Hinvariant & Hlast).
  split.
  - apply Hinvariant; [constructor | simpl; lia].
  - apply (Hlast ["laptop"; "phone"; "laptop"; "camera"; "watch"; "tablet"; "tv"]
                 "tv" ["  "]).
    + reflexivity.
    + discriminate.
    + repeat constructor.
Defined.

End ProductSearchSpec.

(** ** Sorting the comparison table *)

Module SortFacts.
Import ComparisonTable.

Section InsertionSort.
Context {A : Type}.
Variable cmp : A -> A -> Z.
Variable typed : A -> Prop.

Hypothesis cmp_total :
  forall a b, typed a -> typed b -> inOrder cmp a b \/ inOrder cmp b a.
Hypothesis cmp_trans :
  forall a b c, typed a -> typed b -> typed c ->
                inOrder cmp a b -> inOrder cmp b c -> inOrder cmp a c.

Lemma insertSorted_perm (x : A) (l : list A) :
  Permutation (x :: l) (insertSorted cmp x l).
Proof.
  induction l as [|y l IH]; simpl; [reflexivity |].
  destruct (cmp x y <=? 0)%Z; [reflexivity |].
  rewrite perm_swap. now apply perm_skip.
Qed.

Lemma Array_sort_perm (l : list A) : Permutation l (Array_sort cmp l).
Proof.
  induction l as [|x l IH]; simpl; [constructor |].
  rewrite <- insertSorted_perm. now apply perm_skip.
Qed.

Lemma insertSorted_sorted (x : A) (l : list A) :
  typed x -> Forall typed l ->
  StronglySorted (inOrder cmp) l -> StronglySorted (inOrder cmp) (insertSorted cmp x l).
Proof.
  intros Hx Htyped Hsorted.
  induction Hsorted as [|y l Hsorted IH Hy]; simpl.
  - repeat constructor.
  - inversion Htyped as [|? ? Hty Htl]; subst.
    destruct (Z.leb_spec (cmp x y) 0) as [Hle | Hgt].
    + constructor; [now constructor |].
      constructor; [exact Hle |].
      rewrite Forall_forall in Hy, Htl |- *. intros z Hz.
      apply (cmp_trans x y z); auto.
    + constructor; [now apply IH |].
      assert (Hyx : inOrder cmp y x).
      { destruct (cmp_total x y Hx Hty) as [Hxy | Hyx]; [| exact Hyx].
        unfold inOrder in Hxy. lia. }
      apply (Permutation_Forall (insertSorted_perm x l)).
      now constructor.
Qed.

Lemma Array_sort_typed (l : list A) :
  Forall typed l -> Forall typed (Array_sort cmp l).
Proof. intros Hl. exact (Permutation_Forall (Array_sort_perm l) Hl). Qed.

Lemma Array_sort_sorted (l : list A) :
  Forall typed l -> StronglySorted (inOrder cmp) (Array_sort cmp l).
Proof.
  induction 1 as [|x l Hx Hl IH]; simpl; [constructor |].
  apply insertSorted_sorted; auto using Array_sort_typed.
Qed.

End InsertionSort.

Lemma StronglySorted_filter {A : Type} (R : A -> A -> Prop) (f : A -> bool)
  (l : list A) :
  StronglySorted R l -> StronglySorted R (filter f l).
Proof.
  induction 1 as [|x l Hsorted IH Hx]; simpl; [constructor |].
  destruct (f x); [| exact IH].
  constructor; [exact IH |].
  rewrite Forall_forall in Hx |- *. intros y Hy.
  apply filter_In in Hy as [Hy _]. auto.
Qed.

Lemma StronglySorted_impl {A : Type} (R S : A -> A -> Prop) (l : list A) :
  (forall a b, In a l -> In b l -> R a b -> S a b) ->
  StronglySorted R l -> StronglySorted S l.
Proof.
  intros Himpl Hsorted. induction Hsorted as [|x l Hsorted IH Hx].
  - constructor.
  - constructor.
    + apply IH. intros a b Ha Hb. apply Himpl; now right.
    + rewrite Forall_forall in Hx |- *. intros y Hy.
      apply Himpl; [now left | now right | auto].
Qed.

End SortFacts.

Module ComparisonTableSpec.
Import ComparisonTable NumFacts JsFacts SortFacts.

Section WithHost.
Context `{Host}.

Lemma sortValue_priced (r : JsVal) :
  pricedRow r ->
  sortValue byPriceAscending r = JNum (priceKey r)
  /\ Num.is_nan (priceKey r) = false.
Proof.
  unfold pricedRow, sortValue, priceKey, byPriceAscending. cbn [key].
  intros [_ Hprice].
  destruct (get r "price"); try contradiction; simpl; auto.
Qed.

Lemma compareRows_priced (a b : JsVal) :
  pricedRow a -> pricedRow b ->
  inOrder (compareRows byPriceAscending) a b
  <-> Num.leb (priceKey a) (priceKey b) = true.
Proof.
  intros Ha Hb. unfold inOrder, compareRows.
  destruct (sortValue_priced a Ha) as [-> Hna].
  destruct (sortValue_priced b Hb) as [-> Hnb].
  rewrite lt_num, gt_num, (leb_negb_ltb _ _ Hna Hnb). cbn [direction byPriceAscending].
  simpl (_ =? _).
  destruct (Num.ltb (priceKey a) (priceKey b)) eqn:Hab.
  - rewrite (ltb_asym _ _ Hab). simpl. split; [reflexivity | lia].
  - destruct (Num.ltb (priceKey b) (priceKey a)); simpl; split;
      try reflexivity; try discriminate; lia.
Qed.

Lemma sortedProducts_array (rows : list JsVal) (sortConfig : SortConfig) :
  sortedProducts (JArr rows) sortConfig
  = Array_sort (compareRows sortConfig) rows.
Proof. reflexivity. Qed.

End WithHost.

(** C5: for every list of product rows (objects whose price is a number or
    is missing), sorting by "price" in ascending direction gives a
    rearrangement of the rows in which the price the comparison function
    sees never decreases, so the visible price never decreases over the
    rows whose price is defined; and the comparison function reads a
    missing (undefined or null) value of the sort key as 0. *)
Theorem C5_sorted_by_price_ascending `{Host} (rows : list JsVal) :
  Forall pricedRow rows ->
  Permutation rows (sortedProducts (JArr rows) byPriceAscending)
  /\ StronglySorted (fun a b => Num.leb (priceKey a) (priceKey b) = true)
                    (sortedProducts (JArr rows) byPriceAscending)
  /\ StronglySorted (fun a b => lessOrEqual (get a "price") (get b "price") = true)
                    (filter hasPrice (sortedProducts (JArr rows) byPriceAscending))
  /\ (forall sortConfig r,
         nullish (get r (key sortConfig)) = true ->
         sortValue sortConfig r = JNum Num.zero).
Proof.
  intros Hrows. rewrite sortedProducts_array.
  set (cmp := compareRows byPriceAscending).
  assert (Hperm : Permutation rows (Array_sort cmp rows))
    by apply Array_sort_perm.
  assert (Htyped : Forall pricedRow (Array_sort cmp rows))
    by exact (Permutation_Forall Hperm Hrows).
  assert (Hsorted : StronglySorted
                      (fun a b => Num.leb (priceKey a) (priceKey b) = true)
                      (Array_sort cmp rows)).
  { apply (StronglySorted_impl (inOrder cmp)).
    - intros a b Ha Hb. rewrite Forall_forall in Htyped.
      now apply compareRows_priced; apply Htyped.
    - apply (Array_sort_sorted cmp pricedRow); [| | exact Hrows].
      + intros a b Ha Hb. unfold cmp.
        rewrite !compareRows_priced by assumption.
        destruct (sortValue_priced a Ha) as [_ Hna].
        destruct (sortValue_priced b Hb) as [_ Hnb].
        destruct (Num.ltb (priceKey b) (priceKey a)) eqn:Hba.
        * right. now apply ltb_leb.
        * left. now apply leb_total.
      + intros a b c Ha Hb Hc. unfold cmp.
        rewrite !compareRows_priced by assumption. apply leb_trans. }
  split; [exact Hperm |]. split; [exact Hsorted |]. split.
  - apply (StronglySorted_impl
             (fun a b => Num.leb (priceKey a) (priceKey b) = true)).
    + intros a b Ha Hb. apply filter_In in Ha as [_ Ha], Hb as [_ Hb].
      unfold hasPrice, priceKey in *.
      destruct (get a "price"); try discriminate Ha.
      destruct (get b "price"); try discriminate Hb.
      now rewrite le_num.
    + now apply StronglySorted_filter.
  - intros sortConfig r Hmissing. unfold sortValue, coalesce. now rewrite Hmissing.
Qed.

Lemma C5_sampleRows_witness :
  map (fun r => get r "id")
      (@sortedProducts exampleHost (JArr sampleRows) byPriceAscending)
  = [JStr "b"; JStr "d"; JStr "e"; JStr "c"; JStr "a"]
  /\ StronglySorted
       (fun a b => @lessOrEqual exampleHost (get a "price") (get b "price") = true)
       (filter hasPrice
               (@sortedProducts exampleHost (JArr sampleRows) byPriceAscending)).
Proof.
  split; [vm_compute; reflexivity |].
  apply (@C5_sorted_by_price_ascending exampleHost sampleRows).
  unfold sampleRows, row, pricedRow.
  repeat constructor; try (eexists; reflexivity).
Defined.

End ComparisonTableSpec.

(** ** The best deal *)

Module AppFacts.
Import App NumFacts JsFacts.

Section WithHost.
Context `{Host}.

Lemma nan_guard (x y : Num.num) :
  match (if Num.is_nan x || Num.is_nan y then None else Some (Num.ltb x y)) with
  | Some r => r
  | None => false
  end = Num.ltb x y.
Proof. split_num x; split_num y; reflexivity. Qed.

Lemma lt_numeric (a b : JsVal) :
  numericLike a = true -> numericLike b = true ->
  lessThan a b = Num.ltb (ToNumber a) (ToNumber b).
Proof.
  intros Ha Hb. unfold lessThan, IsLessThan.
  destruct a; try discriminate Ha; destruct b; try discriminate Hb;
    match goal with |- _ = Num.ltb ?x ?y => exact (nan_guard x y) end.
Qed.

Lemma pricedProduct_price (product : JsVal) :
  pricedProduct product ->
  member product "price" = Normal (get product "price")
  /\ numericLike (get product "price") = true.
Proof.
  intros [[fields ->] Hprice]. split; [reflexivity |].
  destruct (get (JObj fields) "price"); try contradiction; reflexivity.
Qed.

Lemma considerProduct_visited (st : JsVal * JsVal) (seen : list JsVal)
  (product : JsVal) :
  pricedProduct product -> Visited st seen ->
  exists st', considerProduct st product = Normal st'
              /\ Visited st' (seen ++ [product])%list.
Proof.
  intros Hproduct (Hlike & Hnan & Hbest & Hseen).
  destruct (pricedProduct_price product Hproduct) as [Hmember Hprice].
  unfold considerProduct. rewrite Hmember. simpl.
  destruct (lessThan (get product "price") (snd st)) eqn:Hlt.
  - eexists. split; [reflexivity |].
    pose proof Hlt as Hnum. rewrite (lt_numeric _ _ Hprice Hlike) in Hnum.
    destruct (ltb_not_nan _ _ Hnum) as [Hnan' _].
    unfold Visited. cbn [fst snd].
    split; [exact Hprice |]. split; [exact Hnan' |]. split.
    + right. split; [apply in_or_app; right; now left |].
      split; [reflexivity |].
      eapply ltb_leb_trans; [exact Hnum | now apply leb_PosInf].
    + intros q Hq. apply in_app_or in Hq as [Hq | [<- | []]].
      * destruct (Hseen q Hq) as [Hq_like Hq_low].
        split; [exact Hq_like |].
        rewrite (lt_numeric _ _ Hq_like Hprice).
        rewrite (lt_numeric _ _ Hq_like Hlike) in Hq_low.
        destruct (Num.ltb (ToNumber (get q "price"))
                          (ToNumber (get product "price"))) eqn:Hq_lt;
          [| reflexivity].
        assert (Num.ltb (ToNumber (get q "price")) (ToNumber (snd st)) = true).
        { eapply ltb_leb_trans; [exact Hq_lt | now apply ltb_leb]. }
        congruence.
      * split; [exact Hprice |].
        rewrite (lt_numeric _ _ Hprice Hprice). apply ltb_irrefl.
  - eexists. split; [reflexivity |].
    unfold Visited.
    split; [exact Hlike |]. split; [exact Hnan |]. split.
    + destruct Hbest as [Hnone | (Hin & Heq & Hfinite)]; [now left | right].
      split; [apply in_or_app; now left | auto].
    + intros q Hq. apply in_app_or in Hq as [Hq | [<- | []]];
        [now apply Hseen | auto].
Qed.

Lemma forEachProduct_visited (products : list JsVal) :
  Forall pricedProduct products ->
  forall st seen, Visited st seen ->
  exists st', forEachProduct products st = Normal st'
              /\ Visited st' (seen ++ products)%list.
Proof.
  induction 1 as [|product products Hproduct _ IH]; intros st seen Hvisited.
  - exists st. rewrite app_nil_r. auto.
  - destruct (considerProduct_visited st seen product Hproduct Hvisited)
      as (st1 & Hstep & Hvisited1).
    destruct (IH st1 _ Hvisited1) as (st' & Hrest & Hvisited').
    exists st'. simpl. rewrite Hstep. simpl. split; [exact Hrest |].
    now rewrite <- app_assoc in Hvisited'.
Qed.

Lemma checkStore_visited (store : string) (searchResults : JsVal)
  (st : JsVal * JsVal) (seen : list JsVal) :
  listingOk (get searchResults store) ->
  Forall pricedProduct (items_of (get searchResults store)) ->
  Visited st seen ->
  exists st', checkStore store searchResults st = Normal st'
              /\ Visited st' (seen ++ items_of (get searchResults store))%list.
Proof.
  intros Hok Hproducts Hvisited. unfold checkStore.
  destruct (get searchResults store) as [| | b | x | s | products | fields] eqn:Hlisting;
    try (exists st; simpl; rewrite app_nil_r; auto; fail).
  - destruct Hok as [Hfalsy | Harray]; [| discriminate Harray].
    rewrite Hfalsy. exists st. simpl. rewrite app_nil_r. auto.
  - destruct Hok as [Hfalsy | Harray]; [| discriminate Harray].
    rewrite Hfalsy. exists st. simpl. rewrite app_nil_r. auto.
  - destruct Hok as [Hfalsy | Harray]; [| discriminate Harray].
    rewrite Hfalsy. exists st. simpl. rewrite app_nil_r. auto.
  - simpl. now apply forEachProduct_visited.
  - destruct Hok as [Hfalsy | Harray]; discriminate.
Qed.

End WithHost.

End AppFacts.

Module AppSpec.
Import App NumFacts JsFacts AppFacts.

(** C9, as stated, fails: in [threeStores] the product listed under
    "meesho" costs 500, strictly below the 900 of the best deal, which is
    taken from the "amazon" and "flipkart" lists only. *)
Lemma C9_third_store_is_ignored :
  @getBestDeal exampleHost threeStores = Normal (product "f1" "flipkart" 900)
  /\ listedIn threeStores (product "m1" "meesho" 500)
  /\ @lessThan exampleHost (get (product "m1" "meesho" 500) "price")
                     (get (product "f1" "flipkart" 900) "price") = true.
Proof.
  split; [vm_compute; reflexivity |]. split; [| vm_compute; reflexivity].
  exists "meesho", [product "m1" "meesho" 500]. split; [reflexivity | now left].
Qed.

(** C9 (amended): for every search result whose "amazon" and "flipkart"
    listings are arrays (or absent) of product objects with a numeric (or
    missing) price, [getBestDeal] returns, and what it returns is lowest
    priced among the products of those two listings: no product of either
    listing has a price strictly below its price. It is one of those
    products, priced below [Infinity], unless no product of the two
    listings is priced below [Infinity], in which case it is null.
    Listings under other store keys are not consulted. *)
Theorem C9_best_deal_of_amazon_and_flipkart `{Host} (searchResults : JsVal) :
  listingOk (get searchResults "amazon") ->
  listingOk (get searchResults "flipkart") ->
  Forall pricedProduct (aggregated searchResults) ->
  exists best,
    getBestDeal searchResults = Normal best
    /\ (forall p, In p (aggregated searchResults) ->
                  lessThan (get p "price") (get best "price") = false)
    /\ (best <> JNull ->
        In best (aggregated searchResults)
        /\ lessThan (get best "price") (JNum Num.PosInf) = true)
    /\ (best = JNull ->
        forall p, In p (aggregated searchResults) ->
                  lessThan (get p "price") (JNum Num.PosInf) = false).
Proof.
  intros Hamazon Hflipkart Hproducts. unfold aggregated in *.
  apply Forall_app in Hproducts as [Hpa Hpf].
  assert (Hstart : Visited (JNull, JNum Num.PosInf) []).
  { unfold Visited. cbn [fst snd].
    split; [reflexivity |]. split; [reflexivity |]. split; [now left |].
    intros q []. }
  destruct (checkStore_visited "amazon" searchResults _ _ Hamazon Hpa Hstart)
    as (st1 & Hrun1 & Hvisited1).
  destruct (checkStore_visited "flipkart" searchResults _ _ Hflipkart Hpf Hvisited1)
    as (st2 & Hrun2 & Hvisited2).
  simpl app in Hvisited2.
  destruct Hvisited2 as (Hlike & Hnan & Hbest & Hseen).
  assert (Hresult : forall p,
             In p (items_of (get searchResults "amazon")
                   ++ items_of (get searchResults "flipkart"))%list ->
             lessThan (get p "price") (get (fst st2) "price") = false
             /\ (fst st2 = JNull -> lessThan (get p "price") (JNum Num.PosInf) = false)).
  { intros p Hp. destruct (Hseen p Hp) as [Hp_like Hp_low].
    destruct Hbest as [[Hnull Hinf] | (Hin & Hprice & Hfinite)].
    - rewrite Hnull. split; [| intros _; rewrite <- Hinf; exact Hp_low].
      change (get JNull "price") with JUndefined.
      rewrite (lt_numeric _ JUndefined Hp_like eq_refl).
      now destruct (ToNumber (get p "price")) as [[|]|[|]| |[|] ? ?].
    - rewrite <- Hprice. split; [exact Hp_low |].
      intros Hnull. rewrite Forall_forall in Hpa, Hpf.
      apply in_app_or in Hin.
      assert (Hobj : pricedProduct (fst st2)) by (destruct Hin; auto).
      destruct Hobj as [[fields Hobj] _]. congruence. }
  destruct (truthy searchResults) eqn:Htruthy.
  - exists (fst st2). unfold getBestDeal. rewrite Htruthy. simpl.
    rewrite Hrun1. simpl. rewrite Hrun2. simpl.
    split; [reflexivity |]. split; [intros p Hp; now apply Hresult |].
    split; [| intros Hnull p Hp; now apply Hresult].
    intros Hsome. destruct Hbest as [[Hnull _] | (Hin & Hprice & Hfinite)];
      [contradiction |].
    split; [exact Hin |].
    rewrite <- Hprice, (lt_numeric _ (JNum Num.PosInf) Hlike eq_refl).
    exact Hfinite.
  - exists JNull. unfold getBestDeal. rewrite Htruthy. simpl.
    assert (Hempty : forall store, items_of (get searchResults store) = []).
    { intros store. destruct searchResults; try reflexivity; discriminate Htruthy. }
    rewrite !Hempty. simpl.
    split; [reflexivity |]. split; [intros p [] |].
    split; [congruence | intros _ p []].
Qed.

(** On [twoStores] the best deal is the first of the two products priced
    700; the product without a price is never chosen. *)
Lemma C9_twoStores_witness :
  @getBestDeal exampleHost twoStores = Normal (product "a2" "amazon" 700)
  /\ forall p, In p (aggregated twoStores) ->
               @lessThan exampleHost (get p "price")
                   (get (product "a2" "amazon" 700) "price") = false.
Proof.
  destruct (@C9_best_deal_of_amazon_and_flipkart exampleHost twoStores)
    as (best & Hrun & Hlowest & _).
  - right. reflexivity.
  - right. reflexivity.
  - unfold aggregated, twoStores, product, pricedProduct. simpl.
    repeat constructor; try (eexists; reflexivity).
  - vm_compute in Hrun. injection Hrun as <-.
    split; [vm_compute; reflexivity | exact Hlowest].
Defined.

End AppSpec.

(* ===================================================================== *)
(** * Part III: further properties of the code                            *)
(* ===================================================================== *)

(** ** What the API client throws *)

Module ApiMore.
Import Api ApiFacts ApiErrors.

Section WithHost.
Context `{Host}.

Lemma request_throws_message (defaultMessage outerMessage : string)
  (fallback : JsVal) (fetched : Completion Response) (e : JsVal) :
  outerMessage <> "" ->
  (forall err, fetched = Throw err -> plainMessage err) ->
  request defaultMessage outerMessage fallback fetched = Throw e ->
  nullish e = false /\ exists m, get e "message" = JStr m /\ m <> "".
Proof.
  intros Houter Hplain. destruct fetched as [err | response].
  - specialize (Hplain err eq_refl). unfold request. simpl.
    unfold member. destruct (nullish err) eqn:Hnull; simpl.
    + intros [= <-]. split; [reflexivity |]. eexists. split; [reflexivity |].
      discriminate.
    + intros [= <-]. split; [reflexivity |]. unfold newError, orElse.
      destruct (truthy (get err "message")) eqn:Htruthy.
      * destruct (Hplain Htruthy) as [m Hm]. rewrite Hm in Htruthy |- *.
        exists m. split; [reflexivity |]. simpl in Htruthy.
        intros ->. discriminate.
      * exists outerMessage. split; [reflexivity | exact Houter].
  - destruct (ok response) eqn:Hok.
    + rewrite (request_ok _ _ _ _ Hok). discriminate.
    + pose proof (resolveErrorMessage_cases defaultMessage response) as Hres.
      match type of Hres with
      | _ = Normal ?resolved =>
          pose proof (request_not_ok defaultMessage outerMessage fallback
                        response resolved Hok Hres) as Hrun
      end.
      unfold Normal in Hrun. rewrite Hrun.
      intros [= <-]. split; [reflexivity |]. eexists. split; [reflexivity |].
      unfold mkError. simpl.
      match goal with
      | |- context [ToString ?r =? ""] =>
          destruct (String.eqb_spec (ToString r) "")
      end; [exact Houter | assumption].
Qed.

Lemma request_unreadable (defaultMessage outerMessage : string)
  (fallback : JsVal) (response : Response) :
  ok response = false -> jsonUnreadable response ->
  request defaultMessage outerMessage fallback (Normal response)
  = Throw (mkError ("Server error (" ++ statusText (status response) ++ ")")).
Proof.
  intros Hok Hunreadable.
  apply (request_not_ok_string _ _ _ _ _ Hok); [| simpl; discriminate].
  rewrite resolveErrorMessage_cases. f_equal.
  destruct Hunreadable as [[e He] | (data & Hdata & Hnull)].
  - rewrite He. reflexivity.
  - rewrite Hdata. unfold Normal.
    destruct data; try discriminate Hnull; reflexivity.
Qed.

End WithHost.

(** X1: Whatever [fetch] gives (a response of any status, or a thrown value
    whose message, if any, is a string), an operation that fails throws a
    value that carries a non-empty string message; and when [fetch] itself
    throws an error with a non-empty message, the operation throws an
    [Error] with that same message. *)
Theorem operations_throw_a_message `{Host} (now : string)
  (fetched : Completion Response) :
  (forall err, fetched = Throw err -> plainMessage err) ->
  (forall e,
      searchProducts now fetched = Throw e
      \/ getPriceHistory fetched = Throw e
      \/ updatePrices fetched = Throw e ->
      nullish e = false /\ exists m, get e "message" = JStr m /\ m <> "")
  /\ (forall err m,
         fetched = Throw err -> get err "message" = JStr m -> m <> "" ->
         searchProducts now fetched = Throw (mkError m)
         /\ getPriceHistory fetched = Throw (mkError m)
         /\ updatePrices fetched = Throw (mkError m)).
Proof.
  intros Hplain. split.
  - intros e [Hthrow | [Hthrow | Hthrow]];
      eapply request_throws_message; try exact Hthrow; try exact Hplain;
      discriminate.
  - intros err m -> Hmessage Hm.
    assert (Hnull : nullish err = false)
      by (destruct err; try discriminate Hmessage; reflexivity).
    assert (Hrun : forall d o fb,
               request d o fb (Throw err) = Throw (mkError m)).
    { intros d o fb. unfold request, member. simpl. rewrite Hnull. simpl.
      rewrite Hmessage. unfold orElse, newError. simpl.
      destruct (String.eqb_spec m ""); [contradiction | reflexivity]. }
    repeat split; apply Hrun.
Qed.

Lemma operations_throw_a_message_witness :
  @searchProducts exampleHost "2024-01-01T00:00:00.000Z"
    (networkFailure "Failed to fetch")
  = Throw (mkError "Failed to fetch").
Proof.
  destruct (@operations_throw_a_message exampleHost
              "2024-01-01T00:00:00.000Z" (networkFailure "Failed to fetch"))
    as [_ Hsame].
  - intros err [= <-] _. eexists. reflexivity.
  - apply (Hsame _ "Failed to fetch" eq_refl eq_refl). discriminate.
Defined.

(** X25: On a response that is not ok and whose body cannot be read as JSON
    (reading it throws, or gives null), each operation throws the message
    with the status code, whatever the text of the body is: by the time
    the [catch] asks for the text, [json()] has consumed the body, so the
    short plain-text body is never the message. *)
Theorem text_of_the_body_is_never_the_message `{Host} (now : string)
  (response : Response) :
  ok response = false -> jsonUnreadable response ->
  searchProducts now (Normal response)
  = Throw (mkError ("Server error (" ++ statusText (status response) ++ ")"))
  /\ getPriceHistory (Normal response)
     = Throw (mkError ("Server error (" ++ statusText (status response) ++ ")"))
  /\ updatePrices (Normal response)
     = Throw (mkError ("Server error (" ++ statusText (status response) ++ ")")).
Proof.
  intros Hok Hunreadable.
  repeat split; apply request_unreadable; assumption.
Qed.

Lemma text_of_the_body_is_never_the_message_witness :
  text notFound404 = Normal "Not found"
  /\ specErrorMessage notFound404 = JStr "Not found"
  /\ @getPriceHistory exampleHost (Normal notFound404)
     = Throw (mkError "Server error (404)").
Proof.
  split; [reflexivity |]. split; [reflexivity |].
  apply (@text_of_the_body_is_never_the_message exampleHost
           "2024-01-01T00:00:00.000Z" notFound404).
  - reflexivity.
  - left. eexists. reflexivity.
Defined.

End ApiMore.

(** ** The root component: state and panels *)

Module AppStateFacts.
Import ApiErrors AppState.

Lemma handleSearch_succeeded (query : string) (data : JsVal) (st : Screen) :
  handleSearch query (Normal data) st
  = {| searchQuery := query;
       searchResults := data;
       isLoading := false;
       error := JNull;
       selectedProduct := JNull;
       priceHistory := JNull;
       isHistoryLoading := isHistoryLoading st |}.
Proof. reflexivity. Qed.

Lemma handleSearch_failed (query : string) (err : JsVal) (m : string)
  (st : Screen) :
  get err "message" = JStr m -> m <> "" ->
  handleSearch query (Throw err) st
  = {| searchQuery := query;
       searchResults := searchResults st;
       isLoading := false;
       error := JStr m;
       selectedProduct := JNull;
       priceHistory := JNull;
       isHistoryLoading := isHistoryLoading st |}.
Proof.
  intros Hmessage Hm.
  assert (Hnull : nullish err = false)
    by (destruct err; try discriminate Hmessage; reflexivity).
  assert (Hfalse : (m =? "") = false) by (apply String.eqb_neq; exact Hm).
  unfold handleSearch, searchSettled, Throw, member. simpl.
  rewrite Hnull. simpl. rewrite Hmessage. unfold orElse. simpl.
  rewrite Hfalse. reflexivity.
Qed.

Lemma searchSettled_bannerText (outcome : Completion JsVal) (st : Screen) :
  plainEvent (SearchSettled outcome) -> bannerText (error st) ->
  bannerText (error (searchSettled outcome st)).
Proof.
  intros Hplain Hst. destruct outcome as [err | data]; simpl; [| exact Hst].
  unfold member. destruct (nullish err); simpl; [exact Hst |].
  simpl in Hplain. unfold plainMessage in Hplain. unfold orElse.
  destruct (truthy (get err "message")) eqn:Htruthy.
  - destruct (Hplain eq_refl) as [m Hm]. right. exists m.
    split; [exact Hm |]. rewrite Hm in Htruthy. simpl in Htruthy.
    intros ->. discriminate.
  - right. eexists. split; [reflexivity | discriminate].
Qed.

End AppStateFacts.

Module AppStateSpec.
Import Api ApiErrors AppState AppStateFacts.

(** X2: In every state the main area shows something: the loading panel, the
    error banner, the results or the empty state. The empty state is never
    shown together with any of the others, and the results are never shown
    while loading. *)
Theorem some_panel_is_always_shown (st : Screen) :
  showsLoading st || showsError st || showsResults st || showsEmptyState st
  = true
  /\ (showsEmptyState st = true ->
      showsLoading st = false /\ showsError st = false
      /\ showsResults st = false)
  /\ (showsResults st = true -> showsLoading st = false).
Proof.
  unfold showsLoading, showsError, showsResults, showsEmptyState.
  destruct (isLoading st), (truthy (error st)), (truthy (searchResults st));
    simpl; repeat split; try discriminate; reflexivity.
Qed.

Lemma some_panel_is_always_shown_witness :
  showsEmptyState initialState = true
  /\ showsLoading initialState = false
  /\ showsError initialState = false
  /\ showsResults initialState = false.
Proof.
  split; [reflexivity |].
  apply (some_panel_is_always_shown initialState). reflexivity.
Defined.

(** X3: A search that runs to its end, from any state: the component is no
    longer loading, and the selection and the price history of the
    previous search are gone. If it succeeded, the results are the new
    data and there is no error. If it failed with a non-empty message, the
    previous results are still there, so that when there were any the
    error banner and the old results are both shown. *)
Theorem search_outcome (query : string) (outcome : Completion JsVal)
  (st : Screen) :
  isLoading (handleSearch query outcome st) = false
  /\ searchQuery (handleSearch query outcome st) = query
  /\ selectedProduct (handleSearch query outcome st) = JNull
  /\ priceHistory (handleSearch query outcome st) = JNull
  /\ (forall data, outcome = Normal data ->
        searchResults (handleSearch query outcome st) = data
        /\ error (handleSearch query outcome st) = JNull)
  /\ (forall err m, outcome = Throw err ->
        get err "message" = JStr m -> m <> "" ->
        searchResults (handleSearch query outcome st) = searchResults st
        /\ error (handleSearch query outcome st) = JStr m
        /\ showsError (handleSearch query outcome st) = true
        /\ showsResults (handleSearch query outcome st)
           = truthy (searchResults st)).
Proof.
  split; [destruct outcome; reflexivity |].
  split; [destruct outcome; reflexivity |].
  split; [destruct outcome; reflexivity |].
  split; [destruct outcome; reflexivity |].
  split.
  - intros data ->. split; reflexivity.
  - intros err m -> Hmessage Hm.
    rewrite (handleSearch_failed query err m st Hmessage Hm).
    unfold showsError, showsResults. simpl.
    assert (Hfalse : (m =? "") = false) by (apply String.eqb_neq; exact Hm).
    rewrite Hfalse. repeat split. apply andb_true_r.
Qed.

Lemma search_outcome_witness :
  error (handleSearch "laptop" (Throw (mkError "Server error (502)"))
           initialState)
  = JStr "Server error (502)"
  /\ showsResults (handleSearch "laptop" (Throw (mkError "Server error (502)"))
                     initialState)
     = false.
Proof.
  destruct (search_outcome "laptop" (Throw (mkError "Server error (502)"))
              initialState) as (_ & _ & _ & _ & _ & Hfailed).
  destruct (Hfailed (mkError "Server error (502)") "Server error (502)"
              eq_refl eq_refl) as (_ & Herror & _ & Hresults);
    [discriminate |].
  split; [exact Herror | exact Hresults].
Defined.

(** X4: A search through the API client: when [searchProducts] fails (the
    fetch threw a value with a string message or none, or the response was
    not ok), the banner shows the message the client resolved, never the
    component's own "Failed to fetch search results", and the previous
    results stay; when the response is ok, there is no error and the
    results are what the client returned, the empty result structure if
    the body did not parse. *)
Theorem search_through_the_client `{Host} (query now : string)
  (fetched : Completion Response) (st : Screen) :
  (forall err, fetched = Throw err -> plainMessage err) ->
  (forall e, searchProducts now fetched = Throw e ->
     exists m,
       get e "message" = JStr m /\ m <> ""
       /\ error (handleSearch query (searchProducts now fetched) st) = JStr m
       /\ searchResults (handleSearch query (searchProducts now fetched) st)
          = searchResults st)
  /\ (forall response, fetched = Normal response -> ok response = true ->
        error (handleSearch query (searchProducts now fetched) st) = JNull
        /\ searchResults (handleSearch query (searchProducts now fetched) st)
           = match json response with
             | inr data => data
             | inl _ => emptySearchResult now
             end).
Proof.
  intros Hplain. split.
  - intros e Hthrow.
    assert (Houter : "An error occurred while searching for products" <> "")
      by discriminate.
    destruct (ApiMore.request_throws_message _ _ _ _ e Houter Hplain Hthrow)
      as (_ & m & Hm & Hne).
    exists m. rewrite Hthrow, (handleSearch_failed query e m st Hm Hne).
    auto.
  - intros response -> Hok. unfold searchProducts.
    rewrite (ApiFacts.request_ok _ _ _ _ Hok), handleSearch_succeeded.
    split; reflexivity.
Qed.

Lemma search_through_the_client_witness :
  error (handleSearch "laptop"
           (@searchProducts exampleHost "2024-01-01T00:00:00.000Z"
              (Normal declared500)) initialState) = JStr "x"
  /\ searchResults (handleSearch "laptop"
                      (@searchProducts exampleHost "2024-01-01T00:00:00.000Z"
                         (Normal garbled200)) initialState)
     = emptySearchResult "2024-01-01T00:00:00.000Z".
Proof.
  split.
  - destruct (@search_through_the_client exampleHost "laptop"
                "2024-01-01T00:00:00.000Z" (Normal declared500) initialState)
      as [Hfail _]; [discriminate |].
    destruct (Hfail _ eq_refl) as (m & Hm & _ & Herror & _).
    rewrite Herror. injection Hm as <-. reflexivity.
  - destruct (@search_through_the_client exampleHost "laptop"
                "2024-01-01T00:00:00.000Z" (Normal garbled200) initialState)
      as [_ Hok]; [discriminate |].
    destruct (Hok _ eq_refl eq_refl) as [_ Hresults]. exact Hresults.
Defined.



(** X6: Two searches in flight: if the response to the first arrives after
    the response to the second, the results shown are those of the first
    query under the text of the second, and the loading panel is gone as
    soon as the first of the two responses has arrived. *)
Theorem late_response_overwrites_the_results (first second : string)
  (firstData secondData : JsVal) (st : Screen) :
  let early := run [SearchStarted first; SearchStarted second;
                    SearchSettled (Normal secondData)] st in
  let late := step early (SearchSettled (Normal firstData)) in
  isLoading early = false
  /\ searchResults early = secondData
  /\ searchQuery late = second
  /\ searchResults late = firstData
  /\ showsResults late = truthy firstData.
Proof.
  simpl. unfold showsResults. simpl. rewrite andb_true_r. repeat split.
Qed.

(** X7: Whatever happens to the component, as long as no search fails with a
    message that is truthy and not a string, the error state is null or a
    non-empty string: the banner never has an empty text or anything else
    than text to show. *)
Theorem error_is_null_or_text (events : list Event) (st : Screen) :
  Forall plainEvent events -> bannerText (error st) ->
  bannerText (error (run events st)).
Proof.
  unfold run. revert st.
  induction events as [| e events IH]; intros st Hplain Hst; [exact Hst |].
  inversion Hplain as [| ? ? He Hrest]; subst. simpl. apply IH; [exact Hrest |].
  destruct e as [query | outcome | product | outcome]; simpl.
  - left. reflexivity.
  - apply searchSettled_bannerText; assumption.
  - exact Hst.
  - exact Hst.
Qed.

Lemma error_is_null_or_text_witness :
  bannerText
    (error (run [SearchStarted "laptop";
                 SearchSettled (Throw (mkError "Server error (502)"));
                 SelectStarted (JObj [("id", JStr "a")]);
                 SelectSettled (Throw JNull);
                 SearchStarted "camera";
                 SearchSettled (Throw JNull)] initialState)).
Proof.
  apply error_is_null_or_text.
  - repeat (apply Forall_cons; [try exact I |]); [| | apply Forall_nil].
    + intros _. eexists. reflexivity.
    + intros Htruthy. discriminate Htruthy.
  - left. reflexivity.
Defined.

End AppStateSpec.

(** ** The search box *)

Module SearchBoxFacts.
Import ProductSearch ProductSearchFacts SearchBox.

Lemma trimStart_cleanStart (s : string) : cleanStart (trimStart s).
Proof.
  induction s as [| c s IH]; simpl; [exact I |].
  destruct (isWhiteSpace c) eqn:Hc; [exact IH | exact Hc].
Qed.

Lemma trimStart_fixed (s : string) : cleanStart s -> trimStart s = s.
Proof. destruct s as [| c s]; simpl; [reflexivity |]. now intros ->. Qed.

Lemma trimStart_suffix (s : string) :
  exists p, list_ascii_of_string s = (p ++ list_ascii_of_string (trimStart s))%list.
Proof.
  induction s as [| c s [p IH]]; simpl; [now exists [] |].
  destruct (isWhiteSpace c).
  - exists (c :: p). simpl. now rewrite IH.
  - now exists [].
Qed.

Lemma reverse_reverse (s : string) : reverse (reverse s) = s.
Proof.
  unfold reverse.
  now rewrite list_ascii_of_string_of_list_ascii, rev_involutive,
    string_of_list_ascii_of_string.
Qed.

Lemma trim_cleanStart (s : string) : cleanStart (trim s).
Proof.
  unfold trim. set (t := trimStart s).
  destruct (trimStart_suffix (reverse t)) as [p Hp].
  assert (Ht : list_ascii_of_string t
               = (list_ascii_of_string (reverse (trimStart (reverse t)))
                  ++ List.rev p)%list).
  { unfold reverse in Hp |- *.
    rewrite list_ascii_of_string_of_list_ascii in Hp |- *.
    apply (f_equal (@List.rev ascii)) in Hp.
    rewrite rev_involutive, rev_app_distr in Hp. exact Hp. }
  pose proof (trimStart_cleanStart s) as Hclean. fold t in Hclean.
  destruct (reverse (trimStart (reverse t))) as [| c r]; [exact I |].
  destruct t as [| c' t']; [discriminate Ht |].
  simpl in Ht. injection Ht as -> _. exact Hclean.
Qed.

Lemma trim_idempotent (s : string) : trim (trim s) = trim s.
Proof.
  unfold trim at 1. rewrite (trimStart_fixed _ (trim_cleanStart s)).
  unfold trim. rewrite reverse_reverse.
  now rewrite (trimStart_fixed _ (trimStart_cleanStart _)).
Qed.

Lemma filter_absent (q : string) (l : list string) :
  ~ In q l -> filter (fun s => negb (s =? q)) l = l.
Proof.
  induction l as [| x l IH]; simpl; [reflexivity |]. intros Hnot.
  destruct (String.eqb_spec x q) as [-> | _]; simpl.
  - exfalso. apply Hnot. now left.
  - f_equal. apply IH. intros Hin. apply Hnot. now right.
Qed.

Lemma filter_present (q : string) (l : list string) :
  NoDup l -> In q l ->
  Permutation (q :: filter (fun s => negb (s =? q)) l) l.
Proof.
  induction 1 as [| x l Hx Hl IH]; intros Hin; [destruct Hin |]. simpl.
  destruct (String.eqb_spec x q) as [-> | Hneq]; simpl.
  - now rewrite (filter_absent q l Hx).
  - destruct Hin as [-> | Hin]; [contradiction |].
    rewrite perm_swap. apply perm_skip. now apply IH.
Qed.

Lemma saveSearch_present (q : string) (st : State) :
  trim q <> "" -> NoDup (recentSearches st) ->
  List.length (recentSearches st) <= 5 -> In q (recentSearches st) ->
  recentSearches (saveSearch q st)
  = q :: filter (fun s => negb (s =? q)) (recentSearches st).
Proof.
  intros Hq Hnodup Hlen Hin. rewrite (saveSearch_saved q st Hq).
  cbv zeta. cbn [recentSearches]. apply firstn_all2.
  rewrite (Permutation_length (filter_present q _ Hnodup Hin)). exact Hlen.
Qed.

Lemma saveSearch_absent (q : string) (st : State) :
  trim q <> "" -> ~ In q (recentSearches st) ->
  recentSearches (saveSearch q st) = q :: firstn 4 (recentSearches st).
Proof.
  intros Hq Hnot. rewrite (saveSearch_saved q st Hq).
  cbv zeta. cbn [recentSearches]. now rewrite (filter_absent q _ Hnot).
Qed.

Lemma popularSearches_not_blank (s : string) :
  In s popularSearches -> trim s <> "".
Proof.
  intros Hin. repeat (destruct Hin as [<- | Hin]; [discriminate |]).
  destruct Hin.
Qed.

End SearchBoxFacts.

Module SearchBoxSpec.
Import ProductSearch ProductSearchFacts SearchBox SearchBoxFacts.

(** X8: A save that takes effect on a list of at most five different
    searches loses at most the oldest of them. If the query was in the
    list, the new list is a rearrangement of the old one with the query
    moved to the front and the others in their order; if it was not, the
    new list is the query followed by the first four of the old list. No
    search other than the query comes in. *)
Theorem save_reorders_or_drops_the_oldest (q : string) (st : State) :
  trim q <> "" -> NoDup (recentSearches st) ->
  List.length (recentSearches st) <= 5 ->
  (In q (recentSearches st) ->
   recentSearches (saveSearch q st)
   = q :: filter (fun s => negb (s =? q)) (recentSearches st)
   /\ Permutation (recentSearches (saveSearch q st)) (recentSearches st))
  /\ (~ In q (recentSearches st) ->
      recentSearches (saveSearch q st) = q :: firstn 4 (recentSearches st))
  /\ (forall s, In s (removelast (recentSearches st)) ->
                In s (recentSearches (saveSearch q st)))
  /\ (forall s, In s (recentSearches (saveSearch q st)) ->
                s = q \/ In s (recentSearches st)).
Proof.
  intros Hq Hnodup Hlen.
  pose proof (saveSearch_present q st Hq Hnodup Hlen) as Hpresent.
  pose proof (saveSearch_absent q st Hq) as Habsent.
  set (l := recentSearches st) in *.
  split; [| split; [exact Habsent | split]].
  - intros Hin. rewrite (Hpresent Hin). split; [reflexivity |].
    now apply filter_present.
  - intros s Hs. rewrite removelast_firstn_len in Hs.
    destruct (in_dec string_dec q l) as [Hin | Hnot].
    + rewrite (Hpresent Hin).
      apply (Permutation_in s (Permutation_sym (filter_present q l Hnodup Hin))).
      rewrite <- (firstn_skipn (Nat.pred (List.length l)) l).
      apply in_or_app. now left.
    + rewrite (Habsent Hnot). right.
      assert (Hprefix : firstn (Nat.pred (List.length l)) l
                        = firstn (Nat.pred (List.length l)) (firstn 4 l))
        by (rewrite firstn_firstn, Nat.min_l by lia; reflexivity).
      rewrite Hprefix in Hs.
      rewrite <- (firstn_skipn (Nat.pred (List.length l)) (firstn 4 l)).
      apply in_or_app. left. exact Hs.
  - intros s Hs. destruct (in_dec string_dec q l) as [Hin | Hnot].
    + rewrite (Hpresent Hin) in Hs. destruct Hs as [<- | Hs]; [now left |].
      right. now apply filter_In in Hs as [Hs _].
    + rewrite (Habsent Hnot) in Hs. destruct Hs as [<- | Hs]; [now left |].
      right. rewrite <- (firstn_skipn 4 l). apply in_or_app. now left.
Qed.

Lemma save_reorders_or_drops_the_oldest_witness :
  recentSearches
    (saveSearch "tv"
       {| recentSearches := ["a"; "b"; "tv"; "c"; "d"]; storedSearches := None |})
  = ["tv"; "a"; "b"; "c"; "d"]
  /\ recentSearches
       (saveSearch "tv"
          {| recentSearches := ["a"; "b"; "c"; "d"; "e"]; storedSearches := None |})
     = ["tv"; "a"; "b"; "c"; "d"].
Proof.
  split.
  - destruct (save_reorders_or_drops_the_oldest "tv"
                {| recentSearches := ["a"; "b"; "tv"; "c"; "d"];
                   storedSearches := None |}) as [Hpresent _].
    + discriminate.
    + simpl. repeat constructor; simpl; intuition discriminate.
    + simpl. lia.
    + destruct Hpresent as [Hlist _]; [simpl; tauto | exact Hlist].
  - destruct (save_reorders_or_drops_the_oldest "tv"
                {| recentSearches := ["a"; "b"; "c"; "d"; "e"];
                   storedSearches := None |}) as (_ & Habsent & _).
    + discriminate.
    + simpl. repeat constructor; simpl; intuition discriminate.
    + simpl. lia.
    + apply Habsent. simpl. intuition discriminate.
Defined.

(** X9: Submitting the form calls [onSearch] at most once, and never with a
    blank text or a text with white space at either end: with the trimmed
    text of the input, which then is the first of the recent searches,
    while the input keeps its text as typed and the dropdown closes. When
    the input is blank nothing happens at all. *)
Theorem submit_hands_over_the_trimmed_query (box : Box) :
  (forall q, In q (snd (handleSubmit box)) ->
     snd (handleSubmit box) = [q]
     /\ q = trim (query box) /\ q <> "" /\ trim q = q
     /\ hd_error (recentSearches (searches (fst (handleSubmit box)))) = Some q
     /\ storedSearches (searches (fst (handleSubmit box)))
        = Some (recentSearches (searches (fst (handleSubmit box))))
     /\ query (fst (handleSubmit box)) = query box
     /\ showRecentSearches (fst (handleSubmit box)) = false
     /\ isInputFocused (fst (handleSubmit box)) = false)
  /\ (trim (query box) = "" -> handleSubmit box = (box, []))
  /\ (trim (query box) <> "" -> snd (handleSubmit box) = [trim (query box)]).
Proof.
  unfold handleSubmit.
  destruct (String.eqb_spec (trim (query box)) "") as [Hblank | Hq]; simpl.
  - split; [intros q [] |]. split; [reflexivity | contradiction].
  - split; [| split; [contradiction | reflexivity]].
    intros q [<- | []].
    assert (Hq' : trim (trim (query box)) <> "")
      by (rewrite trim_idempotent; exact Hq).
    destruct (saveSearch_effect (trim (query box)) (searches box) Hq')
      as (_ & Hhead & _ & Hstored & _).
    repeat split; auto using trim_idempotent.
Qed.

Lemma submit_hands_over_the_trimmed_query_witness :
  snd (handleSubmit {| query := "  gaming laptop ";
                       searches := freshState;
                       showRecentSearches := true;
                       isInputFocused := true |})
  = ["gaming laptop"]
  /\ handleSubmit {| query := "   ";
                     searches := freshState;
                     showRecentSearches := true;
                     isInputFocused := true |}
     = ({| query := "   ";
           searches := freshState;
           showRecentSearches := true;
           isInputFocused := true |}, []).
Proof.
  split.
  - apply (submit_hands_over_the_trimmed_query
             {| query := "  gaming laptop ";
                searches := freshState;
                showRecentSearches := true;
                isInputFocused := true |}).
    discriminate.
  - apply (submit_hands_over_the_trimmed_query
             {| query := "   ";
                searches := freshState;
                showRecentSearches := true;
                isInputFocused := true |}).
    reflexivity.
Defined.

(** X10: Picking a recent or a popular search puts it into the input, calls
    [onSearch] once with it as it is, blank or not, and closes the
    dropdown. If it is not blank it becomes the first of the recent
    searches, as every popular search does; if it is blank the recent
    searches stay as they are. *)
Theorem pick_searches_and_saves (searchQuery : string) (box : Box) :
  handlePopularSearchClick searchQuery box
  = handleRecentSearchClick searchQuery box
  /\ snd (handleRecentSearchClick searchQuery box) = [searchQuery]
  /\ query (fst (handleRecentSearchClick searchQuery box)) = searchQuery
  /\ showRecentSearches (fst (handleRecentSearchClick searchQuery box)) = false
  /\ (trim searchQuery <> "" \/ In searchQuery popularSearches ->
      hd_error (recentSearches
                  (searches (fst (handleRecentSearchClick searchQuery box))))
      = Some searchQuery)
  /\ (trim searchQuery = "" ->
      searches (fst (handleRecentSearchClick searchQuery box)) = searches box).
Proof.
  split; [reflexivity |]. split; [reflexivity |]. split; [reflexivity |].
  split; [reflexivity |]. split.
  - intros Hq.
    assert (Hq' : trim searchQuery <> "")
      by (destruct Hq; auto using popularSearches_not_blank).
    simpl. now destruct (saveSearch_effect searchQuery (searches box) Hq')
      as (_ & Hhead & _).
  - intros Hblank. simpl. now apply saveSearch_blank.
Qed.

Lemma pick_searches_and_saves_witness :
  hd_error
    (recentSearches
       (searches
          (fst (handleRecentSearchClick "camera"
                  {| query := "";
                     searches := duplicatedState;
                     showRecentSearches := true;
                     isInputFocused := true |}))))
  = Some "camera".
Proof.
  apply (pick_searches_and_saves "camera"
           {| query := "";
              searches := duplicatedState;
              showRecentSearches := true;
              isInputFocused := true |}).
  right. simpl. tauto.
Defined.

End SearchBoxSpec.

(** ** The comparison table: sorting on demand and the badges *)

Module TableControlsFacts.
Import Js ComparisonTable TableControls NumFacts JsFacts SortFacts.

Section WithHost.
Context `{Host}.

Lemma sortValue_keyed (sortConfig : SortConfig) (r : JsVal) :
  keyedRow (key sortConfig) r ->
  sortValue sortConfig r = JNum (keyOf (key sortConfig) r)
  /\ Num.is_nan (keyOf (key sortConfig) r) = false.
Proof.
  unfold keyedRow, sortValue, keyOf. intros [_ Hkey].
  destruct (get r (key sortConfig)); try contradiction; simpl; auto.
Qed.

Lemma compareRows_keyed (sortConfig : SortConfig) (a b : JsVal) :
  keyedRow (key sortConfig) a -> keyedRow (key sortConfig) b ->
  inOrder (compareRows sortConfig) a b
  <-> (if direction sortConfig =? "ascending"
       then Num.leb (keyOf (key sortConfig) a) (keyOf (key sortConfig) b)
       else Num.leb (keyOf (key sortConfig) b) (keyOf (key sortConfig) a))
      = true.
Proof.
  intros Ha Hb. unfold inOrder, compareRows.
  destruct (sortValue_keyed sortConfig a Ha) as [-> Hna].
  destruct (sortValue_keyed sortConfig b Hb) as [-> Hnb].
  rewrite lt_num, gt_num, (leb_negb_ltb _ _ Hna Hnb), (leb_negb_ltb _ _ Hnb Hna).
  set (x := keyOf (key sortConfig) a). set (y := keyOf (key sortConfig) b).
  destruct (direction sortConfig =? "ascending");
    destruct (Num.ltb x y) eqn:Hxy.
  - rewrite (ltb_asym _ _ Hxy). simpl. split; [reflexivity | lia].
  - destruct (Num.ltb y x); simpl; split;
      try reflexivity; try discriminate; lia.
  - simpl. split; [lia | discriminate].
  - destruct (Num.ltb y x); simpl; split;
      try reflexivity; try discriminate; lia.
Qed.

Lemma sortedProducts_sorted (sortConfig : SortConfig) (rows : list JsVal) :
  Forall (keyedRow (key sortConfig)) rows ->
  StronglySorted
    (fun a b =>
       (if direction sortConfig =? "ascending"
        then Num.leb (keyOf (key sortConfig) a) (keyOf (key sortConfig) b)
        else Num.leb (keyOf (key sortConfig) b) (keyOf (key sortConfig) a))
       = true)
    (sortedProducts (JArr rows) sortConfig).
Proof.
  intros Hrows. change (sortedProducts (JArr rows) sortConfig)
    with (Array_sort (compareRows sortConfig) rows).
  set (cmp := compareRows sortConfig).
  assert (Htyped : Forall (keyedRow (key sortConfig)) (Array_sort cmp rows))
    by exact (Permutation_Forall (Array_sort_perm cmp rows) Hrows).
  apply (StronglySorted_impl (inOrder cmp)).
  - intros a b Ha Hb. rewrite Forall_forall in Htyped.
    now apply compareRows_keyed; apply Htyped.
  - apply (Array_sort_sorted cmp (keyedRow (key sortConfig))); [| | exact Hrows].
    + intros a b Ha Hb. unfold cmp.
      rewrite !compareRows_keyed by assumption.
      destruct (sortValue_keyed sortConfig a Ha) as [_ Hna].
      destruct (sortValue_keyed sortConfig b Hb) as [_ Hnb].
      destruct (direction sortConfig =? "ascending").
      * destruct (Num.ltb (keyOf (key sortConfig) b) (keyOf (key sortConfig) a))
          eqn:Hba; [right; now apply ltb_leb | left; now apply leb_total].
      * destruct (Num.ltb (keyOf (key sortConfig) b) (keyOf (key sortConfig) a))
          eqn:Hba; [left; now apply ltb_leb | right; now apply leb_total].
    + intros a b c Ha Hb Hc. unfold cmp.
      rewrite !compareRows_keyed by assumption.
      destruct (direction sortConfig =? "ascending").
      * apply leb_trans.
      * intros Hba Hcb. exact (leb_trans _ _ _ Hcb Hba).
Qed.

End WithHost.

Section Reduction.
Context `{Host}.
Variable lt : Num.num -> Num.num -> bool.
Variable k : string.

Hypothesis lt_irrefl : forall x, lt x x = false.
Hypothesis lt_not_nan :
  forall x y, lt x y = true -> Num.is_nan x = false /\ Num.is_nan y = false.
Hypothesis lt_trans :
  forall x y z, lt x y = true -> lt y z = true -> lt x z = true.
Hypothesis lt_below :
  forall x y z, Num.is_nan x = false -> Num.is_nan y = false ->
                lt x y = false -> lt x z = true -> lt y z = true.

Variable f : JsVal -> JsVal -> Completion JsVal.
Hypothesis f_picks :
  forall acc current, numericUnder k acc -> numericUnder k current ->
    f acc current
    = Normal (if lt (ToNumber (get current k)) (ToNumber (get acc k))
              then current else acc).

Lemma reduce_picks (rows : list JsVal) (acc : JsVal) :
  Forall (numericUnder k) rows -> numericUnder k acc ->
  exists r,
    reduce f rows acc = Normal r
    /\ (r = acc \/ In r rows)
    /\ lt (ToNumber (get acc k)) (ToNumber (get r k)) = false
    /\ (forall x, In x rows ->
          lt (ToNumber (get x k)) (ToNumber (get r k)) = false)
    /\ (Num.is_nan (ToNumber (get acc k)) = true -> r = acc).
Proof.
  intros Hrows. revert acc.
  induction Hrows as [| current rows Hcurrent Hrows IH]; intros acc Hacc.
  - exists acc. simpl. split; [reflexivity |]. split; [now left |].
    split; [apply lt_irrefl |]. split; [intros x [] | reflexivity].
  - simpl. rewrite (f_picks acc current Hacc Hcurrent).
    set (a := ToNumber (get acc k)). set (c := ToNumber (get current k)).
    destruct (lt c a) eqn:Hca.
    + destruct (IH current Hcurrent) as (r & Hrun & Hin & Hcr & Hall & _).
      fold c in Hcr.
      exists r. split; [exact Hrun |].
      split; [right; destruct Hin as [-> | Hin]; [now left | now right] |].
      split; [| split].
      * destruct (lt a (ToNumber (get r k))) eqn:Har; [| reflexivity].
        rewrite (lt_trans _ _ _ Hca Har) in Hcr. discriminate.
      * intros x [<- | Hx]; [exact Hcr | now apply Hall].
      * intros Hnan. destruct (lt_not_nan _ _ Hca). congruence.
    + destruct (IH acc Hacc) as (r & Hrun & Hin & Har & Hall & Hfirst).
      fold a in Har, Hfirst.
      exists r. split; [exact Hrun |].
      split; [destruct Hin as [-> | Hin]; [now left | right; now right] |].
      split; [exact Har |]. split; [| exact Hfirst].
      intros x [<- | Hx]; [| now apply Hall]. fold c.
      destruct (lt c (ToNumber (get r k))) eqn:Hcr; [| reflexivity].
      destruct (Num.is_nan a) eqn:Hnan.
      * rewrite (Hfirst eq_refl) in Hcr. fold a in Hcr. congruence.
      * destruct (lt_not_nan _ _ Hcr) as [Hc _].
        rewrite (lt_below c a _ Hc Hnan Hca Hcr) in Har. discriminate.
Qed.

End Reduction.

Section Badges.
Context `{Host}.

Lemma member_numericUnder (k : string) (row : JsVal) :
  numericUnder k row ->
  member row k = Normal (get row k) /\ App.numericLike (get row k) = true.
Proof.
  intros [[fields ->] Hkey]. split; [reflexivity |].
  simpl in Hkey |- *. destruct (lookup k fields); try contradiction; reflexivity.
Qed.

Lemma lowerPriced_picks (lowest current : JsVal) :
  numericUnder "price" lowest -> numericUnder "price" current ->
  lowerPriced lowest current
  = Normal (if Num.ltb (ToNumber (get current "price"))
                       (ToNumber (get lowest "price"))
            then current else lowest).
Proof.
  intros Hlowest Hcurrent. unfold lowerPriced.
  destruct (member_numericUnder _ _ Hlowest) as [-> Hl].
  destruct (member_numericUnder _ _ Hcurrent) as [-> Hc].
  simpl. now rewrite (AppFacts.lt_numeric _ _ Hc Hl).
Qed.

Lemma higherRated_picks (highest current : JsVal) :
  numericUnder "rating" highest -> numericUnder "rating" current ->
  higherRated highest current
  = Normal (if Num.ltb (ToNumber (get highest "rating"))
                       (ToNumber (get current "rating"))
            then current else highest).
Proof.
  intros Hhighest Hcurrent. unfold higherRated, greaterThan.
  destruct (member_numericUnder _ _ Hhighest) as [-> Hh].
  destruct (member_numericUnder _ _ Hcurrent) as [-> Hc].
  simpl. pose proof (AppFacts.lt_numeric _ _ Hh Hc) as Hlt.
  unfold lessThan in Hlt. now rewrite Hlt.
Qed.

End Badges.
End TableControlsFacts.

Module TableControlsSpec.
Import Js ComparisonTable TableControls NumFacts JsFacts SortFacts TableControlsFacts.

(** X11: A click on a column header sorts by that column; the direction is
    descending exactly when the table was already sorted by that column
    in ascending direction. So repeated clicks on one header alternate
    between the two directions, with period two from the first click on,
    and a click on another header starts in ascending direction. *)
Theorem requestSort_alternates (k : string) (sortConfig : SortConfig) :
  key (requestSort k sortConfig) = k
  /\ (direction (requestSort k sortConfig) = "descending"
      <-> key sortConfig = k /\ direction sortConfig = "ascending")
  /\ (direction (requestSort k sortConfig) = "ascending"
      <-> ~ (key sortConfig = k /\ direction sortConfig = "ascending"))
  /\ requestSort k (requestSort k (requestSort k sortConfig))
     = requestSort k sortConfig
  /\ (forall other, other <> k ->
        direction (requestSort other (requestSort k sortConfig)) = "ascending").
Proof.
  unfold requestSort. cbn [key direction].
  destruct (String.eqb_spec (key sortConfig) k) as [Hkey | Hkey];
    destruct (String.eqb_spec (direction sortConfig) "ascending") as [Hdir | Hdir];
    cbn [andb]; rewrite ?String.eqb_refl; cbn [andb];
    (split; [reflexivity |]); (split; [| split; [| split]]);
    try reflexivity; try (split; [discriminate | tauto]);
    try (split; [tauto | discriminate]); try tauto;
    try (intros other Hother;
         destruct (String.eqb_spec k other); [congruence | reflexivity]).
Qed.

Lemma requestSort_alternates_witness :
  direction (requestSort "price" byPriceAscending) = "descending"
  /\ direction (requestSort "rating" (requestSort "price" byPriceAscending))
     = "ascending".
Proof.
  split.
  - apply (requestSort_alternates "price" byPriceAscending). now split.
  - apply (requestSort_alternates "price" byPriceAscending). discriminate.
Defined.

(** X12: For every sort configuration and every list of product rows whose
    value under the sort key is a number or is missing, the sorted rows
    are a rearrangement of the rows, in which the value the comparison
    function sees under the key (0 for a missing one) never decreases when
    the direction is "ascending" and never increases when it is anything
    else; products that are not an array give no rows. *)
Theorem sorted_by_any_column `{Host} (sortConfig : SortConfig)
  (rows : list JsVal) :
  Forall (keyedRow (key sortConfig)) rows ->
  Permutation rows (sortedProducts (JArr rows) sortConfig)
  /\ (direction sortConfig = "ascending" ->
      StronglySorted
        (fun a b => Num.leb (keyOf (key sortConfig) a)
                            (keyOf (key sortConfig) b) = true)
        (sortedProducts (JArr rows) sortConfig))
  /\ (direction sortConfig <> "ascending" ->
      StronglySorted
        (fun a b => Num.leb (keyOf (key sortConfig) b)
                            (keyOf (key sortConfig) a) = true)
        (sortedProducts (JArr rows) sortConfig))
  /\ (forall products, isArray products = false ->
        sortedProducts products sortConfig = []).
Proof.
  intros Hrows. pose proof (sortedProducts_sorted sortConfig rows Hrows) as Hsorted.
  split; [apply Array_sort_perm |]. split; [| split].
  - intros Hdir. rewrite Hdir in Hsorted. exact Hsorted.
  - intros Hdir. apply String.eqb_neq in Hdir. rewrite Hdir in Hsorted.
    exact Hsorted.
  - intros products Harray. unfold sortedProducts. rewrite Harray.
    now rewrite orb_true_r.
Qed.

Lemma sorted_by_any_column_witness :
  map (fun r => get r "id")
      (@sortedProducts exampleHost (JArr badgeRows)
         {| key := "rating"; direction := "descending" |})
  = [JStr "b"; JStr "c"; JStr "a"; JStr "n"]
  /\ StronglySorted
       (fun a b => Num.leb (keyOf "rating" b) (keyOf "rating" a) = true)
       (@sortedProducts exampleHost (JArr badgeRows)
          {| key := "rating"; direction := "descending" |}).
Proof.
  split; [vm_compute; reflexivity |].
  apply (@sorted_by_any_column exampleHost
           {| key := "rating"; direction := "descending" |} badgeRows).
  - unfold badgeRows, keyedRow.
    repeat constructor; try (eexists; reflexivity).
  - discriminate.
Defined.

(** X13: Two clicks on the header of a column: after the first the rows are in
    ascending order of that column, unless they were already, and after
    the second in the opposite order. *)
Theorem header_clicks_reverse_the_order `{Host} (k : string)
  (sortConfig : SortConfig) (rows : list JsVal) :
  Forall (keyedRow k) rows ->
  ~ (key sortConfig = k /\ direction sortConfig = "ascending") ->
  StronglySorted
    (fun a b => Num.leb (keyOf k a) (keyOf k b) = true)
    (sortedProducts (JArr rows) (requestSort k sortConfig))
  /\ StronglySorted
       (fun a b => Num.leb (keyOf k b) (keyOf k a) = true)
       (sortedProducts (JArr rows) (requestSort k (requestSort k sortConfig)))
  /\ Permutation
       (sortedProducts (JArr rows) (requestSort k sortConfig))
       (sortedProducts (JArr rows) (requestSort k (requestSort k sortConfig))).
Proof.
  intros Hrows Hnot.
  assert (Hfirst : requestSort k sortConfig
                   = {| key := k; direction := "ascending" |}).
  { unfold requestSort.
    destruct (String.eqb_spec (key sortConfig) k) as [Hkey | Hkey];
      destruct (String.eqb_spec (direction sortConfig) "ascending")
        as [Hdir | Hdir]; try reflexivity.
    exfalso. apply Hnot. now split. }
  assert (Hsecond : requestSort k (requestSort k sortConfig)
                    = {| key := k; direction := "descending" |}).
  { rewrite Hfirst. unfold requestSort. cbn [key direction].
    now rewrite String.eqb_refl. }
  rewrite Hsecond, Hfirst.
  pose proof (sortedProducts_sorted {| key := k; direction := "ascending" |}
                rows Hrows) as Hup.
  pose proof (sortedProducts_sorted {| key := k; direction := "descending" |}
                rows Hrows) as Hdown.
  split; [exact Hup |]. split; [exact Hdown |].
  transitivity rows; [symmetry |]; apply Array_sort_perm.
Qed.

Lemma header_clicks_reverse_the_order_witness :
  map (fun r => get r "id")
      (@sortedProducts exampleHost (JArr badgeRows)
         (requestSort "price" (requestSort "price"
            {| key := "rating"; direction := "descending" |})))
  = [JStr "a"; JStr "b"; JStr "c"; JStr "n"]
  /\ StronglySorted
       (fun a b => Num.leb (keyOf "price" a) (keyOf "price" b) = true)
       (@sortedProducts exampleHost (JArr badgeRows)
          (requestSort "price"
             {| key := "rating"; direction := "descending" |})).
Proof.
  split; [vm_compute; reflexivity |].
  apply (@header_clicks_reverse_the_order exampleHost "price"
           {| key := "rating"; direction := "descending" |} badgeRows).
  - unfold badgeRows, keyedRow.
    repeat constructor; try (eexists; reflexivity).
  - intros [Hkey _]. discriminate Hkey.
Defined.

(** X14: The product that gets the lowest-price badge, for rows that are
    product objects with a numeric or missing price: none when there are
    no rows; otherwise one of the rows, and no row has a price strictly
    below its price. When the first row has no price (or the price NaN),
    it is that row, whatever the prices of the others are. *)
Theorem lowest_price_badge `{Host} (rows : list JsVal) :
  Forall (numericUnder "price") rows ->
  exists r,
    getLowestPricedProduct rows = Normal r
    /\ (rows = [] -> r = JNull)
    /\ (rows <> [] ->
        In r rows
        /\ forall x, In x rows ->
             lessThan (get x "price") (get r "price") = false)
    /\ (forall first rest,
          rows = first :: rest ->
          Num.is_nan (ToNumber (get first "price")) = true -> r = first).
Proof.
  intros Hrows. destruct rows as [| first rest].
  - exists JNull. split; [reflexivity |]. split; [reflexivity |].
    split; [intros Hne; now contradiction Hne | intros ? ? [=]].
  - assert (Hfirst : numericUnder "price" first) by now inversion Hrows.
    destruct (reduce_picks Num.ltb "price" ltb_irrefl ltb_not_nan
                (fun x y z Hxy Hyz => ltb_leb_trans x y z Hxy (ltb_leb y z Hyz))
                (fun x y z Hx Hy Hxy Hxz =>
                   leb_ltb_trans y x z (leb_total x y Hx Hy Hxy) Hxz)
                lowerPriced lowerPriced_picks (first :: rest) first Hrows Hfirst)
      as (r & Hrun & Hin & _ & Hall & Hnan).
    exists r. split; [exact Hrun |]. split; [intros [=] |]. split.
    + intros _. split; [destruct Hin as [-> | Hin]; [now left | exact Hin] |].
      intros x Hx. rewrite Forall_forall in Hrows.
      assert (Hr : numericUnder "price" r)
        by (destruct Hin as [-> | Hin]; auto).
      destruct (member_numericUnder _ _ (Hrows x Hx)) as [_ Hxl].
      destruct (member_numericUnder _ _ Hr) as [_ Hrl].
      rewrite (AppFacts.lt_numeric _ _ Hxl Hrl). now apply Hall.
    + intros first' rest' [= <- <-]. exact Hnan.
Qed.

Lemma lowest_price_badge_witness :
  @getLowestPricedProduct exampleHost badgeRows
  = Normal (JObj [("id", JStr "n")])
  /\ map (fun r => get r "id")
         (@sortedProducts exampleHost (JArr badgeRows) byPriceAscending)
     = [JStr "n"; JStr "b"; JStr "c"; JStr "a"].
Proof.
  split; [| vm_compute; reflexivity].
  destruct (@lowest_price_badge exampleHost badgeRows)
    as (r & Hrun & _ & _ & Hfirst).
  - unfold badgeRows, numericUnder.
    repeat constructor; try (eexists; reflexivity).
  - rewrite Hrun. f_equal. apply (Hfirst _ _ eq_refl). reflexivity.
Defined.

(** X15: The product that the highest-rated badge is compared with, for rows
    that are product objects with a numeric or missing rating: none when
    there are no rows; otherwise one of the rows, and no row has a rating
    strictly above its rating. When the first row has no rating, it is
    that row. *)
Theorem highest_rated_badge `{Host} (rows : list JsVal) :
  Forall (numericUnder "rating") rows ->
  exists r,
    getHighestRatedProduct rows = Normal r
    /\ (rows = [] -> r = JNull)
    /\ (rows <> [] ->
        In r rows
        /\ forall x, In x rows ->
             greaterThan (get x "rating") (get r "rating") = false)
    /\ (forall first rest,
          rows = first :: rest ->
          Num.is_nan (ToNumber (get first "rating")) = true -> r = first).
Proof.
  intros Hrows. destruct rows as [| first rest].
  - exists JNull. split; [reflexivity |]. split; [reflexivity |].
    split; [intros Hne; now contradiction Hne | intros ? ? [=]].
  - assert (Hfirst : numericUnder "rating" first) by now inversion Hrows.
    destruct (reduce_picks (fun x y => Num.ltb y x) "rating"
                ltb_irrefl
                (fun x y Hyx => let (Hy, Hx) := ltb_not_nan y x Hyx in
                                conj Hx Hy)
                (fun x y z Hyx Hzy =>
                   ltb_leb_trans z y x Hzy (ltb_leb y x Hyx))
                (fun x y z Hx Hy Hyx Hzx =>
                   ltb_leb_trans z x y Hzx (leb_total y x Hy Hx Hyx))
                higherRated higherRated_picks (first :: rest) first Hrows Hfirst)
      as (r & Hrun & Hin & _ & Hall & Hnan).
    exists r. split; [exact Hrun |]. split; [intros [=] |]. split.
    + intros _. split; [destruct Hin as [-> | Hin]; [now left | exact Hin] |].
      intros x Hx. rewrite Forall_forall in Hrows.
      assert (Hr : numericUnder "rating" r)
        by (destruct Hin as [-> | Hin]; auto).
      destruct (member_numericUnder _ _ (Hrows x Hx)) as [_ Hxl].
      destruct (member_numericUnder _ _ Hr) as [_ Hrl].
      pose proof (AppFacts.lt_numeric _ _ Hrl Hxl) as Hlt.
      unfold greaterThan. unfold lessThan in Hlt. rewrite Hlt. now apply Hall.
    + intros first' rest' [= <- <-]. exact Hnan.
Qed.

Lemma highest_rated_badge_witness :
  exists r,
    @getHighestRatedProduct exampleHost (List.tl badgeRows) = Normal r
    /\ get r "id" = JStr "b".
Proof.
  destruct (@highest_rated_badge exampleHost (List.tl badgeRows))
    as (r & Hrun & _).
  - unfold badgeRows, numericUnder.
    repeat constructor; try (eexists; reflexivity).
  - exists r. split; [exact Hrun |]. vm_compute in Hrun.
    injection Hrun as <-. reflexivity.
Defined.

End TableControlsSpec.

(** ** Store names: the card and the table *)

Module SiteInfoSpec.
Import SiteInfo.

(** X16: For a source that is a string, the product card and the comparison
    table name the store alike: "Amazon" or "Meesho" when the source is
    that word in any mix of cases, the source itself otherwise, "Store"
    when it is empty; the name is never empty. For a source that is
    missing, the table names the store "Store", and the card throws. *)
Theorem card_and_table_name_the_store (source : JsVal) :
  (forall s, source = JStr s ->
     exists card table,
       cardSiteInfo source = Normal card
       /\ tableSiteInfo source = Normal table
       /\ name card = tableName table
       /\ name card <> ""
       /\ (toLowerCase s = "amazon" -> name card = "Amazon")
       /\ (toLowerCase s = "meesho" -> name card = "Meesho")
       /\ (toLowerCase s <> "amazon" -> toLowerCase s <> "meesho" ->
           s <> "" -> name card = s)
       /\ (s = "" -> name card = "Store"))
  /\ (nullish source = true ->
      (exists e, cardSiteInfo source = Throw e)
      /\ exists table,
           tableSiteInfo source = Normal table /\ tableName table = "Store").
Proof.
  split.
  - intros s ->. unfold cardSiteInfo, tableSiteInfo, orElse. simpl.
    destruct (String.eqb_spec s "") as [-> | Hs]; simpl.
    + do 2 eexists. repeat split; try discriminate. congruence.
    + destruct (String.eqb_spec (toLowerCase s) "amazon") as [Ha | Ha].
      * do 2 eexists. repeat split; try discriminate; congruence.
      * destruct (String.eqb_spec (toLowerCase s) "meesho") as [Hm | Hm];
          do 2 eexists; repeat split; try discriminate; try congruence;
          simpl; destruct (String.eqb_spec s ""); congruence.
  - intros Hnull. destruct source; try discriminate Hnull;
      (split; [eexists; reflexivity | eexists; split; reflexivity]).
Qed.

Lemma card_and_table_name_the_store_witness :
  (exists card table,
     cardSiteInfo (JStr "AMAZON") = Normal card
     /\ tableSiteInfo (JStr "AMAZON") = Normal table
     /\ name card = "Amazon" /\ tableName table = "Amazon")
  /\ (exists card table,
        cardSiteInfo (JStr "") = Normal card
        /\ tableSiteInfo (JStr "") = Normal table
        /\ name card = "Store" /\ tableName table = "Store").
Proof.
  split.
  - destruct (card_and_table_name_the_store (JStr "AMAZON")) as [Hstring _].
    destruct (Hstring "AMAZON" eq_refl)
      as (card & table & Hcard & Htable & Hsame & _ & Hamazon & _).
    exists card, table. split; [exact Hcard |]. split; [exact Htable |].
    rewrite <- Hsame. split; apply Hamazon; reflexivity.
  - destruct (card_and_table_name_the_store (JStr "")) as [Hstring _].
    destruct (Hstring "" eq_refl)
      as (card & table & Hcard & Htable & Hsame & _ & _ & _ & _ & Hempty).
    exists card, table. split; [exact Hcard |]. split; [exact Htable |].
    rewrite <- Hsame. split; apply Hempty; reflexivity.
Defined.

End SiteInfoSpec.

(** ** The price chart: what is plotted and the change summary *)

Module ChartFacts.
Import Js PriceChart ComparisonTable ChartData NumFacts PriceChartFacts SortFacts.

Lemma sub_same (s : bool) (m : positive) (e : Z) :
  Num.sub (S754_finite s m e) (S754_finite s m e) = Num.zero.
Proof.
  unfold Num.sub, SFsub, SFadd, SFopp. simpl.
  rewrite Z.min_id. unfold shl_align. rewrite Z.sub_diag. simpl.
  destruct s; simpl; rewrite ?Z.pos_sub_diag; reflexivity.
Qed.

Lemma positive_finite_sign (s : bool) (m : positive) (e : Z) :
  Num.positive (S754_finite s m e) -> s = false.
Proof. destruct s; [discriminate | reflexivity]. Qed.

Lemma Array_sort_in_order {A : Type} (cmp : A -> A -> Z) (l : list A) :
  Sorted (inOrder cmp) l -> Array_sort cmp l = l.
Proof.
  induction 1 as [| x l Hsorted IH Hhd]; [reflexivity |].
  change (Array_sort cmp (x :: l)) with (insertSorted cmp x (Array_sort cmp l)).
  rewrite IH.
  destruct Hhd as [| y l Hxy]; [reflexivity |]. simpl.
  unfold inOrder in Hxy. apply Z.leb_le in Hxy. now rewrite Hxy.
Qed.

Lemma filter_all {A : Type} (f : A -> bool) (l : list A) :
  Forall (fun x => f x = true) l -> filter f l = l.
Proof.
  induction 1 as [| x l Hx _ IH]; simpl; [reflexivity |].
  now rewrite Hx, IH.
Qed.

Lemma filter_none {A : Type} (f : A -> bool) (l : list A) :
  Forall (fun x => f x = false) l -> filter f l = [].
Proof.
  induction 1 as [| x l Hx _ IH]; simpl; [reflexivity |].
  now rewrite Hx, IH.
Qed.

Lemma filters_agree (item : JsVal) :
  plottable item && Num.ltb Num.zero (priceOf item)
  = validItem item && truthy (get item "date").
Proof.
  unfold plottable, validItem, priceOf.
  destruct (truthy item); simpl; [| reflexivity].
  destruct (get item "price") as [| | | price | | |]; simpl; try reflexivity.
  destruct (Num.is_nan price); simpl; [reflexivity |].
  now destruct (truthy (get item "date")), (Num.ltb Num.zero price).
Qed.


Section WithDates.
Context `{DateHost}.

Lemma chartSeries_none (items : list JsVal) :
  filter plottable items = [] ->
  chartSeries items = inl "No valid price data found for this product.".
Proof. unfold chartSeries. now intros ->. Qed.

Lemma chartSeries_some (items : list JsVal) :
  filter plottable items <> [] ->
  chartSeries items
  = let sorted := Array_sort byDate (filter plottable items) in
    inr {| labels := map (fun item => formatDate (get item "date")) sorted;
           prices := map priceOf sorted;
           lineColor := gradientColorOf (map priceOf sorted) |}.
Proof.
  unfold chartSeries. destruct (filter plottable items); [congruence |].
  reflexivity.
Qed.

End WithDates.

End ChartFacts.

Module ChartSpec.
Import Js PriceChart ComparisonTable ChartData NumFacts PriceChartFacts SortFacts
  ChartFacts.

(** X17: When the first and the last valid entry of the history carry the same
    finite price (as they do when only one entry is valid), the price
    change and its percentage are both exactly 0, the current price is
    that price, and the change pill shows no movement. *)
Theorem same_first_and_last_price_is_no_change (historyData product : JsVal)
  (s : bool) (m : positive) (e : Z) :
  hd Num.NaN (pricesOf historyData) = S754_finite s m e ->
  last (pricesOf historyData) Num.NaN = S754_finite s m e ->
  exists stats,
    calculateStats historyData product = Normal (stats, None)
    /\ current stats = JNum (S754_finite s m e)
    /\ priceChange stats = Num.zero
    /\ priceChangePercent stats = Num.zero
    /\ trend stats = Unchanged.
Proof.
  intros Hfirst Hlast.
  assert (Hsome : validData historyData <> []).
  { intros Hnone. unfold pricesOf in Hfirst. rewrite Hnone in Hfirst.
    discriminate Hfirst. }
  pose proof (calculateStats_some_valid historyData product Hsome) as Hrun.
  cbv zeta in Hrun. rewrite Hlast, Hfirst in Hrun.
  assert (Hs : s = false).
  { pose proof (pricesOf_positive historyData) as Hpos.
    destruct (pricesOf historyData) as [| p ps]; [discriminate Hfirst |].
    simpl in Hfirst. subst p. inversion Hpos; subst.
    eapply positive_finite_sign; eassumption. }
  subst s. rewrite sub_same in Hrun.
  eexists. split; [exact Hrun |]. repeat split.
Qed.


Lemma same_first_and_last_price_is_no_change_witness :
  exists stats,
    calculateStats flatHistory productAt5 = Normal (stats, None)
    /\ current stats = JNum (Num.dec 1001 1)
    /\ priceChange stats = Num.zero
    /\ trend stats = Unchanged.
Proof.
  destruct (same_first_and_last_price_is_no_change flatHistory productAt5
              false 7043911292184166 (-46))
    as (stats & Hrun & Hcurrent & Hchange & _ & Htrend);
    [vm_compute; reflexivity | vm_compute; reflexivity |].
  exists stats. repeat split; assumption.
Defined.

(** X18: Once past its guards (a history that is a non-empty array, and a
    canvas to draw on), the chart effect reports "No valid price data
    found for this product." exactly when no entry of the history passes
    its filter, as happens when no entry has a date. Otherwise, when the
    date of every entry that passes the filter converts to a primitive
    (as every string and every number does, so that reading it as a date
    does not throw), it hands to the chart one point for every such
    entry, with one label for each point, and no plotted price is NaN. *)
Theorem chart_points_are_the_plottable_entries `{DateHost}
  (items : list JsVal) :
  (filter plottable items = [] <->
   chartSeries items = inl "No valid price data found for this product.")
  /\ (filter plottable items <> [] ->
      Forall (fun item => convertible (get item "date") = true)
             (filter plottable items) ->
      exists series,
        chartSeries items = inr series
        /\ Permutation (map priceOf (filter plottable items)) (prices series)
        /\ List.length (labels series) = List.length (prices series)
        /\ Forall (fun price => Num.is_nan price = false) (prices series))
  /\ (Forall (fun item => truthy (get item "date") = false) items ->
      filter plottable items = []).
Proof.
  split; [| split].
  - split; [apply chartSeries_none |].
    intros Herror. destruct (filter plottable items) eqn:Hpoints;
      [reflexivity |].
    rewrite chartSeries_some in Herror by (rewrite Hpoints; discriminate).
    discriminate Herror.
  - intros Hsome _. rewrite (chartSeries_some items Hsome). cbv zeta.
    eexists. split; [reflexivity |]. cbn [prices labels].
    split; [apply Permutation_map, Array_sort_perm |].
    split; [now rewrite !length_map |].
    apply Forall_forall. intros price Hprice.
    apply in_map_iff in Hprice as (item & <- & Hitem).
    apply (Permutation_in _ (Permutation_sym (Array_sort_perm byDate _)))
      in Hitem.
    apply filter_In in Hitem as [_ Hitem].
    unfold plottable in Hitem. unfold priceOf.
    apply andb_true_iff in Hitem as [_ Hitem].
    destruct (get item "price"); try discriminate Hitem.
    apply andb_true_iff in Hitem as [Hnan _].
    now apply negb_true_iff in Hnan.
  - intros Hundated. apply filter_none.
    eapply Forall_impl; [| exact Hundated]. intros item Hdate.
    unfold plottable. rewrite Hdate.
    destruct (truthy item); [| reflexivity].
    destruct (get item "price"); try reflexivity. apply andb_false_r.
Qed.

Lemma chart_points_are_the_plottable_entries_witness :
  exists series,
    @chartSeries timestampHost (freeEntry :: undatedEntry :: items_of fallingHistory)
    = inr series
    /\ List.length (prices series) = 3.
Proof.
  destruct (@chart_points_are_the_plottable_entries timestampHost
              (freeEntry :: undatedEntry :: items_of fallingHistory))
    as (_ & Hsome & _).
  destruct Hsome as (series & Hrun & Hperm & _);
    [discriminate | repeat constructor |].
  exists series. split; [exact Hrun |].
  now rewrite <- (Permutation_length Hperm).
Defined.

(** X19: The statistics and the chart filter the history differently: an entry
    passes the chart's filter and has a price above 0 exactly when it
    passes the statistics' filter and has a date. So every entry the
    statistics count is plotted if it has a date, and every plotted entry
    is counted if its price is above 0. *)
Theorem chart_and_statistics_take_different_entries (items : list JsVal) :
  (forall item, plottable item && Num.ltb Num.zero (priceOf item)
                = validItem item && truthy (get item "date"))
  /\ (forall item, In item (validData (JArr items)) ->
        truthy (get item "date") = true -> In item (filter plottable items))
  /\ (forall item, In item (filter plottable items) ->
        Num.ltb Num.zero (priceOf item) = true ->
        In item (validData (JArr items))).
Proof.
  split; [exact filters_agree |]. unfold validData. cbn [items_of]. split.
  - intros item Hin Hdate. apply filter_In in Hin as [Hin Hvalid].
    apply filter_In. split; [exact Hin |].
    pose proof (filters_agree item) as Hagree.
    rewrite Hvalid, Hdate in Hagree. now apply andb_true_iff in Hagree.
  - intros item Hin Hprice. apply filter_In in Hin as [Hin Hplot].
    apply filter_In. split; [exact Hin |].
    pose proof (filters_agree item) as Hagree.
    rewrite Hplot, Hprice in Hagree. symmetry in Hagree.
    now apply andb_true_iff in Hagree.
Qed.

Lemma chart_and_statistics_take_different_entries_witness :
  In undatedEntry (validData (JArr [freeEntry; undatedEntry]))
  /\ filter plottable [freeEntry; undatedEntry] = [freeEntry]
  /\ (plottable freeEntry && Num.ltb Num.zero (priceOf freeEntry)
      = validItem freeEntry && truthy (get freeEntry "date")).
Proof.
  split; [vm_compute; left; reflexivity |]. split; [reflexivity |].
  apply (chart_and_statistics_take_different_entries []).
Defined.

End ChartSpec.



(** ** Subtraction as a comparison function *)

Module SubtractionFacts.
Import Js ChartData AllProducts NumFacts.
Local Open Scope Z_scope.

Lemma shr_1_bound (mrs : shr_record) (j : Z) :
  0 <= j -> 2 ^ (j + 1) <= shr_m mrs -> 2 ^ j <= shr_m (shr_1 mrs).
Proof.
  intros Hj. rewrite Z.pow_add_r by lia. change (2 ^ 1) with 2.
  assert (Hpos : 0 < 2 ^ j) by (apply Z.pow_pos_nonneg; lia).
  destruct mrs as [[| [p | p |] | p] r s]; simpl; lia.
Qed.

Lemma iter_shr_bound (p : positive) :
  forall (mrs : shr_record) (k : Z),
    0 <= k -> 2 ^ (k + Zpos p) <= shr_m mrs ->
    2 ^ k <= shr_m (iter_pos shr_1 p mrs).
Proof.
  induction p as [p IH | p IH |]; intros mrs k Hk Hm; simpl.
  - apply IH; [exact Hk |]. apply IH; [lia |].
    apply shr_1_bound; [lia |].
    replace (k + Zpos p + Zpos p + 1) with (k + Zpos p~1) by lia. exact Hm.
  - apply IH; [exact Hk |]. apply IH; [lia |].
    replace (k + Zpos p + Zpos p) with (k + Zpos p~0) by lia. exact Hm.
  - apply shr_1_bound; assumption.
Qed.

Lemma shr_record_of_loc_m (m : Z) (l : location) :
  shr_m (shr_record_of_loc m l) = m.
Proof. destruct l as [| []]; reflexivity. Qed.

Lemma shr_fexp_positive (m : Z) (e : Z) (l : location) :
  1 <= m -> -1074 <= e ->
  1 <= shr_m (fst (shr_fexp 53 1024 m e l))
  /\ -1074 <= snd (shr_fexp 53 1024 m e l).
Proof.
  intros Hm He. destruct m as [| m | m]; try lia.
  unfold shr_fexp, shr, fexp, emin. cbn [Zdigits2].
  pose proof (digits2_pos_bounds m) as [Hlow _].
  set (d := Zpos (digits2_pos m)) in *.
  destruct (Z.max (d + e - 53) (3 - 1024 - 53) - e) as [| n | n] eqn:Hn;
    cbn [fst snd]; rewrite ?shr_record_of_loc_m; try lia.
  split; [| lia].
  change 1 with (2 ^ 0). apply iter_shr_bound; [lia |].
  rewrite shr_record_of_loc_m. simpl (0 + Zpos n).
  eapply Z.le_trans; [| exact Hlow]. apply Z.pow_le_mono_r; lia.
Qed.

Lemma round_nearest_even_ge (m : Z) (l : location) :
  m <= round_nearest_even m l.
Proof.
  destruct l as [| []]; simpl; try lia. destruct (Z.even m); lia.
Qed.

Lemma binary_round_aux_sign (sx : bool) (m e : Z) (l : location) :
  1 <= m -> -1074 <= e ->
  (exists m' e', binary_round_aux 53 1024 sx m e l = S754_finite sx m' e')
  \/ binary_round_aux 53 1024 sx m e l = S754_infinity sx.
Proof.
  intros Hm He. unfold binary_round_aux.
  destruct (shr_fexp_positive m e l Hm He) as [Hm1 He1].
  destruct (shr_fexp 53 1024 m e l) as [mrs' e']. cbn [fst snd] in Hm1, He1.
  pose proof (round_nearest_even_ge (shr_m mrs') (loc_of_shr_record mrs')) as Hr.
  destruct (shr_fexp_positive
              (round_nearest_even (shr_m mrs') (loc_of_shr_record mrs')) e'
              loc_Exact ltac:(lia) He1) as [Hm2 _].
  destruct (shr_fexp 53 1024 _ e' loc_Exact) as [mrs'' e''].
  cbn [fst] in Hm2.
  destruct (shr_m mrs'') as [| m2 | m2]; try lia.
  destruct (e'' <=? 1024 - 53); [left; eauto | right; reflexivity].
Qed.

Lemma binary_round_sign (sx : bool) (m : positive) (e : Z) :
  -1074 <= e ->
  (exists m' e', binary_round 53 1024 sx m e = S754_finite sx m' e')
  \/ binary_round 53 1024 sx m e = S754_infinity sx.
Proof.
  intros He. unfold binary_round.
  destruct (shl_align m e (fexp 53 1024 (Zpos (digits2_pos m) + e)))
    as [mz ez] eqn:Halign.
  apply binary_round_aux_sign; [lia |].
  unfold shl_align, fexp, emin in Halign.
  destruct (Z.max (Zpos (digits2_pos m) + e - 53) (3 - 1024 - 53) - e);
    injection Halign as <- <-; lia.
Qed.


Lemma iter_xO (m d : positive) :
  Zpos (Pos.iter xO m d) = Zpos m * 2 ^ Zpos d.
Proof.
  induction d as [| d IH] using Pos.peano_ind.
  - simpl. lia.
  - rewrite Pos.iter_succ, Pos2Z.inj_succ, Z.pow_succ_r by lia.
    rewrite Pos2Z.inj_xO, IH. lia.
Qed.

Lemma shl_align_scaled (m : positive) (e e' : Z) :
  -1074 <= e' <= e ->
  Zpos (fst (shl_align m e e')) * 2 ^ (e' + 1074) = Zpos m * 2 ^ (e + 1074).
Proof.
  intros He. unfold shl_align.
  destruct (e' - e) as [| d | d] eqn:Hd; cbn [fst]; try lia.
  - now replace e' with e by lia.
  - rewrite iter_xO. replace (e + 1074) with (Zpos d + (e' + 1074)) by lia.
    rewrite (Z.pow_add_r 2 (Zpos d) (e' + 1074)) by lia. ring.
Qed.

Lemma compare_scaled (x y : Num.num) :
  Num.finitePositive x = true -> Num.finitePositive y = true ->
  SFcompare x y = Some (Num.scaled x ?= Num.scaled y).
Proof.
  destruct x as [| | | [|] mx ex]; try discriminate.
  destruct y as [| | | [|] my ey]; try discriminate.
  simpl Num.finitePositive. intros Hx Hy.
  destruct (valid_finite_shape _ _ Hx) as (Hex & Hdx & Hnx).
  destruct (valid_finite_shape _ _ Hy) as (Hey & Hdy & Hny).
  pose proof (digits2_pos_bounds mx) as Hbx.
  pose proof (digits2_pos_bounds my) as Hby.
  assert (Hshift : forall (ma mb : positive) (ea eb : Z),
            -1074 <= ea < eb -> Zpos ma < 2 ^ 53 -> 2 ^ 52 <= Zpos mb ->
            Zpos ma * 2 ^ (ea + 1074) < Zpos mb * 2 ^ (eb + 1074)).
  { intros ma mb ea eb He Hma Hmb.
    replace (eb + 1074) with ((ea + 1074) + (eb - ea)) by lia.
    rewrite (Z.pow_add_r 2 (ea + 1074) (eb - ea)) by lia.
    assert (Hp : 0 < 2 ^ (ea + 1074)) by (apply Z.pow_pos_nonneg; lia).
    assert (Hq : 2 <= 2 ^ (eb - ea)).
    { change 2 with (2 ^ 1) at 1. apply Z.pow_le_mono_r; lia. }
    change (2 ^ 53) with (2 * 2 ^ 52) in Hma.
    generalize dependent (2 ^ 52). generalize dependent (2 ^ (ea + 1074)).
    generalize dependent (2 ^ (eb - ea)). intros Q HQ P HP A HA HB.
    apply Z.lt_le_trans with (A * 2 * P); [nia |].
    apply Z.le_trans with (Zpos mb * (P * 2)); [nia |].
    apply Z.mul_le_mono_nonneg; nia. }
  assert (Hmx : Zpos mx < 2 ^ 53).
  { eapply Z.lt_le_trans; [apply Hbx |]. apply Z.pow_le_mono_r; lia. }
  assert (Hmy : Zpos my < 2 ^ 53).
  { eapply Z.lt_le_trans; [apply Hby |]. apply Z.pow_le_mono_r; lia. }
  unfold SFcompare, Num.scaled, cond_Zopp. f_equal.
  destruct (Z.compare_spec ex ey) as [-> | Hlt | Hgt].
  - change (Pos.compare_cont Eq mx my) with (Pos.compare mx my).
    assert (Hp : 0 < 2 ^ (ey + 1074)) by (apply Z.pow_pos_nonneg; lia).
    rewrite <- Zmult_compare_compat_r by lia.
    reflexivity.
  - symmetry. apply Z.compare_lt_iff. apply Hshift; [lia | exact Hmx |].
    rewrite (Hny ltac:(lia)) in Hby. apply Hby.
  - symmetry. apply Z.compare_gt_iff. apply Hshift; [lia | exact Hmy |].
    rewrite (Hnx ltac:(lia)) in Hbx. apply Hbx.
Qed.

Lemma sub_sign (x y : Num.num) :
  nonNegative x = true -> nonNegative y = true ->
  signOf (Num.sub x y)
  = match SFcompare x y with
    | Some Lt => -1
    | Some Gt => 1
    | _ => 0
    end.
Proof.
  intros Hx Hy.
  destruct x as [sx | | | [|] mx ex]; try discriminate;
    destruct y as [sy | | | [|] my ey]; try discriminate.
  - destruct sx, sy; reflexivity.
  - reflexivity.
  - reflexivity.
  - rewrite (compare_scaled _ _ Hx Hy).
    simpl in Hx, Hy.
    destruct (valid_finite_shape _ _ Hx) as (Hex & _).
    destruct (valid_finite_shape _ _ Hy) as (Hey & _).
    unfold Num.sub, SFsub. cbn [cond_Zopp].
    set (ez := Z.min ex ey).
    pose proof (shl_align_scaled mx ex ez ltac:(lia)) as Hsx.
    pose proof (shl_align_scaled my ey ez ltac:(lia)) as Hsy.
    unfold Num.scaled, cond_Zopp.
    assert (Hp : 0 < 2 ^ (ez + 1074)) by (apply Z.pow_pos_nonneg; lia).
    rewrite <- Hsx, <- Hsy.
    rewrite <- Zmult_compare_compat_r by lia.
    set (a := Zpos (fst (shl_align mx ex ez))).
    set (b := Zpos (fst (shl_align my ey ez))).
    unfold binary_normalize, Num.prec, Num.emax.
    destruct (a - b) as [| m | m] eqn:Hm.
    + replace (a ?= b) with Eq by (symmetry; apply Z.compare_eq_iff; lia).
      reflexivity.
    + replace (a ?= b) with Gt by (symmetry; apply Z.compare_gt_iff; lia).
      destruct (binary_round_sign false m ez ltac:(lia))
        as [(m' & e' & ->) | ->]; reflexivity.
    + replace (a ?= b) with Lt by (symmetry; apply Z.compare_lt_iff; lia).
      destruct (binary_round_sign true m ez ltac:(lia))
        as [(m' & e' & ->) | ->]; reflexivity.
Qed.

Lemma nonNegative_compare (x y : Num.num) :
  nonNegative x = true -> nonNegative y = true ->
  (signOf (Num.sub x y) <= 0)%Z <-> Num.leb x y = true.
Proof.
  intros Hx Hy. rewrite (sub_sign x y Hx Hy). unfold Num.leb, SFleb.
  destruct x as [sx | | | [|] mx ex]; try discriminate;
    destruct y as [sy | | | [|] my ey]; try discriminate;
    try (simpl; split; intros Hcase; try reflexivity; try discriminate; lia).
  rewrite (compare_scaled _ _ Hx Hy).
  destruct (_ ?= _)%Z; split; intros Hcase;
    try reflexivity; try discriminate; lia.
Qed.

End SubtractionFacts.


Module AllProductsFacts.
Import Js ComparisonTable App ChartData AllProducts NumFacts SortFacts AppFacts
  SubtractionFacts.

Lemma insertSortedM_pure {A : Type} (cmpM : A -> A -> Completion Z)
  (cmp : A -> A -> Z) (typed : A -> Prop) (x : A) (l : list A) :
  (forall a b, typed a -> typed b -> cmpM a b = Normal (cmp a b)) ->
  typed x -> Forall typed l ->
  insertSortedM cmpM x l = Normal (insertSorted cmp x l).
Proof.
  intros Hpure Hx. induction 1 as [| y l Hy _ IH]; simpl; [reflexivity |].
  rewrite (Hpure x y Hx Hy). simpl.
  destruct (cmp x y <=? 0)%Z; [reflexivity |]. now rewrite IH.
Qed.

Lemma sortM_pure {A : Type} (cmpM : A -> A -> Completion Z)
  (cmp : A -> A -> Z) (typed : A -> Prop) (l : list A) :
  (forall a b, typed a -> typed b -> cmpM a b = Normal (cmp a b)) ->
  Forall typed l ->
  sortM cmpM l = Normal (Array_sort cmp l).
Proof.
  intros Hpure. induction 1 as [| x l Hx Hl IH]; simpl; [reflexivity |].
  rewrite IH. simpl.
  apply (insertSortedM_pure cmpM cmp typed); auto.
  now apply Array_sort_typed.
Qed.

Section WithHost.
Context `{Host}.

Lemma SortCompare_objects (a b : JsVal) :
  objectProduct a -> objectProduct b ->
  SortCompare priceDifference a b = Normal (priceOrder a b).
Proof. intros [[fa ->] _] [[fb ->] _]. reflexivity. Qed.

Lemma appendListing_ok (store : string) (searchResults : JsVal)
  (allProducts : list JsVal) :
  listingOk (get searchResults store) ->
  appendListing store searchResults allProducts
  = Normal (allProducts ++ items_of (get searchResults store))%list.
Proof.
  unfold appendListing. intros [Hfalsy | Harray].
  - rewrite Hfalsy.
    destruct (get searchResults store); try discriminate Hfalsy;
      simpl; now rewrite app_nil_r.
  - destruct (get searchResults store) as [| | | | | products |];
      try discriminate Harray.
    destruct (truthy (JArr products)) eqn:Htruthy; [reflexivity |].
    discriminate Htruthy.
Qed.

Lemma getAllProducts_sorts (searchResults : JsVal) :
  truthy searchResults = true ->
  listingOk (get searchResults "amazon") ->
  listingOk (get searchResults "flipkart") ->
  Forall objectProduct (aggregated searchResults) ->
  getAllProducts searchResults
  = Normal (Array_sort priceOrder (aggregated searchResults)).
Proof.
  intros Htruthy Hamazon Hflipkart Hproducts. unfold getAllProducts.
  rewrite Htruthy. simpl.
  rewrite (appendListing_ok "amazon" _ _ Hamazon). simpl.
  rewrite (appendListing_ok "flipkart" _ _ Hflipkart). simpl.
  apply (sortM_pure _ priceOrder objectProduct); [| exact Hproducts].
  apply SortCompare_objects.
Qed.

Lemma priceOrder_leb (a b : JsVal) :
  pricedAtOrAboveZero a -> pricedAtOrAboveZero b ->
  inOrder priceOrder a b <-> Num.leb (priceKey a) (priceKey b) = true.
Proof.
  intros [_ (pa & Hpa & Ha)] [_ (pb & Hpb & Hb)].
  unfold inOrder, priceOrder, priceKey. rewrite Hpa, Hpb.
  now apply nonNegative_compare.
Qed.

End WithHost.
Lemma leb_antisym (x y : Num.num) :
  Num.leb x y = true -> Num.leb y x = true -> Num.eqb x y = true.
Proof. split_num x; split_num y; num_order. Qed.

Section BestDeal.
Context `{Host}.

Lemma aggregated_falsy (searchResults : JsVal) :
  truthy searchResults = false -> aggregated searchResults = [].
Proof.
  intros Hfalsy. unfold aggregated.
  destruct searchResults; try discriminate Hfalsy; reflexivity.
Qed.

Lemma priced_is_object (p : JsVal) : pricedAtOrAboveZero p -> objectProduct p.
Proof.
  intros [Hobject (price & Hprice & _)]. split; [exact Hobject |].
  now rewrite Hprice.
Qed.

Lemma priced_is_pricedProduct (p : JsVal) :
  pricedAtOrAboveZero p -> pricedProduct p.
Proof.
  intros [Hobject (price & Hprice & _)]. split; [exact Hobject |].
  now rewrite Hprice.
Qed.

Lemma priced_key (p : JsVal) :
  pricedAtOrAboveZero p ->
  get p "price" = JNum (priceKey p) /\ nonNegative (priceKey p) = true.
Proof.
  intros [_ (price & Hprice & Hnn)]. unfold priceKey. rewrite Hprice. auto.
Qed.

Lemma nonNegative_below_infinity (x : Num.num) :
  nonNegative x = true ->
  Num.ltb x Num.PosInf = true /\ Num.is_nan x = false.
Proof. destruct x as [[|] | | | [|] m e]; try discriminate; auto. Qed.

Lemma getBestDeal_visited (searchResults : JsVal) :
  truthy searchResults = true ->
  listingOk (get searchResults "amazon") ->
  listingOk (get searchResults "flipkart") ->
  Forall pricedProduct (aggregated searchResults) ->
  exists st,
    getBestDeal searchResults = Normal (fst st)
    /\ Visited st (aggregated searchResults).
Proof.
  intros Htruthy Hamazon Hflipkart Hproducts. unfold aggregated in *.
  apply Forall_app in Hproducts as [Hpa Hpf].
  assert (Hstart : Visited (JNull, JNum Num.PosInf) []).
  { unfold Visited. cbn [fst snd].
    split; [reflexivity |]. split; [reflexivity |]. split; [now left |].
    intros q []. }
  destruct (checkStore_visited "amazon" searchResults _ _ Hamazon Hpa Hstart)
    as (st1 & Hrun1 & Hvisited1).
  destruct (checkStore_visited "flipkart" searchResults _ _ Hflipkart Hpf Hvisited1)
    as (st2 & Hrun2 & Hvisited2).
  exists st2. unfold getBestDeal. rewrite Htruthy. simpl.
  rewrite Hrun1. simpl. rewrite Hrun2. simpl. split; [reflexivity |].
  exact Hvisited2.
Qed.

Lemma Array_sort_priceOrder (products : list JsVal) :
  Forall pricedAtOrAboveZero products ->
  StronglySorted (fun a b => Num.leb (priceKey a) (priceKey b) = true)
                 (Array_sort priceOrder products).
Proof.
  intros Hproducts.
  apply (StronglySorted_impl (inOrder priceOrder)).
  - intros a b Ha Hb.
    pose proof (Array_sort_typed priceOrder pricedAtOrAboveZero _ Hproducts)
      as Htyped.
    rewrite Forall_forall in Htyped.
    now apply priceOrder_leb; apply Htyped.
  - apply (Array_sort_sorted priceOrder pricedAtOrAboveZero);
      [| | exact Hproducts].
    + intros a b Ha Hb. rewrite !priceOrder_leb by assumption.
      destruct (priced_key a Ha) as [_ Hna].
      destruct (priced_key b Hb) as [_ Hnb].
      destruct (nonNegative_below_infinity _ Hna) as [_ Hnan_a].
      destruct (nonNegative_below_infinity _ Hnb) as [_ Hnan_b].
      destruct (Num.ltb (priceKey b) (priceKey a)) eqn:Hba.
      * right. now apply ltb_leb.
      * left. now apply leb_total.
    + intros a b c Ha Hb Hc. rewrite !priceOrder_leb by assumption.
      apply leb_trans.
Qed.

End BestDeal.

End AllProductsFacts.

Module AllProductsSpec.
Import Js ComparisonTable App ChartData AllProducts NumFacts SortFacts AppFacts
  SubtractionFacts AllProductsFacts.

(** X21: For every search result whose two listings are arrays (or absent) of
    product objects, whatever their prices are as long as each converts
    to a primitive (as every number, string, boolean, null and missing
    price does, so that the subtraction of two prices does not throw),
    the list of all products is computed without an exception and is a
    rearrangement of the products of the "amazon" listing followed by
    those of the "flipkart" listing; it is empty when there is no search
    result. *)
Theorem all_products_are_the_two_listings `{Host} (searchResults : JsVal) :
  listingOk (get searchResults "amazon") ->
  listingOk (get searchResults "flipkart") ->
  Forall objectProduct (aggregated searchResults) ->
  exists all,
    getAllProducts searchResults = Normal all
    /\ Permutation (aggregated searchResults) all
    /\ (truthy searchResults = false -> all = []).
Proof.
  intros Hamazon Hflipkart Hproducts.
  destruct (truthy searchResults) eqn:Htruthy.
  - exists (Array_sort priceOrder (aggregated searchResults)).
    split; [now apply getAllProducts_sorts |].
    split; [apply Array_sort_perm | discriminate].
  - exists []. unfold getAllProducts. rewrite Htruthy.
    rewrite (aggregated_falsy _ Htruthy). repeat split. constructor.
Qed.

Lemma all_products_are_the_two_listings_witness :
  exists all,
    @getAllProducts exampleHost twoStores = Normal all
    /\ Permutation (aggregated twoStores) all
    /\ List.length all = 4.
Proof.
  destruct (@all_products_are_the_two_listings exampleHost twoStores)
    as (all & Hrun & Hperm & _).
  - right. reflexivity.
  - right. reflexivity.
  - unfold aggregated, twoStores, product, objectProduct. simpl.
    repeat constructor; eexists; reflexivity.
  - exists all. split; [exact Hrun |]. split; [exact Hperm |].
    now rewrite <- (Permutation_length Hperm).
Defined.

(** X22: When moreover every product has a price that is a number at or above
    zero, the list of all products is in ascending order of price: no
    product is priced above one that follows it. *)
Theorem all_products_in_price_order `{Host} (searchResults : JsVal) :
  listingOk (get searchResults "amazon") ->
  listingOk (get searchResults "flipkart") ->
  Forall pricedAtOrAboveZero (aggregated searchResults) ->
  exists all,
    getAllProducts searchResults = Normal all
    /\ Permutation (aggregated searchResults) all
    /\ StronglySorted
         (fun a b => Num.leb (priceKey a) (priceKey b) = true) all
    /\ StronglySorted
         (fun a b => lessOrEqual (get a "price") (get b "price") = true) all.
Proof.
  intros Hamazon Hflipkart Hproducts.
  assert (Hobjects : Forall objectProduct (aggregated searchResults))
    by (eapply Forall_impl; [apply priced_is_object | exact Hproducts]).
  pose proof (Array_sort_priceOrder _ Hproducts) as Hsorted.
  destruct (truthy searchResults) eqn:Htruthy.
  - exists (Array_sort priceOrder (aggregated searchResults)).
    split; [now apply getAllProducts_sorts |].
    split; [apply Array_sort_perm |]. split; [exact Hsorted |].
    apply (StronglySorted_impl
             (fun a b => Num.leb (priceKey a) (priceKey b) = true));
      [| exact Hsorted].
    intros a b Ha Hb Hle.
    pose proof (Array_sort_typed priceOrder pricedAtOrAboveZero _ Hproducts)
      as Htyped.
    rewrite Forall_forall in Htyped.
    destruct (priced_key a (Htyped a Ha)) as [-> _].
    destruct (priced_key b (Htyped b Hb)) as [-> _].
    now rewrite JsFacts.le_num.
  - exists []. unfold getAllProducts. rewrite Htruthy. rewrite (aggregated_falsy _ Htruthy).
    repeat split; constructor.
Qed.

Lemma all_products_in_price_order_witness :
  exists all,
    @getAllProducts exampleHost pricedStores = Normal all
    /\ StronglySorted
         (fun a b => Num.leb (priceKey a) (priceKey b) = true) all
    /\ map (fun p => get p "id") all
       = [JStr "a2"; JStr "f2"; JStr "f1"; JStr "a1"].
Proof.
  destruct (@all_products_in_price_order exampleHost pricedStores)
    as (all & Hrun & _ & Hsorted & _).
  - right. reflexivity.
  - right. reflexivity.
  - unfold aggregated, pricedStores, product, pricedAtOrAboveZero. simpl.
    repeat constructor; eexists; try reflexivity; split; reflexivity.
  - exists all. split; [exact Hrun |]. split; [exact Hsorted |].
    vm_compute in Hrun. injection Hrun as <-. reflexivity.
Defined.

(** X23: When the two listings hold at least one product and every product
    has a price that is a number at or above zero, there is a best deal,
    it is one of the products, and its price is the price of the first
    of all products. *)
Theorem best_deal_is_priced_as_the_first_product `{Host}
  (searchResults : JsVal) :
  listingOk (get searchResults "amazon") ->
  listingOk (get searchResults "flipkart") ->
  Forall pricedAtOrAboveZero (aggregated searchResults) ->
  aggregated searchResults <> [] ->
  exists best first rest,
    getBestDeal searchResults = Normal best
    /\ getAllProducts searchResults = Normal (first :: rest)
    /\ In best (aggregated searchResults)
    /\ In first (aggregated searchResults)
    /\ Num.eqb (priceKey best) (priceKey first) = true.
Proof.
  intros Hamazon Hflipkart Hproducts Hsome.
  assert (Htruthy : truthy searchResults = true).
  { destruct (truthy searchResults) eqn:Htruthy; [reflexivity |].
    now rewrite (aggregated_falsy _ Htruthy) in Hsome. }
  assert (Hobjects : Forall objectProduct (aggregated searchResults))
    by (eapply Forall_impl; [apply priced_is_object | exact Hproducts]).
  assert (Hpriced : Forall pricedProduct (aggregated searchResults))
    by (eapply Forall_impl; [apply priced_is_pricedProduct | exact Hproducts]).
  destruct (getBestDeal_visited _ Htruthy Hamazon Hflipkart Hpriced)
    as (st & Hbest & Hlike & Hnan & Hcase & Hseen).
  pose proof (getAllProducts_sorts _ Htruthy Hamazon Hflipkart Hobjects) as Hall.
  pose proof (Array_sort_perm priceOrder (aggregated searchResults)) as Hperm.
  pose proof (Array_sort_priceOrder _ Hproducts) as Horder.
  rewrite Forall_forall in Hproducts.
  assert (Hkey : forall q, In q (aggregated searchResults) ->
            lessThan (get q "price") (snd st)
            = Num.ltb (priceKey q) (ToNumber (snd st))).
  { intros q Hq. destruct (priced_key q (Hproducts q Hq)) as [Hget _].
    rewrite Hget. now rewrite (lt_numeric (JNum (priceKey q)) _ eq_refl Hlike). }
  destruct Hcase as [[_ Hinf] | (Hin & Hprice & _)].
  - exfalso. destruct (aggregated searchResults) as [| q l] eqn:Hagg;
      [now apply Hsome |].
    destruct (Hseen q (or_introl eq_refl)) as [_ Hlow].
    rewrite (Hkey q (or_introl eq_refl)), Hinf in Hlow.
    destruct (priced_key q (Hproducts q (or_introl eq_refl))) as [_ Hnn].
    destruct (nonNegative_below_infinity _ Hnn) as [Hbelow _].
    change (Num.ltb (priceKey q) Num.PosInf = false) in Hlow. congruence.
  - destruct (priced_key _ (Hproducts _ Hin)) as [Hbest_price Hbest_nn].
    rewrite Hbest_price in Hprice.
    assert (Hlowest : forall q, In q (aggregated searchResults) ->
              Num.leb (priceKey (fst st)) (priceKey q) = true).
    { intros q Hq. destruct (Hseen q Hq) as [_ Hlow].
      rewrite (Hkey q Hq), Hprice in Hlow.
      change (Num.ltb (priceKey q) (priceKey (fst st)) = false) in Hlow.
      destruct (priced_key q (Hproducts q Hq)) as [_ Hnn].
      destruct (nonNegative_below_infinity _ Hnn) as [_ Hq_nan].
      destruct (nonNegative_below_infinity _ Hbest_nn) as [_ Hb_nan].
      now apply leb_total. }
    destruct (Array_sort priceOrder (aggregated searchResults))
      as [| first rest] eqn:Hsorted.
    + apply Permutation_sym, Permutation_nil in Hperm. contradiction.
    + assert (Hfirst : In first (aggregated searchResults)).
      { apply (Permutation_in first (Permutation_sym Hperm)). now left. }
      exists (fst st), first, rest.
      split; [exact Hbest |]. split; [exact Hall |].
      split; [exact Hin |]. split; [exact Hfirst |].
      apply leb_antisym; [now apply Hlowest |].
      apply (Permutation_in _ Hperm) in Hin.
      destruct Hin as [Hsame | Hrest].
      * rewrite Hsame.
        destruct (nonNegative_below_infinity _ Hbest_nn) as [_ Hb_nan].
        now apply leb_refl.
      * inversion Horder as [| ? ? _ Hall_rest]; subst.
        rewrite Forall_forall in Hall_rest. now apply Hall_rest.
Qed.

Lemma best_deal_is_priced_as_the_first_product_witness :
  exists best first rest,
    @getBestDeal exampleHost pricedStores = Normal best
    /\ @getAllProducts exampleHost pricedStores = Normal (first :: rest)
    /\ Num.eqb (priceKey best) (priceKey first) = true
    /\ get best "id" = JStr "a2".
Proof.
  destruct (@best_deal_is_priced_as_the_first_product exampleHost pricedStores)
    as (best & first & rest & Hbest & Hall & _ & _ & Hsame).
  - right. reflexivity.
  - right. reflexivity.
  - unfold aggregated, pricedStores, product, pricedAtOrAboveZero. simpl.
    repeat constructor; eexists; try reflexivity; split; reflexivity.
  - discriminate.
  - exists best, first, rest. split; [exact Hbest |]. split; [exact Hall |].
    split; [exact Hsame |].
    vm_compute in Hbest. injection Hbest as <-. reflexivity.
Defined.

End AllProductsSpec.

(** ** The price chart: the order of the points *)

Module ChartOrderSpec.
Import Js PriceChart ComparisonTable ChartData NumFacts SortFacts ChartFacts
  SubtractionFacts.

(** X24: When every entry that passes the chart's filter has a valid date at
    or after the epoch, the points of the chart are those entries in
    ascending order of date, whatever their order in the history is: the
    labels and the prices are read off the entries in that order. *)
Theorem chart_points_in_date_order `{DateHost} (items : list JsVal) :
  filter plottable items <> [] ->
  Forall datedFromEpoch (filter plottable items) ->
  exists sorted,
    chartSeries items
    = inr {| labels := map (fun item => formatDate (get item "date")) sorted;
             prices := map priceOf sorted;
             lineColor := gradientColorOf (map priceOf sorted) |}
    /\ Permutation (filter plottable items) sorted
    /\ StronglySorted (fun a b => Num.leb (timeOf a) (timeOf b) = true) sorted.
Proof.
  intros Hsome Hdated.
  exists (Array_sort byDate (filter plottable items)).
  split; [exact (chartSeries_some items Hsome) |].
  split; [apply Array_sort_perm |].
  assert (Horder : forall a b, datedFromEpoch a -> datedFromEpoch b ->
            inOrder byDate a b <-> Num.leb (timeOf a) (timeOf b) = true).
  { intros a b Ha Hb. unfold inOrder, byDate.
    exact (nonNegative_compare (timeOf a) (timeOf b) Ha Hb). }
  assert (Hnan : forall a, datedFromEpoch a -> Num.is_nan (timeOf a) = false).
  { intros a Ha. unfold datedFromEpoch in Ha.
    now destruct (timeOf a) as [[|] | | | [|] m e]. }
  apply (StronglySorted_impl (inOrder byDate)).
  - intros a b Ha Hb.
    pose proof (Array_sort_typed byDate datedFromEpoch _ Hdated) as Htyped.
    rewrite Forall_forall in Htyped.
    now apply Horder; apply Htyped.
  - apply (Array_sort_sorted byDate datedFromEpoch); [| | exact Hdated].
    + intros a b Ha Hb. rewrite !Horder by assumption.
      destruct (Num.ltb (timeOf b) (timeOf a)) eqn:Hba.
      * right. now apply ltb_leb.
      * left. apply leb_total; auto.
    + intros a b c Ha Hb Hc. rewrite !Horder by assumption.
      apply leb_trans.
Qed.

Lemma chart_points_in_date_order_witness :
  (exists sorted,
     @chartSeries timestampHost (items_of unorderedHistory)
     = inr {| labels := map (fun item => @formatDate timestampHost
                                           (get item "date")) sorted;
              prices := map priceOf sorted;
              lineColor := gradientColorOf (map priceOf sorted) |}
     /\ StronglySorted
          (fun a b => Num.leb (@timeOf timestampHost a)
                              (@timeOf timestampHost b) = true) sorted)
  /\ exists series stats,
       @chartSeries timestampHost (items_of unorderedHistory) = inr series
       /\ prices series = [Num.ofZ 500; Num.ofZ 450]
       /\ lineColor series = "#10b981"
       /\ calculateStats unorderedHistory productAt5 = Normal (stats, None)
       /\ trend stats = Up.
Proof.
  split.
  - destruct (@chart_points_in_date_order timestampHost
                (items_of unorderedHistory))
      as (sorted & Hrun & _ & Hsorted).
    + discriminate.
    + repeat constructor.
    + exists sorted. split; [exact Hrun | exact Hsorted].
  - do 2 eexists. split; [vm_compute; reflexivity |].
    split; [vm_compute; reflexivity |]. split; [reflexivity |].
    split; [vm_compute; reflexivity | reflexivity].
Defined.

(** X20: For a history of two or more entries that all have a valid price and
    a valid date at or after the epoch, and that is in the order of its
    dates, the chart plots the very prices the statistics are computed
    from, and the line is green exactly when the change pill shows a
    fall, red when it shows a rise or no change. *)
Theorem chart_colour_follows_the_trend `{DateHost} (items : list JsVal)
  (product : JsVal) :
  Forall (fun item => validItem item = true
                      /\ truthy (get item "date") = true) items ->
  Forall datedFromEpoch items ->
  Sorted (fun a b => Num.leb (timeOf a) (timeOf b) = true) items ->
  2 <= List.length items ->
  exists stats series,
    calculateStats (JArr items) product = Normal (stats, None)
    /\ chartSeries items = inr series
    /\ prices series = pricesOf (JArr items)
    /\ (lineColor series = "#10b981" <-> trend stats = Down)
    /\ (lineColor series = "#ef4444" <-> trend stats <> Down).
Proof.
  intros Hitems Hdated Hsorted Hlen.
  assert (Hordered : Sorted (inOrder byDate) items).
  { clear Hitems Hlen.
    induction Hsorted as [| x l Hl IH Hhd]; [constructor |].
    inversion Hdated as [| ? ? Hx Hrest]; subst.
    constructor; [now apply IH |].
    destruct Hhd as [| y l Hxy]; constructor.
    inversion Hrest as [| ? ? Hy _]; subst.
    unfold inOrder, byDate.
    now apply (nonNegative_compare (timeOf x) (timeOf y) Hx Hy). }
  assert (Hvalid : validData (JArr items) = items).
  { unfold validData. cbn [items_of]. apply filter_all.
    eapply Forall_impl; [| exact Hitems]. now intros item [Hv _]. }
  assert (Hplot : filter plottable items = items).
  { apply filter_all. eapply Forall_impl; [| exact Hitems].
    intros item [Hv Hdate]. pose proof (filters_agree item) as Hagree.
    rewrite Hv, Hdate in Hagree. now apply andb_true_iff in Hagree. }
  assert (Hsome : items <> []) by (destruct items; [simpl in Hlen; lia | discriminate]).
  pose proof (PriceChartFacts.calculateStats_some_valid (JArr items) product)
    as Hrun.
  rewrite Hvalid in Hrun. specialize (Hrun Hsome). cbv zeta in Hrun.
  pose proof (chartSeries_some items) as Hchart.
  rewrite Hplot in Hchart. specialize (Hchart Hsome). cbv zeta in Hchart.
  rewrite (Array_sort_in_order byDate items Hordered) in Hchart.
  do 2 eexists. split; [exact Hrun |]. split; [exact Hchart |].
  cbn [prices lineColor]. unfold pricesOf. rewrite Hvalid.
  split; [reflexivity |].
  unfold gradientColorOf, trend. cbn [priceChange].
  rewrite length_map.
  destruct (Nat.leb_spec 2 (List.length items)) as [_ | Hshort]; [| lia].
  destruct (Num.ltb (Num.sub (last (map priceOf items) Num.NaN)
                             (hd Num.NaN (map priceOf items))) Num.zero).
  - split; split; intros Hsame; try reflexivity; try discriminate Hsame.
    now contradiction Hsame.
  - destruct (Num.ltb Num.zero (Num.sub _ _)); split; split; intros Hsame;
      try reflexivity; try discriminate Hsame; discriminate.
Qed.

Lemma chart_colour_follows_the_trend_witness :
  exists stats series,
    calculateStats fallingHistory productAt5 = Normal (stats, None)
    /\ @chartSeries timestampHost (items_of fallingHistory) = inr series
    /\ lineColor series = "#10b981"
    /\ trend stats = Down.
Proof.
  destruct (@chart_colour_follows_the_trend timestampHost
              (items_of fallingHistory) productAt5)
    as (stats & series & Hrun & Hchart & _ & Hgreen & _).
  - repeat constructor.
  - repeat constructor.
  - repeat constructor.
  - simpl. lia.
  - exists stats, series. split; [exact Hrun |]. split; [exact Hchart |].
    assert (Hcolour : lineColor series = "#10b981").
    { vm_compute in Hchart. injection Hchart as <-. reflexivity. }
    split; [exact Hcolour | now apply Hgreen].
Defined.

End ChartOrderSpec.
